(** * Incremental crawl-and-deduplicate engine of the Sinhala news scrapers

    A shallow embedding of the scrapers under [scripts/]:
    [hirunews/scrape_hirunews.py], [lankadeepa/scrape_lankadeepa.py],
    [news_first/scrape_news_first.py] and [itnnews/itn_news_scraper.py].

    Python values are modelled as follows.
    - [str] is a list of Unicode code points ([pystr]); [len], [zfill] and
      [split] therefore count code points, as Python does, and
      [text.encode()] is an explicit UTF-8 encoder.
    - [hashlib.md5(...).hexdigest()] is MD5 (RFC 1321) over 32-bit words
      held in [Z] with the wrap-around written out.
    - [set] is stdpp's [gset], the directory tree a [gmap] from paths to
      file contents.
    - Code that reads the clock, writes files or talks to the network runs
      in a small state-and-exception monad; the clock, the disk and the
      network are oracles of the environment. *)

From Stdlib Require Import ZArith List String Ascii Lia Bool.
From stdpp Require Import base gmap sets list.
Import ListNotations.
Local Open Scope Z_scope.
#[global] Set Warnings "-clear-no-such-hyp".

(** ** Python strings *)

(** A [str] is its sequence of code points. *)
Abbreviation pystr := (list Z).

Module PyStr.

(** The bytes of a string literal of this file (they are UTF-8). *)
Fixpoint literal_bytes (s : string) : list Z :=
  match s with
  | EmptyString => []
  | String c r => Z.of_nat (nat_of_ascii c) :: literal_bytes r
  end.

Definition cont (b : Z) : Z := Z.land b 0x3F.

(** UTF-8 decoding, used to write literals such as the Sinhala month
    names; a truncated tail decodes to nothing. *)
Fixpoint utf8_decode (bs : list Z) : pystr :=
  match bs with
  | [] => []
  | b0 :: r0 =>
      if b0 <? 0x80 then b0 :: utf8_decode r0
      else
        match r0 with
        | [] => []
        | b1 :: r1 =>
            if b0 <? 0xE0 then
              (Z.shiftl (Z.land b0 0x1F) 6 + cont b1) :: utf8_decode r1
            else
              match r1 with
              | [] => []
              | b2 :: r2 =>
                  if b0 <? 0xF0 then
                    (Z.shiftl (Z.land b0 0x0F) 12 + Z.shiftl (cont b1) 6 + cont b2)
                      :: utf8_decode r2
                  else
                    match r2 with
                    | [] => []
                    | b3 :: r3 =>
                        (Z.shiftl (Z.land b0 0x07) 18 + Z.shiftl (cont b1) 12
                         + Z.shiftl (cont b2) 6 + cont b3) :: utf8_decode r3
                    end
              end
        end
  end.

(** [u "text"] is the Python literal ["text"]. *)
Definition u (s : string) : pystr := utf8_decode (literal_bytes s).

(** UTF-8 encoding of one code point; [None] is [UnicodeEncodeError]
    (a lone surrogate, which [json] can produce from an escape such as
    [\ud800]). *)
Definition encode_point (c : Z) : option (list Z) :=
  if (c <? 0) || (0x10FFFF <? c) then None
  else if c <? 0x80 then Some [c]
  else if c <? 0x800 then
    Some [Z.lor 0xC0 (Z.shiftr c 6); Z.lor 0x80 (Z.land c 0x3F)]
  else if (0xD800 <=? c) && (c <=? 0xDFFF) then None
  else if c <? 0x10000 then
    Some [Z.lor 0xE0 (Z.shiftr c 12);
          Z.lor 0x80 (Z.land (Z.shiftr c 6) 0x3F);
          Z.lor 0x80 (Z.land c 0x3F)]
  else
    Some [Z.lor 0xF0 (Z.shiftr c 18);
          Z.lor 0x80 (Z.land (Z.shiftr c 12) 0x3F);
          Z.lor 0x80 (Z.land (Z.shiftr c 6) 0x3F);
          Z.lor 0x80 (Z.land c 0x3F)].

(** [text.encode()] *)
Fixpoint encode (s : pystr) : option (list Z) :=
  match s with
  | [] => Some []
  | c :: r =>
      match encode_point c, encode r with
      | Some bs, Some rest => Some (bs ++ rest)
      | _, _ => None
      end
  end.

(** [str.isspace] on one character: the characters [split()] and
    [strip()] treat as white space. *)
Definition isspace (c : Z) : bool :=
  ((0x09 <=? c) && (c <=? 0x0D)) || ((0x1C <=? c) && (c <=? 0x20))
  || (c =? 0x85) || (c =? 0xA0) || (c =? 0x1680)
  || ((0x2000 <=? c) && (c <=? 0x200A))
  || (c =? 0x2028) || (c =? 0x2029) || (c =? 0x202F) || (c =? 0x205F)
  || (c =? 0x3000).

(** [s.split()]: maximal runs of non-space characters. [cur] is the
    run being read, reversed. *)
Fixpoint split_go (cur : pystr) (s : pystr) : list pystr :=
  match s with
  | [] => match cur with [] => [] | _ => [rev cur] end
  | c :: r =>
      if isspace c then
        match cur with
        | [] => split_go [] r
        | _ => rev cur :: split_go [] r
        end
      else split_go (c :: cur) r
  end.

Definition split (s : pystr) : list pystr := split_go [] s.

(** [s.lstrip()], [s.rstrip()], [s.strip()] *)
Fixpoint lstrip (s : pystr) : pystr :=
  match s with
  | c :: r => if isspace c then lstrip r else s
  | [] => []
  end.

Definition strip (s : pystr) : pystr := rev (lstrip (rev (lstrip s))).

(** [s.zfill(width)]: zeros on the left up to [width] characters; a
    leading ['+'] or ['-'] stays in front of the zeros. *)
Definition zfill (width : nat) (s : pystr) : pystr :=
  let pad := repeat 0x30 (width - length s)%nat in
  match s with
  | c :: r => if (c =? 0x2B) || (c =? 0x2D) then c :: pad ++ r else pad ++ s
  | [] => pad
  end.

(** [n] on [width] decimal digits, zero padded ([%0{width}d]). *)
Definition digit (n : Z) : Z := 0x30 + n mod 10.

Fixpoint digits (width : nat) (n : Z) : pystr :=
  match width with
  | O => []
  | S w => digits w (n / 10) ++ [digit n]
  end.

Definition isdigit (c : Z) : bool := (0x30 <=? c) && (c <=? 0x39).

End PyStr.

(** ** MD5 ([hashlib.md5]) *)

Module MD5.

Definition w32 (x : Z) : Z := x mod 2 ^ 32.
Definition add32 (x y : Z) : Z := w32 (x + y).
Definition not32 (x : Z) : Z := Z.lxor x 0xFFFFFFFF.
Definition rotl32 (x n : Z) : Z :=
  w32 (Z.lor (Z.shiftl x n) (Z.shiftr x (32 - n))).

Definition K : list Z :=
  [ 0xd76aa478; 0xe8c7b756; 0x242070db; 0xc1bdceee;
    0xf57c0faf; 0x4787c62a; 0xa8304613; 0xfd469501;
    0x698098d8; 0x8b44f7af; 0xffff5bb1; 0x895cd7be;
    0x6b901122; 0xfd987193; 0xa679438e; 0x49b40821;
    0xf61e2562; 0xc040b340; 0x265e5a51; 0xe9b6c7aa;
    0xd62f105d; 0x02441453; 0xd8a1e681; 0xe7d3fbc8;
    0x21e1cde6; 0xc33707d6; 0xf4d50d87; 0x455a14ed;
    0xa9e3e905; 0xfcefa3f8; 0x676f02d9; 0x8d2a4c8a;
    0xfffa3942; 0x8771f681; 0x6d9d6122; 0xfde5380c;
    0xa4beea44; 0x4bdecfa9; 0xf6bb4b60; 0xbebfbc70;
    0x289b7ec6; 0xeaa127fa; 0xd4ef3085; 0x04881d05;
    0xd9d4d039; 0xe6db99e5; 0x1fa27cf8; 0xc4ac5665;
    0xf4292244; 0x432aff97; 0xab9423a7; 0xfc93a039;
    0x655b59c3; 0x8f0ccc92; 0xffeff47d; 0x85845dd1;
    0x6fa87e4f; 0xfe2ce6e0; 0xa3014314; 0x4e0811a1;
    0xf7537e82; 0xbd3af235; 0x2ad7d2bb; 0xeb86d391 ].

Definition S : list Z :=
  [ 7; 12; 17; 22; 7; 12; 17; 22; 7; 12; 17; 22; 7; 12; 17; 22;
    5; 9; 14; 20; 5; 9; 14; 20; 5; 9; 14; 20; 5; 9; 14; 20;
    4; 11; 16; 23; 4; 11; 16; 23; 4; 11; 16; 23; 4; 11; 16; 23;
    6; 10; 15; 21; 6; 10; 15; 21; 6; 10; 15; 21; 6; 10; 15; 21 ].

(** The message with its padding: a [0x80] byte, zeros up to 56 modulo
    64, then the bit length on 64 bits, little endian. *)
Definition le_bytes (n : nat) (x : Z) : list Z :=
  map (fun i => Z.land (Z.shiftr x (8 * Z.of_nat i)) 0xFF) (seq 0 n).

Definition pad (msg : list Z) : list Z :=
  let len := Z.of_nat (length msg) in
  let zeros := Z.to_nat ((55 - len) mod 64) in
  msg ++ [0x80] ++ repeat 0 zeros ++ le_bytes 8 ((8 * len) mod 2 ^ 64).

Definition le_word (bs : list Z) : Z :=
  fold_right (fun b acc => b + 256 * acc) 0 bs.

Fixpoint words (n : nat) (bs : list Z) : list Z :=
  match n with
  | O => []
  | Datatypes.S n' => le_word (firstn 4 bs) :: words n' (skipn 4 bs)
  end.

Record state := mk { sa : Z; sb : Z; sc : Z; sd : Z }.

Definition init : state :=
  mk 0x67452301 0xefcdab89 0x98badcfe 0x10325476.

Definition round (M : list Z) (st : state) (i : nat) : state :=
  let '(mk A B C D) := st in
  let zi := Z.of_nat i in
  let '(F, g) :=
    if zi <? 16 then (Z.lor (Z.land B C) (Z.land (not32 B) D), zi)
    else if zi <? 32 then
      (Z.lor (Z.land D B) (Z.land (not32 D) C), (5 * zi + 1) mod 16)
    else if zi <? 48 then (Z.lxor (Z.lxor B C) D, (3 * zi + 5) mod 16)
    else (Z.lxor C (Z.lor B (not32 D)), (7 * zi) mod 16) in
  let F' := add32 (add32 (add32 F A) (nth i K 0)) (nth (Z.to_nat g) M 0) in
  mk D (add32 B (rotl32 F' (nth i S 0))) B C.

Definition block (st : state) (chunk : list Z) : state :=
  let M := words 16 chunk in
  let '(mk A B C D) := fold_left (round M) (seq 0 64) st in
  mk (add32 (sa st) A) (add32 (sb st) B) (add32 (sc st) C) (add32 (sd st) D).

Fixpoint blocks (n : nat) (st : state) (bs : list Z) : state :=
  match n with
  | O => st
  | Datatypes.S n' => blocks n' (block st (firstn 64 bs)) (skipn 64 bs)
  end.

Definition digest (msg : list Z) : list Z :=
  let p := pad msg in
  let st := blocks (length p / 64) init p in
  le_bytes 4 (sa st) ++ le_bytes 4 (sb st) ++ le_bytes 4 (sc st) ++ le_bytes 4 (sd st).

Definition hex_digit (n : Z) : Z := if n <? 10 then 0x30 + n else 0x61 + (n - 10).

(** [hashlib.md5(msg).hexdigest()] *)
Definition hexdigest (msg : list Z) : pystr :=
  flat_map (fun b => [hex_digit (b / 16); hex_digit (b mod 16)]) (digest msg).

End MD5.

Import PyStr.


(** [s.replace(c, by)] for a one-character pattern [c]. *)
Definition replace_char (c : Z) (by_ : pystr) (s : pystr) : pystr :=
  flat_map (fun x => if x =? c then by_ else [x]) s.

(** [s.startswith(prefix)] *)
Fixpoint startswith (s prefix : pystr) : bool :=
  match prefix, s with
  | [], _ => true
  | p :: prefix', c :: s' => (c =? p) && startswith s' prefix'
  | _ :: _, [] => false
  end.

(** [needle in s] for strings. *)
Fixpoint contains (needle s : pystr) : bool :=
  startswith s needle
  || match s with
     | [] => false
     | _ :: s' => contains needle s'
     end.

(** [s.split(sep)] for a one-character separator: the fields between
    the separators, empty ones included. *)
Fixpoint split_on (sep : Z) (s : pystr) : list pystr :=
  match s with
  | [] => [[]]
  | c :: r =>
      match split_on sep r with
      | field :: fields =>
          if c =? sep then [] :: field :: fields else (c :: field) :: fields
      | [] => [[c]]
      end
  end.

(** [sep.join(parts)] *)
Fixpoint join (sep : pystr) (parts : list pystr) : pystr :=
  match parts with
  | [] => []
  | [p] => p
  | p :: rest => p ++ sep ++ join sep rest
  end.

(** Truth value of a string: [if s:] holds for the non-empty ones. *)
Definition truthy (s : pystr) : bool :=
  match s with [] => false | _ => true end.

(** [os.path.join(a, b)] for a relative component [b]. *)
Definition path_join (a b : pystr) : pystr := a ++ u "/" ++ b.

(** ** The [datetime] library

    The scrapers call [datetime.strptime], [datetime.fromisoformat],
    [isoformat] and [strftime]. They are an interface here: what is
    proved holds for every implementation, CPython's included. [None] is
    the [ValueError] of a text the library does not accept. *)
Class DatetimeLib := {
  datetime : Type;
  strptime : pystr -> pystr -> option datetime;
  fromisoformat : pystr -> option datetime;
  isoformat : datetime -> pystr;
  strftime : datetime -> pystr -> pystr;
}.

(** ** Files, exceptions and effects *)

(** The JSON documents the scrapers write and read back. *)
Inductive json :=
| JList (items : list pystr)
| JDict (fields : list (pystr * pystr)).

(** What a file holds. *)
Inductive file :=
| Garbled              (* bytes that are not UTF-8 *)
| Empty                (* just truncated by [open(path, 'w')] *)
| Malformed            (* text that is not a JSON document: a partial dump *)
| Unsettable           (* a JSON document [set] cannot take: [null], a number,
                          a list that holds a list *)
| Unreadable           (* a file [open(path, 'r')] is refused *)
| Json (doc : json).

Inductive exn :=
| JSONDecodeError
| UnicodeDecodeError
| UnicodeEncodeError
| FileNotFoundError
| OSError
| ValueError
| TypeError
| AttributeError
| IndexError.

(** The effects of a run, in the order they happen. *)
Inductive event :=
| Requested (page : nat)              (* a listing page is asked of the site *)
| Fetched (url : pystr)               (* an article page is asked of the site *)
| Skipped (id : pystr)                (* the candidate is in the Seen-Set *)
| Rejected (url : pystr)              (* fetch failed or the record is not viable *)
| Errored (e : exn)                   (* "Error processing article" *)
| Opened (path : pystr)               (* [open(path, 'w')]: created or truncated *)
| OpenFailed (path : pystr)           (* [open(path, 'w')] raised [OSError] *)
| Wrote (path : pystr) (doc : json)   (* [json.dump] and close *)
| DumpFailed (path : pystr) (remains : file)  (* [json.dump] raised *)
| Marked (id : pystr)                 (* [existing_ids.add(id)] *)
| PageDone (page new : nat).          (* "Found [new] new articles on page" *)

#[global] Instance json_eq_dec : EqDecision json.
Proof. solve_decision. Defined.
#[global] Instance file_eq_dec : EqDecision file.
Proof. solve_decision. Defined.
#[global] Instance exn_eq_dec : EqDecision exn.
Proof. solve_decision. Defined.
#[global] Instance event_eq_dec : EqDecision event.
Proof. solve_decision. Defined.

(** The file system, the number of clock readings and of [open(_, 'w')]
    calls so far. *)
Record state := State {
  fs : gmap pystr file;
  reads : nat;
  opens : nat;
}.

Inductive outcome (A : Type) :=
| Ok (a : A)
| Raise (e : exn).
Arguments Ok {A} a.
Arguments Raise {A} e.

(** A computation: from a state to an outcome, the state it leaves (kept
    when an exception is raised: what was written stays written) and the
    effects it had. *)
Definition M (A : Type) : Type := state -> outcome A * state * list event.

Definition ret {A} (a : A) : M A := fun s => (Ok a, s, []).

Definition bind {A B} (m : M A) (f : A -> M B) : M B :=
  fun s =>
    match m s with
    | (Ok a, s1, t1) =>
        match f a s1 with
        | (r, s2, t2) => (r, s2, t1 ++ t2)
        end
    | (Raise e, s1, t1) => (Raise e, s1, t1)
    end.

Definition raise {A} (e : exn) : M A := fun s => (Raise e, s, []).

Definition emit (e : event) : M unit := fun s => (Ok tt, s, [e]).

(** [try: m except <the exceptions of catches>: handler] *)
Definition try_except {A} (m : M A) (catches : exn -> bool) (handler : exn -> M A) : M A :=
  fun s =>
    match m s with
    | (Ok a, s1, t1) => (Ok a, s1, t1)
    | (Raise e, s1, t1) =>
        if catches e then
          match handler e s1 with
          | (r, s2, t2) => (r, s2, t1 ++ t2)
          end
        else (Raise e, s1, t1)
    end.

Definition from_option {A} (e : exn) (o : option A) : M A :=
  match o with
  | Some a => ret a
  | None => raise e
  end.

Declare Scope py_scope.
Delimit Scope py_scope with py.
Notation "x ← m ; k" := (bind m (fun x => k))
  (at level 20, m at level 100, k at level 200, only parsing) : py_scope.
Notation "' p ← m ; k" := (bind m (fun p => k))
  (at level 20, p pattern, m at level 100, k at level 200, only parsing) : py_scope.
Notation "m ;; k" := (bind m (fun _ => k))
  (at level 100, k at level 200, only parsing, right associativity) : py_scope.
Open Scope py_scope.

Definition result {A} (x : outcome A * state * list event) : outcome A := x.1.1.
Definition final {A} (x : outcome A * state * list event) : state := x.1.2.
Definition trace {A} (x : outcome A * state * list event) : list event := x.2.

(** How the disk takes the document [json.dump] writes into a file
    just opened: all of it, none of it or a part of it, the last two
    with an [OSError]. *)
Inductive dump_outcome := DumpCompletes | DumpNothing | DumpPartial.

(** The environment a scraper runs in: the clock ([clock n] is what the
    [n]-th call of [datetime.now()] returns), the disk ([disk_ok n]:
    whether the [n]-th [open(_, 'w')] succeeds; [disk_write n]: how the
    dump into the file it opened goes; [mkdir_ok n]: whether
    [os.makedirs(_, exist_ok=True)] succeeds after [n] opens) and the
    order in which a [set] is listed ([set_order n ids] is [list(ids)]
    after [n] opens: every member once, in an order the set alone does
    not fix). *)
Class World `{DatetimeLib} := {
  clock : nat -> datetime;
  disk_ok : nat -> bool;
  disk_write : nat -> dump_outcome;
  mkdir_ok : nat -> bool;
  set_order : nat -> gset pystr -> list pystr;
  set_order_perm : ∀ n ids, set_order n ids ≡ₚ elements ids;
}.

Section Primitives.
Context `{World}.

(** [datetime.now()] *)
Definition now : M datetime :=
  fun s => (Ok (clock (reads s)), State (fs s) (S (reads s)) (opens s), []).

(** [os.path.exists(path)] *)
Definition path_exists (path : pystr) : M bool :=
  fun s => (Ok (bool_decide (is_Some (fs s !! path))), s, []).

(** [open(path, 'w')]: the file is created, or truncated at once. *)
Definition open_w (path : pystr) : M unit :=
  fun s =>
    if disk_ok (opens s) then
      (Ok tt, State (<[path := Empty]> (fs s)) (reads s) (S (opens s)), [Opened path])
    else
      (Raise OSError, State (fs s) (reads s) (S (opens s)), [OpenFailed path]).

(** [os.makedirs(directory, exist_ok=True)] *)
Definition makedirs : M unit :=
  fun s => if mkdir_ok (opens s) then (Ok tt, s, []) else (Raise OSError, s, []).

(** The strings of a document. *)
Definition json_strings (doc : json) : list pystr :=
  match doc with
  | JList items => items
  | JDict fields => flat_map (fun kv => [kv.1; kv.2]) fields
  end.

(** A document the UTF-8 writer of the file takes: with
    [ensure_ascii=False] a string that holds a lone surrogate reaches
    the file as it is, and the encoder refuses it. *)
Definition dumpable (doc : json) : bool :=
  forallb (fun text => match encode text with Some _ => true | None => false end)
    (json_strings doc).

(** [json.dump(doc, f, ensure_ascii=False, indent=2)] into the file the
    [n]-th [open] opened, and the end of the [with] block. The text
    goes to the file piece by piece: when a piece is refused, what was
    written before stays. *)
Definition json_dump (n : nat) (path : pystr) (doc : json) : M unit :=
  fun s =>
    match disk_write n with
    | DumpCompletes =>
        if dumpable doc then
          (Ok tt, State (<[path := Json doc]> (fs s)) (reads s) (opens s),
           [Wrote path doc])
        else
          (Raise UnicodeEncodeError,
           State (<[path := Malformed]> (fs s)) (reads s) (opens s),
           [DumpFailed path Malformed])
    | DumpNothing =>
        (Raise OSError, State (<[path := Empty]> (fs s)) (reads s) (opens s),
         [DumpFailed path Empty])
    | DumpPartial =>
        (Raise OSError, State (<[path := Malformed]> (fs s)) (reads s) (opens s),
         [DumpFailed path Malformed])
    end.

(** [with open(path, 'w', encoding='utf-8') as f: json.dump(doc, f)] *)
Definition write_json (path : pystr) (doc : json) : M unit :=
  fun s => (open_w path ;; json_dump (opens s) path doc) s.

(** [list(ids)] *)
Definition list_of_set (ids : gset pystr) : M (list pystr) :=
  fun s => (Ok (set_order (opens s) ids), s, []).

(** [with open(path, 'r', encoding='utf-8') as f: json.load(f)], for
    the argument of [set]: every loader applies [set] to the document at
    once, inside the same [try] when it has one, so the [TypeError] of
    [set] on a document it cannot take is raised here. *)
Definition read_json (path : pystr) : M json :=
  fun s =>
    match fs s !! path with
    | None => (Raise FileNotFoundError, s, [])
    | Some Unreadable => (Raise OSError, s, [])
    | Some Garbled => (Raise UnicodeDecodeError, s, [])
    | Some Empty | Some Malformed => (Raise JSONDecodeError, s, [])
    | Some Unsettable => (Raise TypeError, s, [])
    | Some (Json doc) => (Ok doc, s, [])
    end.

(** [set(doc)]: the items of a list, the keys of a dict. *)
Definition py_set (doc : json) : gset pystr :=
  match doc with
  | JList items => list_to_set items
  | JDict fields => list_to_set (map fst fields)
  end.

(** [hashlib.md5(text.encode()).hexdigest()] *)
Definition md5_hex (text : pystr) : option pystr :=
  option_map MD5.hexdigest (encode text).

End Primitives.

(** The record every scraper builds. *)
Record NewsArticle := {
  id : pystr;
  source : pystr;
  headline : pystr;
  content : pystr;
  timestamp : pystr;
  url : pystr;
}.

(** [d.get(key, "")] on a dict of strings. *)
Definition dict_get (d : gmap pystr pystr) (key : pystr) : pystr :=
  default [] (d !! key).

(** The file-system states a concurrent reader can come across while the
    effects of [t] happen one after the other, starting from [files]. *)
Definition apply_event (files : gmap pystr file) (e : event) : gmap pystr file :=
  match e with
  | Opened path => <[path := Empty]> files
  | Wrote path doc => <[path := Json doc]> files
  | DumpFailed path remains => <[path := remains]> files
  | _ => files
  end.

Fixpoint fs_history (files : gmap pystr file) (t : list event) : list (gmap pystr file) :=
  match t with
  | [] => []
  | e :: t' => apply_event files e :: fs_history (apply_event files e) t'
  end.

(** The ID of a persisted article record. *)
Definition record_id (doc : json) : option pystr :=
  match doc with
  | JDict fields => snd <$> find (fun kv => bool_decide (kv.1 = u "id")) fields
  | JList _ => None
  end.

(** ** Hiru News ([scripts/hirunews/scrape_hirunews.py]) *)

(** An element of the answer of the API: an object, with its string
    fields, or a value that has no [get] (a string, a number, a list). *)
Inductive api_item :=
| ItemDict (article_data : gmap pystr pystr)
| ItemOther.

(** The answer of the API: the elements [for article_data in
    articles_data] goes through, or a value that is true and cannot be
    iterated (a number, [true]). An answer that is false ([[]], [{}],
    [null], [0]) has no element; the keys of an object and the
    characters of a string are elements that are no objects. *)
Inductive api_answer :=
| ApiItems (items : list api_item)
| ApiNotIterable.

(** The site and the installation: what the API answers for a category
    and a page ([fetch_news_from_api] turns every failure of the request
    into the empty list), where the data directory is, and [str.lower]. *)
Class HiruSite := {
  api_response : pystr -> nat -> api_answer;
  data_dir : pystr;
  str_lower : pystr -> pystr;
}.

Module Hirunews.
Section Scraper.
Context `{World} `{HiruSite}.

Definition base_article_url : pystr := u "https://hirunews.lk/".

Definition get_md5_hash (text : pystr) : M pystr :=
  from_option UnicodeEncodeError (md5_hex text).

Definition existing_ids_file (category : pystr) : pystr :=
  path_join (path_join data_dir (str_lower category)) (u "existing_ids.json").

Definition load_existing_ids (category : pystr) : M (gset pystr) :=
  let existing_ids_file := existing_ids_file category in
  there ← path_exists existing_ids_file;
  if there : bool then
    try_except
      (doc ← read_json existing_ids_file; ret (py_set doc))
      (fun e => bool_decide (e = JSONDecodeError ∨ e = FileNotFoundError))
      (fun _ => ret ∅)
  else ret ∅.

Definition save_existing_ids (category : pystr) (ids : gset pystr) : M unit :=
  makedirs ;;
  listed ← list_of_set ids;
  write_json (existing_ids_file category) (JList listed).

Definition fetch_news_from_api (category : pystr) (page : nat) : M api_answer :=
  emit (Requested page) ;; ret (api_response category page).

Definition parse_article (article_data : gmap pystr pystr) (category : pystr)
  : M NewsArticle :=
  let seourltitle := dict_get article_data (u "seourltitle") in
  article_id ← get_md5_hash seourltitle;
  let timestamp_str := dict_get article_data (u "sinhala_added_date") in
  timestamp ←
    try_except
      (from_option ValueError (strptime timestamp_str (u "%Y-%m-%d %H:%M:%S")))
      (fun e => bool_decide (e = ValueError))
      (fun _ => now);
  ret {| id := article_id;
         source := u "hirunews";
         headline := dict_get article_data (u "sinhala_title");
         content := dict_get article_data (u "sinhala_story");
         timestamp := isoformat timestamp;
         url := base_article_url ++ seourltitle |}.

Definition article_filename (dt : datetime) (article_id : pystr) : pystr :=
  strftime dt (u "%Y-%m-%d_%H_%M_%S") ++ u "_" ++ article_id ++ u ".json".

Definition article_dict (article : NewsArticle) (category : pystr) : json :=
  JDict [ (u "id", id article);
          (u "source", source article);
          (u "headline", headline article);
          (u "content", content article);
          (u "timestamp", timestamp article);
          (u "url", url article);
          (u "category", category) ].

Definition save_article (article : NewsArticle) (category : pystr) : M unit :=
  let category_dir := path_join data_dir (str_lower category) in
  makedirs ;;
  dt ←
    try_except
      (from_option ValueError
         (fromisoformat (replace_char 0x5A (u "+00:00") (timestamp article))))
      (fun e => bool_decide (e = ValueError))
      (fun _ => now);
  let filename := article_filename dt (id article) in
  let filepath := path_join category_dir filename in
  write_json filepath (article_dict article category).

(** The loop state of [scrape_category]: [existing_ids], [new_ids],
    [page_new_articles] and [total_new_articles]. *)
Record counters := Counters {
  existing_ids : gset pystr;
  new_ids : gset pystr;
  page_new_articles : nat;
  total_new_articles : nat;
}.

(** The body of [for article_data in articles_data], with its [try]. *)
Definition process_article (category : pystr) (article_data : api_item)
    (c : counters) : M counters :=
  try_except
    (article ←
       match article_data with
       | ItemDict article_data => parse_article article_data category
       | ItemOther => raise AttributeError
       end;
     if bool_decide (id article ∈ existing_ids c) then
       emit (Skipped (id article)) ;; ret c
     else
       save_article article category ;;
       emit (Marked (id article)) ;;
       ret (Counters ({[id article]} ∪ existing_ids c)
                     ({[id article]} ∪ new_ids c)
                     (S (page_new_articles c))
                     (S (total_new_articles c))))
    (fun _ => true)
    (fun e => emit (Errored e) ;; ret c).

Fixpoint article_loop (category : pystr) (articles_data : list api_item)
    (c : counters) : M counters :=
  match articles_data with
  | [] => ret c
  | article_data :: rest =>
      c' ← process_article category article_data c;
      article_loop category rest c'
  end.

(** [for page in range(1, max_pages + 1)], over the pages still to
    visit. *)
Fixpoint page_loop (category : pystr) (pages : list nat) (c : counters) : M counters :=
  match pages with
  | [] => ret c
  | page :: rest =>
      articles_data ← fetch_news_from_api category page;
      match articles_data with
      | ApiItems [] => ret c
      | ApiNotIterable => raise TypeError
      | ApiItems articles_data =>
          c' ← article_loop category articles_data
                 (Counters (existing_ids c) (new_ids c) 0 (total_new_articles c));
          emit (PageDone page (page_new_articles c')) ;;
          if decide (page_new_articles c' = 0)%nat then ret c'
          else page_loop category rest c'
      end
  end.

Definition scrape_category (category : pystr) (max_pages : nat) : M nat :=
  loaded ← load_existing_ids category;
  c ← page_loop category (seq 1 max_pages) (Counters loaded ∅ 0 0);
  (if bool_decide (new_ids c = ∅) then ret tt
   else save_existing_ids category (existing_ids c)) ;;
  ret (total_new_articles c).

End Scraper.
End Hirunews.

(** [str(n)] for a page offset. *)
Fixpoint decimal_go (fuel : nat) (n : Z) (acc : pystr) : pystr :=
  match fuel with
  | O => acc
  | S fuel' =>
      let acc' := digit n :: acc in
      if n <? 10 then acc' else decimal_go fuel' (n / 10) acc'
  end.

Definition str_of_nat (n : nat) : pystr := decimal_go (S n) (Z.of_nat n) [].

(** ** Lankadeepa ([scripts/lankadeepa/scrape_lankadeepa.py]) *)

(** What BeautifulSoup finds in one article container of a category
    page: the [href] of its first link, and the text of its time span. *)
Record container := {
  link_href : option pystr;
  timec_text : option pystr;
}.

(** What the search for a date in the header of an article page comes
    to: no link with a month name and ['මස'], the date part cut out of
    the first such link, or a link with nothing after ['මස'], where
    [text.split('මස')[1].strip().split()[0]] raises [IndexError]. *)
Inductive date_link :=
| NoDateLink
| DatePart (date_part : pystr)
| BrokenDateLink.

(** What BeautifulSoup finds on an article page: the headline, the date
    link of the header, and the paragraphs kept as content. *)
Record article_page := {
  page_headline : pystr;
  page_date : date_link;
  page_content : pystr;
}.

(** The site: the answer to a [GET], [None] for a [RequestException]
    (or an empty body, which [if html:] treats alike). *)
Class LankaSite := {
  site_page : pystr -> option (list container);
  site_article : pystr -> option article_page;
}.

(** An entry of [articles_data]: [{'url': ..., 'timestamp': ...}]. *)
Record listed := {
  item_url : pystr;
  item_timestamp : option pystr;
}.

Module Lankadeepa.
Section Scraper.
Context `{World} `{LankaSite}.

Definition base_url : pystr := u "https://www.lankadeepa.lk".

Definition encode_url (url : pystr) : M pystr :=
  from_option UnicodeEncodeError (md5_hex url).

Definition category_urls : gmap pystr pystr :=
  list_to_map
    [ (u "politics", u "politics/13");
      (u "latest-news", u "latest-news/1");
      (u "news", u "news/101");
      (u "foreign", u "sports/14");
      (u "local", u "local/16");
      (u "business", u "ft") ].

Definition category_page_url (category : pystr) (page_offset : nat) : pystr :=
  let category_url := default category (category_urls !! category) in
  if decide (page_offset = 0)%nat then base_url ++ u "/" ++ category_url
  else base_url ++ u "/" ++ category_url ++ u "/" ++ str_of_nat page_offset.

Definition get_category_page (category : pystr) (page_offset : nat)
  : M (option (list container)) :=
  ret (site_page (category_page_url category page_offset)).

Definition sinhala_months : gmap pystr pystr :=
  list_to_map
    [ (u "ජනවාරි", u "01"); (u "පෙබරවාරි", u "02"); (u "මාර්තු", u "03");
      (u "අප්‍රේල්", u "04"); (u "මැයි", u "05"); (u "ජුනි", u "06");
      (u "ජූලි", u "07"); (u "අගෝස්තු", u "08"); (u "සැප්තැම්බර්", u "09");
      (u "ඔක්තෝබර්", u "10"); (u "නොවැම්බර්", u "11"); (u "දෙසැම්බර්", u "12") ].

Definition parse_sinhala_date (date_text : pystr) : M pystr :=
  let parts := split (strip date_text) in
  match parts with
  | year :: month_sinhala :: _ :: day :: _ =>
      let month_num := default (u "01") (sinhala_months !! month_sinhala) in
      ret (year ++ u "-" ++ month_num ++ u "-" ++ zfill 2 day ++ u "T00:00:00")
  | _ =>
      dt ← now; ret (isoformat dt)
  end.

Definition article_link (href : pystr) : bool :=
  startswith href (u "https://www.lankadeepa.lk/")
  && existsb (fun category => contains category href)
       [u "latest_news"; u "news"; u "politics"; u "sports"; u "foreign";
        u "local"; u "business"]
  && negb (existsb (fun skip => contains skip href)
             [u "page="; u "category="; u "/you_may_also_like/"]).

Fixpoint extract_loop (containers : list container) (articles_data : list listed)
  : M (list listed) :=
  match containers with
  | [] => ret articles_data
  | c :: rest =>
      match link_href c with
      | None => extract_loop rest articles_data
      | Some href =>
          if article_link href then
            timestamp ←
              match timec_text c with
              | Some timestamp_text =>
                  t ← parse_sinhala_date timestamp_text; ret (Some t)
              | None => ret None
              end;
            if bool_decide (href ∈ map item_url articles_data) then
              extract_loop rest articles_data
            else
              extract_loop rest (articles_data ++ [Build_listed href timestamp])
          else extract_loop rest articles_data
      end
  end.

Definition extract_article_urls_with_timestamps (html_content : list container)
  : M (list listed) :=
  extract_loop html_content [].

Definition pre_extracted (t : option pystr) : option pystr :=
  match t with
  | Some ts => if truthy ts then Some ts else None
  | None => None
  end.

(** [None] is the [return None] of the [RequestException] handler; an
    [IndexError] is no [RequestException] and leaves the function. *)
Definition scrape_article (url : pystr) (pre_extracted_timestamp : option pystr)
  : M (option NewsArticle) :=
  emit (Fetched url) ;;
  match site_article url with
  | None => ret None
  | Some page =>
      timestamp ←
        match pre_extracted pre_extracted_timestamp with
        | Some ts => ret ts
        | None =>
            dt ← now;
            match page_date page with
            | DatePart date_part => parse_sinhala_date date_part
            | NoDateLink => ret (isoformat dt)
            | BrokenDateLink => raise IndexError
            end
        end;
      article_id ← encode_url url;
      ret (Some {| id := article_id;
                   source := u "Lankadeepa";
                   headline := page_headline page;
                   content := page_content page;
                   timestamp := timestamp;
                   url := url |})
  end.

Definition category_dir (category : pystr) : pystr :=
  u "../../data/lankadeepa/" ++ category.

Definition ids_file (category : pystr) : pystr :=
  category_dir category ++ u "/existing_ids.json".

Definition load_existing_ids (category : pystr) : M (gset pystr) :=
  there ← path_exists (ids_file category);
  if there : bool then doc ← read_json (ids_file category); ret (py_set doc)
  else ret ∅.

Definition save_existing_ids (category : pystr) (ids : gset pystr) : M unit :=
  makedirs ;;
  listed ← list_of_set ids;
  write_json (ids_file category) (JList listed).

(** [asdict(article)] *)
Definition asdict (article : NewsArticle) : json :=
  JDict [ (u "id", id article);
          (u "source", source article);
          (u "headline", headline article);
          (u "content", content article);
          (u "timestamp", timestamp article);
          (u "url", url article) ].

Definition save_article (article : NewsArticle) (category : pystr) : M unit :=
  makedirs ;;
  timestamp_str ←
    match fromisoformat
            (replace_char 0x5A [] (replace_char 0x54 (u " ") (timestamp article))) with
    | Some pub_date => ret (strftime pub_date (u "%Y-%m-%d_%H_%M_%S"))
    | None => dt ← now; ret (strftime dt (u "%Y-%m-%d_%H_%M_%S"))
    end;
  let filename :=
    category_dir category ++ u "/" ++ timestamp_str ++ u "_" ++ id article ++ u ".json" in
  write_json filename (asdict article).

(** Step 1: the listing pages, all of them. *)
Fixpoint listing_loop (category : pystr) (pages : list nat)
    (all_articles_data : list listed) : M (list listed) :=
  match pages with
  | [] => ret all_articles_data
  | page :: rest =>
      let page_offset := (page * 30)%nat in
      emit (Requested (page + 1)) ;;
      html ← get_category_page category page_offset;
      match html with
      | Some html =>
          articles_data ← extract_article_urls_with_timestamps html;
          listing_loop category rest (all_articles_data ++ articles_data)
      | None => listing_loop category rest all_articles_data
      end
  end.

(** "Remove duplicates based on URL". *)
Fixpoint unique_loop (all_articles_data : list listed) (seen_urls : gset pystr)
  : list listed :=
  match all_articles_data with
  | [] => []
  | article_data :: rest =>
      if bool_decide (item_url article_data ∈ seen_urls) then unique_loop rest seen_urls
      else article_data :: unique_loop rest ({[item_url article_data]} ∪ seen_urls)
  end.

(** The loop state of step 3: [existing_ids], [new_articles] and
    [skipped_articles]. *)
Record counters := Counters {
  existing_ids : gset pystr;
  new_articles : nat;
  skipped_articles : nat;
}.

(** Step 3: one candidate. *)
Definition process_article (category : pystr) (article_data : listed) (c : counters)
  : M counters :=
  let url := item_url article_data in
  let timestamp := item_timestamp article_data in
  url_id ← encode_url url;
  if bool_decide (url_id ∈ existing_ids c) then
    emit (Skipped url_id) ;;
    ret (Counters (existing_ids c) (new_articles c) (S (skipped_articles c)))
  else
    article ← scrape_article url timestamp;
    match article with
    | Some article =>
        if truthy (headline article) && truthy (content article) then
          save_article article category ;;
          emit (Marked (id article)) ;;
          ret (Counters ({[id article]} ∪ existing_ids c) (S (new_articles c))
                        (skipped_articles c))
        else emit (Rejected url) ;; ret c
    | None => emit (Rejected url) ;; ret c
    end.

Fixpoint article_loop (category : pystr) (unique_articles_data : list listed)
    (c : counters) : M counters :=
  match unique_articles_data with
  | [] => ret c
  | article_data :: rest =>
      c' ← process_article category article_data c;
      article_loop category rest c'
  end.

Definition step_01_output : pystr := u "step-01-output.json".

(** The run; its result is the summary it prints: new articles and
    skipped articles. *)
Definition scrape_category (category : pystr) (num_pages : nat) : M (nat * nat) :=
  all_articles_data ← listing_loop category (seq 0 num_pages) [];
  let unique_articles_data := unique_loop all_articles_data ∅ in
  let urls_only := map item_url unique_articles_data in
  write_json step_01_output (JList urls_only) ;;
  loaded ← load_existing_ids category;
  c ← article_loop category unique_articles_data (Counters loaded 0 0);
  save_existing_ids category (existing_ids c) ;;
  ret (new_articles c, skipped_articles c).

End Scraper.
End Lankadeepa.

(** [s.replace(pat, by)] for a non-empty pattern: left to right, without
    overlap. [skip] counts the characters of a match still to drop. *)
Fixpoint replace_go (pat by_ : pystr) (skip : nat) (s : pystr) : pystr :=
  match s with
  | [] => []
  | c :: r =>
      match skip with
      | S k => replace_go pat by_ k r
      | O =>
          if startswith s pat then by_ ++ replace_go pat by_ (length pat - 1) r
          else c :: replace_go pat by_ 0 r
      end
  end.

Definition replace (pat by_ s : pystr) : pystr := replace_go pat by_ 0 s.

(** ** News First ([scripts/news_first/scrape_news_first.py]) *)

(** A post of the API answer, with the texts [clean_html_content] gives:
    the content (or the excerpt), the title (or the short title), the
    date and the relative URL; an absent key is the empty string. *)
Record post := {
  post_content : pystr;
  post_headline : pystr;
  post_date : pystr;
  post_url : pystr;
}.

(** The site ([fetch_news_data] turns a failed request into an answer
    without posts) and the installation. *)
Class NewsFirstSite := {
  api_posts : Z -> nat -> nat -> list post;
  project_root : pystr;
}.

Module NewsFirst.
Section Scraper.
Context `{World} `{NewsFirstSite}.

Definition CATEGORIES : list (pystr * Z) :=
  [ (u "local", 81); (u "sports", 83); (u "foreign", 84); (u "business", 85) ].

Definition get_md5_hash (text : pystr) : M pystr :=
  from_option UnicodeEncodeError (md5_hex text).

(** The path [ensure_data_directory] returns; the [mkdir] it does
    first is the [makedirs] of its callers. *)
Definition ensure_data_directory (category_name : pystr) : pystr :=
  path_join (path_join (path_join project_root (u "data")) (u "news_first")) category_name.

Definition existing_ids_file (category_name : pystr) : pystr :=
  path_join (ensure_data_directory category_name) (u "existing_ids.json").

Definition load_existing_ids (category_name : pystr) : M (gset pystr) :=
  makedirs ;;
  let existing_ids_file := existing_ids_file category_name in
  there ← path_exists existing_ids_file;
  if there : bool then
    try_except
      (doc ← read_json existing_ids_file; ret (py_set doc))
      (fun e => bool_decide (e = JSONDecodeError ∨ e = FileNotFoundError))
      (fun _ => ret ∅)
  else ret ∅.

Definition save_existing_ids (category_name : pystr) (ids : gset pystr) : M unit :=
  makedirs ;;
  listed ← list_of_set ids;
  write_json (existing_ids_file category_name) (JList listed).

(** ["03-06-2025T8:11 AM"] becomes ["2025-06-03 8:11"]; a text of
    another shape is returned as it is. *)
Definition format_timestamp (date_string : pystr) : pystr :=
  let date_part := hd [] (split_on 0x54 date_string) in
  let time_part :=
    if contains (u "T") date_string then nth 1 (split_on 0x54 date_string) []
    else [] in
  match split_on 0x2D date_part with
  | [day; month; year] =>
      let formatted_date := year ++ u "-" ++ month ++ u "-" ++ day in
      if truthy time_part then
        let time_clean := replace (u " PM") [] (replace (u " AM") [] time_part) in
        if contains (u ":") time_clean then formatted_date ++ u " " ++ time_clean
        else formatted_date
      else formatted_date
  | _ => date_string
  end.

Definition convert_post (p : post) : M NewsArticle :=
  let timestamp := format_timestamp (post_date p) in
  let base_url := u "https://sinhala.newsfirst.lk/" in
  let article_url := base_url ++ post_url p in
  article_id ← get_md5_hash article_url;
  ret {| id := article_id;
         source := u "News First";
         headline := post_headline p;
         content := post_content p;
         timestamp := timestamp;
         url := article_url |}.

Fixpoint convert_to_news_articles (posts : list post) : M (list NewsArticle) :=
  match posts with
  | [] => ret []
  | p :: rest =>
      article ← convert_post p;
      articles ← convert_to_news_articles rest;
      ret (article :: articles)
  end.

Definition create_timestamp_filename (timestamp article_id : pystr) : M pystr :=
  let parsed :=
    if contains (u "T") timestamp then
      fromisoformat (replace_char 0x5A (u "+00:00") timestamp)
    else strptime timestamp (u "%Y-%m-%d %H:%M") in
  dt ← match parsed with
       | Some dt => ret dt
       | None => now
       end;
  if truthy article_id then
    ret (strftime dt (u "%Y-%m-%d_%H_%M_%S") ++ u "_" ++ article_id ++ u ".json")
  else ret (strftime dt (u "%Y-%m-%d_%H_%M_%S") ++ u ".json").

Fixpoint category_name_loop (items : list (pystr * Z)) (category_id : Z) : pystr :=
  match items with
  | [] => u "unknown"
  | (name, id_val) :: rest =>
      if id_val =? category_id then name else category_name_loop rest category_id
  end.

Definition get_category_name (category_id : Z) : pystr :=
  category_name_loop CATEGORIES category_id.

Definition article_data (article : NewsArticle) : json :=
  JDict [ (u "id", id article);
          (u "source", source article);
          (u "headline", headline article);
          (u "content", content article);
          (u "timestamp", timestamp article);
          (u "url", url article) ].

Definition save_article_to_file (article : NewsArticle) (category_id : Z) : M pystr :=
  let category_name := get_category_name category_id in
  makedirs ;;
  let data_dir := ensure_data_directory category_name in
  filename ← create_timestamp_filename (timestamp article) (id article);
  let file_path := path_join data_dir filename in
  write_json file_path (article_data article) ;;
  ret file_path.

(** The loop state of [save_articles_by_category]: [saved_files],
    [existing_ids] and [new_ids]. *)
Record counters := Counters {
  saved_files : list pystr;
  existing_ids : gset pystr;
  new_ids : gset pystr;
}.

Definition process_article (category_id : Z) (article : NewsArticle) (c : counters)
  : M counters :=
  if bool_decide (id article ∈ existing_ids c) then
    emit (Skipped (id article)) ;; ret c
  else
    file_path ← save_article_to_file article category_id;
    emit (Marked (id article)) ;;
    ret (Counters (saved_files c ++ [file_path])
                  ({[id article]} ∪ existing_ids c)
                  ({[id article]} ∪ new_ids c)).

Fixpoint article_loop (category_id : Z) (articles : list NewsArticle) (c : counters)
  : M counters :=
  match articles with
  | [] => ret c
  | article :: rest =>
      c' ← process_article category_id article c;
      article_loop category_id rest c'
  end.

Definition save_articles_by_category (articles : list NewsArticle) (category_id : Z)
  : M (list pystr) :=
  let category_name := get_category_name category_id in
  loaded ← load_existing_ids category_name;
  c ← article_loop category_id articles (Counters [] loaded ∅);
  (if bool_decide (new_ids c = ∅) then ret tt
   else save_existing_ids category_name (existing_ids c)) ;;
  ret (saved_files c).

Definition fetch_news_data (category_id : Z) (page count : nat) : M (list post) :=
  emit (Requested page) ;; ret (api_posts category_id page count).

Fixpoint page_loop (category_id : Z) (pages : list nat) (all_saved_files : list pystr)
  : M (list pystr) :=
  match pages with
  | [] => ret all_saved_files
  | page :: rest =>
      api_data ← fetch_news_data category_id page 10;
      articles ← convert_to_news_articles api_data;
      match articles with
      | [] => page_loop category_id rest all_saved_files
      | _ =>
          saved_files ← save_articles_by_category articles category_id;
          page_loop category_id rest (all_saved_files ++ saved_files)
      end
  end.

Definition scrape_single_category (category_name : pystr) (max_pages : nat)
  : M (list pystr) :=
  match snd <$> find (fun kv => bool_decide (kv.1 = category_name)) CATEGORIES with
  | None => ret []
  | Some category_id => page_loop category_id (seq 1 max_pages) []
  end.

End Scraper.
End NewsFirst.

(** ** ITN News ([scripts/itnnews/itn_news_scraper.py]) *)

(** An entry of a category page: [{'url', 'headline', 'date', ...}]. *)
Record article_info := {
  info_url : pystr;
  info_headline : pystr;
  info_date : pystr;
}.

(** What BeautifulSoup finds on an article page: the title, the
    paragraphs kept as content and the text of the [time] element (empty
    when absent). *)
Record itn_page := {
  itn_title : pystr;
  itn_content : pystr;
  itn_time : pystr;
}.

(** ITN's records carry no [id]. *)
Record ItnArticle := {
  itn_source : pystr;
  itn_headline : pystr;
  itn_body : pystr;
  itn_timestamp : pystr;
  itn_url : pystr;
}.

(** The site: the entries of a category page (none when the request
    fails) and the article pages ([None] when the request fails). *)
Class ItnSite := {
  itn_listing : pystr -> nat -> list article_info;
  itn_article : pystr -> option itn_page;
}.

Module ITN.
Section Scraper.
Context `{World} `{ItnSite}.

Definition format_timestamp (timestamp_str : pystr) : pystr :=
  if truthy timestamp_str then
    if contains (u "T") timestamp_str && contains (u "+") timestamp_str then
      match fromisoformat (replace (u "+05:30") [] timestamp_str) with
      | Some dt => strftime dt (u "%Y-%m-%d %H:%M:%S")
      | None => timestamp_str
      end
    else timestamp_str
  else [].

Definition extract_article_links_from_category_page (category : pystr) (page : nat)
  : M (list article_info) :=
  emit (Requested page) ;; ret (itn_listing category page).

(** [None] is [return None]: the request failed, or the headline or the
    content is missing. *)
Definition scrape_individual_article (article_url : pystr) (info : article_info)
  : M (option ItnArticle) :=
  emit (Fetched article_url) ;;
  match itn_article article_url with
  | None => ret None
  | Some page =>
      let headline :=
        if truthy (info_headline info) then info_headline info else itn_title page in
      let content := itn_content page in
      let timestamp :=
        if truthy (info_date info) then info_date info else itn_time page in
      let timestamp :=
        if truthy timestamp then format_timestamp timestamp else timestamp in
      if negb (truthy headline) || negb (truthy content) then
        emit (Rejected article_url) ;; ret None
      else
        ret (Some {| itn_source := u "ITN News";
                     itn_headline := headline;
                     itn_body := content;
                     itn_timestamp := timestamp;
                     itn_url := article_url |})
  end.

Fixpoint article_loop (article_links : list article_info) (all_articles : list ItnArticle)
  : M (list ItnArticle) :=
  match article_links with
  | [] => ret all_articles
  | info :: rest =>
      article ← scrape_individual_article (info_url info) info;
      match article with
      | Some article => article_loop rest (all_articles ++ [article])
      | None => article_loop rest all_articles
      end
  end.

Fixpoint page_loop (category : pystr) (articles_per_page : nat) (pages : list nat)
    (all_articles : list ItnArticle) : M (list ItnArticle) :=
  match pages with
  | [] => ret all_articles
  | page :: rest =>
      article_links ← extract_article_links_from_category_page category page;
      match article_links with
      | [] => ret all_articles
      | _ =>
          let article_links :=
            if negb (articles_per_page =? 0)%nat
               && (articles_per_page <? length article_links)%nat
            then firstn articles_per_page article_links
            else article_links in
          all_articles ← article_loop article_links all_articles;
          if (length article_links <? 10)%nat then ret all_articles
          else page_loop category articles_per_page rest all_articles
      end
  end.

Definition scrape_category (category : pystr) (max_pages articles_per_page : nat)
  : M (list ItnArticle) :=
  page_loop category articles_per_page (seq 1 max_pages) [].

End Scraper.
End ITN.

(** ** A reference [datetime]

    An implementation of the interface for the canonical layouts only:
    four-digit years, two-digit fields, ASCII digits, one separator
    character. Every text it accepts CPython accepts, with the same
    value; it is used to run the scrapers on concrete inputs. *)
Module RefDatetime.

Record t := mk {
  year : Z; month : Z; day : Z;
  hour : Z; minute : Z; second : Z; microsecond : Z;
}.

Definition is_leap (y : Z) : bool :=
  ((y mod 4 =? 0) && negb (y mod 100 =? 0)) || (y mod 400 =? 0).

Definition days_in_month (y m : Z) : Z :=
  if m =? 2 then (if is_leap y then 29 else 28)
  else if (m =? 4) || (m =? 6) || (m =? 9) || (m =? 11) then 30
  else 31.

Definition valid (d : t) : bool :=
  (1 <=? year d) && (year d <=? 9999)
  && (1 <=? month d) && (month d <=? 12)
  && (1 <=? day d) && (day d <=? days_in_month (year d) (month d))
  && (0 <=? hour d) && (hour d <? 24)
  && (0 <=? minute d) && (minute d <? 60)
  && (0 <=? second d) && (second d <? 60)
  && (0 <=? microsecond d) && (microsecond d <? 1000000).

(** The number written by [width] ASCII digits at the head of [s], and
    what follows them. *)
Fixpoint take_digits (width : nat) (acc : Z) (s : pystr) : option (Z * pystr) :=
  match width with
  | O => Some (acc, s)
  | S w =>
      match s with
      | c :: r => if isdigit c then take_digits w (10 * acc + (c - 0x30)) r else None
      | [] => None
      end
  end.

Definition set_field (directive : Z) (v : Z) (d : t) : option t :=
  if directive =? 0x59 (* Y *) then
    Some (mk v (month d) (day d) (hour d) (minute d) (second d) (microsecond d))
  else if directive =? 0x6D (* m *) then
    Some (mk (year d) v (day d) (hour d) (minute d) (second d) (microsecond d))
  else if directive =? 0x64 (* d *) then
    Some (mk (year d) (month d) v (hour d) (minute d) (second d) (microsecond d))
  else if directive =? 0x48 (* H *) then
    Some (mk (year d) (month d) (day d) v (minute d) (second d) (microsecond d))
  else if directive =? 0x4D (* M *) then
    Some (mk (year d) (month d) (day d) (hour d) v (second d) (microsecond d))
  else if directive =? 0x53 (* S *) then
    Some (mk (year d) (month d) (day d) (hour d) (minute d) v (microsecond d))
  else if directive =? 0x66 (* f *) then
    Some (mk (year d) (month d) (day d) (hour d) (minute d) (second d) v)
  else None.

Definition field_width (directive : Z) : nat :=
  if directive =? 0x59 then 4 else if directive =? 0x66 then 6 else 2.

Definition get_field (directive : Z) (d : t) : Z :=
  if directive =? 0x59 then year d
  else if directive =? 0x6D then month d
  else if directive =? 0x64 then day d
  else if directive =? 0x48 then hour d
  else if directive =? 0x4D then minute d
  else if directive =? 0x53 then second d
  else microsecond d.

(** Reading [text] along [format]. *)
Fixpoint scan (format : pystr) (text : pystr) (d : t) : option t :=
  match format with
  | [] => match text with [] => Some d | _ => None end
  | 0x25 :: directive :: format' =>
      match take_digits (field_width directive) 0 text with
      | Some (v, text') =>
          match set_field directive v d with
          | Some d' => scan format' text' d'
          | None => None
          end
      | None => None
      end
  | c :: format' =>
      match text with
      | c' :: text' => if c' =? c then scan format' text' d else None
      | [] => None
      end
  end.

Definition epoch : t := mk 1900 1 1 0 0 0 0.

Definition checked (o : option t) : option t :=
  match o with
  | Some d => if valid d then Some d else None
  | None => None
  end.

Definition strptime (text format : pystr) : option t :=
  checked (scan format text epoch).

(** Writing [d] along [format]. *)
Fixpoint strftime_go (format : pystr) (d : t) : pystr :=
  match format with
  | [] => []
  | 0x25 :: directive :: format' =>
      digits (field_width directive) (get_field directive d) ++ strftime_go format' d
  | c :: format' => c :: strftime_go format' d
  end.

Definition strftime (d : t) (format : pystr) : pystr := strftime_go format d.

Definition isoformat (d : t) : pystr :=
  strftime d (u "%Y-%m-%dT%H:%M:%S")
  ++ (if microsecond d =? 0 then [] else strftime d (u ".%f")).

(** [YYYY-MM-DD], then optionally one separator character and
    [HH:MM:SS], then optionally [.ffffff]. *)
Definition fromisoformat (text : pystr) : option t :=
  match scan (u "%Y-%m-%d") (firstn 10 text) epoch with
  | Some d =>
      match skipn 10 text with
      | [] => checked (Some d)
      | _ :: time =>
          match scan (u "%H:%M:%S") (firstn 8 time) d with
          | Some d' =>
              match skipn 8 time with
              | [] => checked (Some d')
              | fraction => checked (scan (u ".%f") fraction d')
              end
          | None => None
          end
      end
  | None => None
  end.

#[global] Instance lib : DatetimeLib :=
  Build_DatetimeLib t strptime fromisoformat isoformat strftime.

(** A clock that starts on 2025-07-01 at noon and advances by one
    second at each reading, and a disk that never fails. *)
Definition noon (n : nat) : t :=
  mk 2025 7 1 12 ((Z.of_nat n / 60) mod 60) (Z.of_nat n mod 60) 0.

(** The members of a set in the order of [elements]. *)
Definition elements_order (n : nat) (ids : gset pystr) : elements ids ≡ₚ elements ids :=
  Permutation_refl (elements ids).

Definition world : World :=
  {| clock := noon;
     disk_ok := fun _ => true;
     disk_write := fun _ => DumpCompletes;
     mkdir_ok := fun _ => true;
     set_order := fun _ => elements;
     set_order_perm := elements_order |}.

(** The same clock with a disk whose first [open(_, 'w')] fails. *)
Definition bad_disk : World :=
  {| clock := noon;
     disk_ok := fun n => negb (n =? 0)%nat;
     disk_write := fun _ => DumpCompletes;
     mkdir_ok := fun _ => true;
     set_order := fun _ => elements;
     set_order_perm := elements_order |}.

(** The same clock with a disk whose third [open(_, 'w')] fails. *)
Definition flaky_disk : World :=
  {| clock := noon;
     disk_ok := fun n => negb (n =? 2)%nat;
     disk_write := fun _ => DumpCompletes;
     mkdir_ok := fun _ => true;
     set_order := fun _ => elements;
     set_order_perm := elements_order |}.

(** The same clock with a disk that is full when the fourth file is
    written: the file is opened, and nothing reaches it. *)
Definition full_disk : World :=
  {| clock := noon;
     disk_ok := fun _ => true;
     disk_write := fun n => if (n =? 3)%nat then DumpNothing else DumpCompletes;
     mkdir_ok := fun _ => true;
     set_order := fun _ => elements;
     set_order_perm := elements_order |}.

End RefDatetime.

(** ** Fixtures

    Small concrete sites and file systems on which the scrapers are run
    in the examples. *)
Module Fixture.
Import RefDatetime.

Definition fresh : state := State ∅ 0 0.

(** A Lankadeepa Seen-Set file that is not JSON, and a Hiru News one
    that holds an ID. *)
Definition poisoned : state :=
  State {[ u "../../data/lankadeepa/politics/existing_ids.json" := Malformed ]} 0 0.


Definition one_id : state :=
  State {[ u "data/hirunews/sports/existing_ids.json" := Json (JList [u "a"]) ]} 0 0.

(** Hiru News: two listing pages with one article each, then nothing.
    The first article has an empty story; the second has no date. *)
Definition article_a : gmap pystr pystr :=
  {[ u "seourltitle" := u "sports/408388/a";
     u "sinhala_added_date" := u "2025-06-26 08:45:42";
     u "sinhala_title" := u "T1";
     u "sinhala_story" := [] ]}.

Definition article_b : gmap pystr pystr :=
  {[ u "seourltitle" := u "sports/408389/b";
     u "sinhala_title" := u "T2";
     u "sinhala_story" := u "S2" ]}.

Definition hiru : HiruSite := {|
  api_response := fun _ page =>
    if (page =? 1)%nat then ApiItems [ItemDict article_a]
    else if (page =? 2)%nat then ApiItems [ItemDict article_b]
    else ApiItems [];
  data_dir := u "data/hirunews";
  str_lower := fun s => s;
|}.

(** The record of the first article. *)
Definition record_a : NewsArticle :=
  {| id := u "fae47432916217baa443fbb0741fc0ae";
     source := u "hirunews";
     headline := u "T1";
     content := [];
     timestamp := u "2025-06-26T08:45:42";
     url := u "https://hirunews.lk/sports/408388/a" |}.

(** The state a first run over [hiru] leaves behind. *)
Definition hiru_done : state :=
  Eval vm_compute in
    final (@Hirunews.scrape_category _ RefDatetime.world hiru (u "sports") 3 fresh).

(** Lankadeepa: three listing pages with one article each; the second
    article page has no content. *)
Definition url_1 : pystr := u "https://www.lankadeepa.lk/politics/one/13-1".
Definition url_2 : pystr := u "https://www.lankadeepa.lk/politics/two/13-2".
Definition url_3 : pystr := u "https://www.lankadeepa.lk/politics/three/13-3".

Definition lanka : LankaSite := {|
  site_page := fun page_url =>
    if bool_decide (page_url = u "https://www.lankadeepa.lk/politics/13") then
      Some [ {| link_href := Some url_1; timec_text := Some (u "2025 ජුනි මස 22") |} ]
    else if bool_decide (page_url = u "https://www.lankadeepa.lk/politics/13/30") then
      Some [ {| link_href := Some url_2; timec_text := Some (u "2025 ජුනි මස 21") |} ]
    else if bool_decide (page_url = u "https://www.lankadeepa.lk/politics/13/60") then
      Some [ {| link_href := Some url_3; timec_text := None |} ]
    else None;
  site_article := fun article_url =>
    if bool_decide (article_url = url_1) then
      Some {| page_headline := u "H1"; page_date := NoDateLink; page_content := u "C1" |}
    else if bool_decide (article_url = url_2) then
      Some {| page_headline := u "H2"; page_date := NoDateLink; page_content := [] |}
    else if bool_decide (article_url = url_3) then
      Some {| page_headline := u "H3"; page_date := NoDateLink; page_content := u "C3" |}
    else None;
|}.

(** The record of the first article of [lanka]. *)
Definition lanka_record_1 : NewsArticle :=
  {| id := u "ebd2234a77c2ae9eda950b246e37c4c1";
     source := u "Lankadeepa";
     headline := u "H1";
     content := u "C1";
     timestamp := u "2025-06-22T00:00:00";
     url := url_1 |}.

(** News First: one page of two posts. *)
Definition post_1 : post :=
  {| post_content := u "C1"; post_headline := u "H1";
     post_date := u "03-06-2025T8:11 AM"; post_url := u "2025/06/03/one" |}.
Definition post_2 : post :=
  {| post_content := u "C2"; post_headline := u "H2";
     post_date := u "04-06-2025T9:30 PM"; post_url := u "2025/06/04/two" |}.

Definition news_first : NewsFirstSite := {|
  api_posts := fun _ page _ => if (page =? 1)%nat then [post_1; post_2] else [];
  project_root := u ".";
|}.

(** ITN: one page of two entries; the second article page has no
    content. *)
Definition info_1 : article_info :=
  {| info_url := u "https://www.itnnews.lk/local/one/";
     info_headline := u "H1"; info_date := u "2025-06-24T22:13:33+05:30" |}.
Definition info_2 : article_info :=
  {| info_url := u "https://www.itnnews.lk/local/two/";
     info_headline := u "H2"; info_date := [] |}.

Definition itn : ItnSite := {|
  itn_listing := fun _ page => if (page =? 1)%nat then [info_1; info_2] else [];
  itn_article := fun article_url =>
    if bool_decide (article_url = info_url info_1) then
      Some {| itn_title := u "H1"; itn_content := u "Body one"; itn_time := [] |}
    else if bool_decide (article_url = info_url info_2) then
      Some {| itn_title := u "H2"; itn_content := []; itn_time := [] |}
    else None;
|}.

End Fixture.

(** ** Vocabulary of the specification *)

(** A canonical ISO 8601 timestamp: [YYYY-MM-DD], a separator,
    [HH:MM:SS], of a date that exists. *)
Definition is_iso_timestamp (s : pystr) : bool :=
  bool_decide (is_Some (RefDatetime.fromisoformat s)).

(** Atomic replacement of [path]: in every state a reader can come
    across, the file holds what it held before or the new document. *)
Definition atomic_replace (path : pystr) (before : gmap pystr file) (doc : json)
    (states : list (gmap pystr file)) : Prop :=
  ∀ files, files ∈ states →
    files !! path = before !! path ∨ files !! path = Some (Json doc).

(** Rewriting [path] in place: the file is truncated, then the document
    is written into it; between the two a reader finds the file empty. *)
Definition rewritten_in_place (path : pystr) (doc : json) (before : gmap pystr file)
    (run : outcome unit * state * list event) : Prop :=
  result run = Ok tt
  ∧ trace run = [Opened path; Wrote path doc]
  ∧ fs_history before (trace run)
    = [<[path := Empty]> before; <[path := Json doc]> before]
  ∧ fs (final run) = <[path := Json doc]> before.

(** A rewriting in place that [json.dump] does not finish: the file is
    truncated, and left empty or with a part of the document. *)
Definition left_broken (path : pystr) (e : exn) (remains : file)
    (before : gmap pystr file) (run : outcome unit * state * list event) : Prop :=
  result run = Raise e
  ∧ (remains = Empty ∨ remains = Malformed)
  ∧ trace run = [Opened path; DumpFailed path remains]
  ∧ fs_history before (trace run)
    = [<[path := Empty]> before; <[path := remains]> before]
  ∧ fs (final run) = <[path := remains]> before.

(** ** What one turn of a loop can do

    The cases of the loop bodies, as relations between the state before
    and the state after; the properties below go by induction over
    them. *)

(** The IDs marked, the pages requested, the articles fetched, the
    candidates skipped and the documents written in a trace, in order. *)
Definition marks (t : list event) : list pystr :=
  omap (fun e => match e with Marked i => Some i | _ => None end) t.

Definition requests (t : list event) : list nat :=
  omap (fun e => match e with Requested page => Some page | _ => None end) t.

Definition fetches (t : list event) : list pystr :=
  omap (fun e => match e with Fetched link => Some link | _ => None end) t.

Definition skips (t : list event) : list pystr :=
  omap (fun e => match e with Skipped i => Some i | _ => None end) t.

Definition writes (t : list event) : list (pystr * json) :=
  omap (fun e => match e with Wrote path doc => Some (path, doc) | _ => None end) t.

(** The article records written in a trace. *)
Definition records (t : list event) : list json :=
  omap (fun e => match e with Wrote _ (JDict fields) => Some (JDict fields) | _ => None end) t.

(** The pages done with their numbers of new articles. *)
Definition pages_done (t : list event) : list (nat * nat) :=
  omap (fun e => match e with PageDone page new => Some (page, new) | _ => None end) t.

(** Kinds of events. *)
Definition is_page_done (e : event) : Prop := ∃ page new, e = PageDone page new.
Definition is_mark (e : event) : Prop := ∃ i, e = Marked i.

(** A trace in which every [Marked i] comes right after the write of a
    record whose ID is [i]. *)
Inductive marks_follow_writes : list event → Prop :=
| mfw_nil : marks_follow_writes []
| mfw_other e t :
    (∀ i, e ≠ Marked i) → marks_follow_writes t → marks_follow_writes (e :: t)
| mfw_saved path doc i t :
    record_id doc = Some i → marks_follow_writes t →
    marks_follow_writes (Wrote path doc :: Marked i :: t).

Section WriteDefinitions.
Context `{World}.

(** A [json.dump] that the disk or the encoder stops: the exception and
    what the file is left with. *)
Definition dump_fails (n : nat) (doc : json) (e : exn) (remains : file) : Prop :=
  match disk_write n with
  | DumpCompletes => dumpable doc = false ∧ e = UnicodeEncodeError ∧ remains = Malformed
  | DumpNothing => e = OSError ∧ remains = Empty
  | DumpPartial => e = OSError ∧ remains = Malformed
  end.

(** What [with open(path, 'w') as f: json.dump(doc, f)] can do. *)
Inductive written (path : pystr) (doc : json) (s : state)
  : outcome unit → state → list event → Prop :=
| written_whole :
    disk_ok (opens s) = true →
    disk_write (opens s) = DumpCompletes →
    dumpable doc = true →
    written path doc s (Ok tt)
      (State (<[path := Json doc]> (fs s)) (reads s) (S (opens s)))
      [Opened path; Wrote path doc]
| written_unopened :
    disk_ok (opens s) = false →
    written path doc s (Raise OSError)
      (State (fs s) (reads s) (S (opens s)))
      [OpenFailed path]
| written_broken e remains :
    disk_ok (opens s) = true →
    dump_fails (opens s) doc e remains →
    written path doc s (Raise e)
      (State (<[path := remains]> (fs s)) (reads s) (S (opens s)))
      [Opened path; DumpFailed path remains].

(** A disk on which nothing fails. *)
Definition sound_disk : Prop :=
  ∀ n, disk_ok n = true ∧ mkdir_ok n = true ∧ disk_write n = DumpCompletes.

End WriteDefinitions.

(** The caught errors of a trace. *)
Definition errors (t : list event) : list exn :=
  omap (fun e => match e with Errored e => Some e | _ => None end) t.

Section HirunewsStepDefinitions.
Context `{World} `{HiruSite}.

(** The state after one more reading of the clock. *)
Definition tick (s : state) : state := State (fs s) (S (reads s)) (opens s).

Definition hiru_key (article_data : gmap pystr pystr) : pystr :=
  dict_get article_data (u "seourltitle").

(** The record [parse_article] builds once the key is hashed and the
    date is settled. *)
Definition hiru_record (article_data : gmap pystr pystr) (i : pystr) (dt : datetime)
  : NewsArticle :=
  {| id := i;
     source := u "hirunews";
     headline := dict_get article_data (u "sinhala_title");
     content := dict_get article_data (u "sinhala_story");
     timestamp := isoformat dt;
     url := Hirunews.base_article_url ++ hiru_key article_data |}.

(** Where [save_article] writes: the date of the record when
    [fromisoformat] reads it, the clock otherwise. *)
Definition hiru_article_path (article : NewsArticle) (category : pystr) (dt : datetime)
  : pystr :=
  path_join (path_join data_dir (str_lower category))
    (Hirunews.article_filename dt (id article)).

(** The counters after a new article. *)
Definition hiru_counted (i : pystr) (c : Hirunews.counters) : Hirunews.counters :=
  Hirunews.Counters ({[i]} ∪ Hirunews.existing_ids c) ({[i]} ∪ Hirunews.new_ids c)
    (S (Hirunews.page_new_articles c)) (S (Hirunews.total_new_articles c)).

(** What one turn of the article loop can do: every exception is
    caught by the [try] of the loop body. *)
Inductive hiru_step (category : pystr) (article_data : api_item)
    (c : Hirunews.counters) (s : state)
  : Hirunews.counters → state → list event → Prop :=
| hiru_step_no_object :
    article_data = ItemOther →
    hiru_step category article_data c s c s [Errored AttributeError]
| hiru_step_unhashable d :
    article_data = ItemDict d →
    md5_hex (hiru_key d) = None →
    hiru_step category article_data c s c s [Errored UnicodeEncodeError]
| hiru_step_skip d article s1 :
    article_data = ItemDict d →
    Hirunews.parse_article d category s = (Ok article, s1, []) →
    id article ∈ Hirunews.existing_ids c →
    hiru_step category article_data c s c s1 [Skipped (id article)]
| hiru_step_saved d article s1 s2 path :
    article_data = ItemDict d →
    Hirunews.parse_article d category s = (Ok article, s1, []) →
    id article ∉ Hirunews.existing_ids c →
    Hirunews.save_article article category s1
    = (Ok tt, s2, [Opened path; Wrote path (Hirunews.article_dict article category)]) →
    fs s2 = <[path := Json (Hirunews.article_dict article category)]> (fs s1) →
    hiru_step category article_data c s (hiru_counted (id article) c) s2
      [Opened path; Wrote path (Hirunews.article_dict article category);
       Marked (id article)]
| hiru_step_failed d article s1 e s2 t :
    article_data = ItemDict d →
    Hirunews.parse_article d category s = (Ok article, s1, []) →
    id article ∉ Hirunews.existing_ids c →
    Hirunews.save_article article category s1 = (Raise e, s2, t) →
    hiru_step category article_data c s c s2 (t ++ [Errored e]).

(** The article loop: the turns one after the other. *)
Inductive hiru_steps (category : pystr)
  : list api_item → Hirunews.counters → state
    → Hirunews.counters → state → list event → Prop :=
| hiru_steps_nil c s : hiru_steps category [] c s c s []
| hiru_steps_cons article_data rest c s c1 s1 t1 c2 s2 t2 :
    hiru_step category article_data c s c1 s1 t1 →
    hiru_steps category rest c1 s1 c2 s2 t2 →
    hiru_steps category (article_data :: rest) c s c2 s2 (t1 ++ t2).

(** The book-keeping of a stretch of a run: every mark follows its
    write, the sets and the count grow by the marks, there is one record
    per mark, and the Seen-Set file is not touched. *)
Definition hiru_accounted (category : pystr) (c : Hirunews.counters) (s : state)
    (c' : Hirunews.counters) (s' : state) (t : list event) : Prop :=
  marks_follow_writes t
  ∧ Hirunews.existing_ids c' = list_to_set (marks t) ∪ Hirunews.existing_ids c
  ∧ Hirunews.new_ids c' = list_to_set (marks t) ∪ Hirunews.new_ids c
  ∧ Hirunews.total_new_articles c' = (length (marks t) + Hirunews.total_new_articles c)%nat
  ∧ length (records t) = length (marks t)
  ∧ fs s' !! Hirunews.existing_ids_file category
    = fs s !! Hirunews.existing_ids_file category.

(** What the Seen-Set loaders of Hiru News and News First make of the
    Seen-Set file: their handler names [JSONDecodeError] and
    [FileNotFoundError] only. *)
Definition loaded_from (f : option file) : outcome (gset pystr) :=
  match f with
  | None | Some Empty | Some Malformed => Ok ∅
  | Some Garbled => Raise UnicodeDecodeError
  | Some Unsettable => Raise TypeError
  | Some Unreadable => Raise OSError
  | Some (Json doc) => Ok (py_set doc)
  end.

(** What the article loop reports for a candidate that is already
    known. *)
Definition hiru_report (article_data : api_item) : event :=
  match article_data with
  | ItemDict d =>
      match md5_hex (hiru_key d) with
      | Some i => Skipped i
      | None => Errored UnicodeEncodeError
      end
  | ItemOther => Errored AttributeError
  end.

(** The trace of a run that finds the first page already known. *)
Definition hiru_idle_trace (category : pystr) (max_pages : nat) : list event :=
  match max_pages with
  | O => []
  | S _ =>
      match api_response category 1 with
      | ApiItems [] | ApiNotIterable => [Requested 1]
      | ApiItems articles_data =>
          Requested 1 :: map hiru_report articles_data ++ [PageDone 1 0]
      end
  end.

(** The counters at the start of a page. *)
Definition hiru_page_start (c : Hirunews.counters) : Hirunews.counters :=
  Hirunews.Counters (Hirunews.existing_ids c) (Hirunews.new_ids c) 0
    (Hirunews.total_new_articles c).

(** The page loop: an empty answer stops it, a page without a new
    article stops it, the page budget stops it, and an answer that
    cannot be iterated raises [TypeError]. *)
Inductive hiru_crawl (category : pystr)
  : list nat → Hirunews.counters → state
    → outcome Hirunews.counters → state → list event → Prop :=
| hiru_crawl_budget c s : hiru_crawl category [] c s (Ok c) s []
| hiru_crawl_empty page rest c s :
    api_response category page = ApiItems [] →
    hiru_crawl category (page :: rest) c s (Ok c) s [Requested page]
| hiru_crawl_not_iterable page rest c s :
    api_response category page = ApiNotIterable →
    hiru_crawl category (page :: rest) c s (Raise TypeError) s [Requested page]
| hiru_crawl_idle page rest c s items c1 s1 t1 :
    api_response category page = ApiItems items →
    items ≠ [] →
    hiru_steps category items (hiru_page_start c) s c1 s1 t1 →
    Hirunews.page_new_articles c1 = 0%nat →
    hiru_crawl category (page :: rest) c s (Ok c1) s1
      (Requested page :: t1 ++ [PageDone page 0])
| hiru_crawl_next page rest c s items c1 s1 t1 r s2 t2 :
    api_response category page = ApiItems items →
    items ≠ [] →
    hiru_steps category items (hiru_page_start c) s c1 s1 t1 →
    Hirunews.page_new_articles c1 ≠ 0%nat →
    hiru_crawl category rest c1 s1 r s2 t2 →
    hiru_crawl category (page :: rest) c s r s2
      (Requested page :: t1 ++ PageDone page (Hirunews.page_new_articles c1) :: t2).

(** A run: the Seen-Set is loaded, the pages are crawled, and the
    Seen-Set is saved when there is a new ID; each of the three can
    raise. *)
Inductive hiru_run (category : pystr) (max_pages : nat) (s : state)
  : outcome nat → state → list event → Prop :=
| hiru_run_unloaded e :
    loaded_from (fs s !! Hirunews.existing_ids_file category) = Raise e →
    hiru_run category max_pages s (Raise e) s []
| hiru_run_crawl_raised loaded e s1 t :
    loaded_from (fs s !! Hirunews.existing_ids_file category) = Ok loaded →
    hiru_crawl category (seq 1 max_pages) (Hirunews.Counters loaded ∅ 0 0) s
      (Raise e) s1 t →
    hiru_run category max_pages s (Raise e) s1 t
| hiru_run_nothing_new loaded c s1 t :
    loaded_from (fs s !! Hirunews.existing_ids_file category) = Ok loaded →
    hiru_crawl category (seq 1 max_pages) (Hirunews.Counters loaded ∅ 0 0) s (Ok c) s1 t →
    Hirunews.new_ids c = ∅ →
    hiru_run category max_pages s (Ok (Hirunews.total_new_articles c)) s1 t
| hiru_run_no_directory loaded c s1 t :
    loaded_from (fs s !! Hirunews.existing_ids_file category) = Ok loaded →
    hiru_crawl category (seq 1 max_pages) (Hirunews.Counters loaded ∅ 0 0) s (Ok c) s1 t →
    Hirunews.new_ids c ≠ ∅ →
    mkdir_ok (opens s1) = false →
    hiru_run category max_pages s (Raise OSError) s1 t
| hiru_run_saved loaded c s1 t r s2 t2 :
    loaded_from (fs s !! Hirunews.existing_ids_file category) = Ok loaded →
    hiru_crawl category (seq 1 max_pages) (Hirunews.Counters loaded ∅ 0 0) s (Ok c) s1 t →
    Hirunews.new_ids c ≠ ∅ →
    mkdir_ok (opens s1) = true →
    written (Hirunews.existing_ids_file category)
      (JList (set_order (opens s1) (Hirunews.existing_ids c))) s1 r s2 t2 →
    hiru_run category max_pages s
      (match r with
       | Ok _ => Ok (Hirunews.total_new_articles c)
       | Raise e => Raise e
       end)
      s2 (t ++ t2).

End HirunewsStepDefinitions.

(** The links rejected in a trace. *)
Definition rejects (t : list event) : list pystr :=
  omap (fun e => match e with Rejected link => Some link | _ => None end) t.

(** A record that passes the gate of Lankadeepa: it has a headline and
    a content. *)
Definition viable_record (doc : json) : Prop :=
  ∃ article,
    doc = Lankadeepa.asdict article ∧ headline article ≠ [] ∧ content article ≠ [].

Section LankadeepaStepDefinitions.
Context `{World} `{LankaSite}.

(** The record [scrape_article] builds from a page. *)
Definition lanka_record (key i : pystr) (page : article_page) (ts : pystr) : NewsArticle :=
  {| id := i;
     source := u "Lankadeepa";
     headline := page_headline page;
     content := page_content page;
     timestamp := ts;
     url := key |}.

(** Where [save_article] writes. *)
Definition lanka_article_path (category stamp i : pystr) : pystr :=
  Lankadeepa.category_dir category ++ u "/" ++ stamp ++ u "_" ++ i ++ u ".json".

Definition lanka_skipped (c : Lankadeepa.counters) : Lankadeepa.counters :=
  Lankadeepa.Counters (Lankadeepa.existing_ids c) (Lankadeepa.new_articles c)
    (S (Lankadeepa.skipped_articles c)).

Definition lanka_counted (i : pystr) (c : Lankadeepa.counters) : Lankadeepa.counters :=
  Lankadeepa.Counters ({[i]} ∪ Lankadeepa.existing_ids c) (S (Lankadeepa.new_articles c))
    (Lankadeepa.skipped_articles c).

(** A candidate [scrape_article] gives nothing to save for, without
    raising: the page cannot be fetched, or it has no headline or no
    content and the search for its date does not break ([truthy_pre]:
    the listing gave a time stamp, so the page is not searched). *)
Definition lanka_turned_away (key : pystr) (truthy_pre : bool) : Prop :=
  site_article key = None
  ∨ ∃ page, site_article key = Some page
            ∧ (page_headline page = [] ∨ page_content page = [])
            ∧ (truthy_pre = true ∨ page_date page ≠ BrokenDateLink).

(** Whether the listing gave the candidate a time stamp. *)
Definition lanka_stamped (item : listed) : bool :=
  match Lankadeepa.pre_extracted (item_timestamp item) with
  | Some _ => true
  | None => false
  end.

(** What one turn of step 3 can do. *)
Inductive lanka_step (category : pystr) (item : listed) (c : Lankadeepa.counters) (s : state)
  : outcome Lankadeepa.counters → state → list event → Prop :=
| lanka_step_unhashable :
    md5_hex (item_url item) = None →
    lanka_step category item c s (Raise UnicodeEncodeError) s []
| lanka_step_skip i :
    md5_hex (item_url item) = Some i →
    i ∈ Lankadeepa.existing_ids c →
    lanka_step category item c s (Ok (lanka_skipped c)) s [Skipped i]
| lanka_step_rejected i s1 :
    md5_hex (item_url item) = Some i →
    i ∉ Lankadeepa.existing_ids c →
    lanka_turned_away (item_url item) (lanka_stamped item) →
    fs s1 = fs s → opens s1 = opens s →
    lanka_step category item c s (Ok c) s1 [Fetched (item_url item); Rejected (item_url item)]
| lanka_step_broken_date i page s1 :
    md5_hex (item_url item) = Some i →
    i ∉ Lankadeepa.existing_ids c →
    site_article (item_url item) = Some page →
    lanka_stamped item = false →
    page_date page = BrokenDateLink →
    fs s1 = fs s → opens s1 = opens s →
    lanka_step category item c s (Raise IndexError) s1 [Fetched (item_url item)]
| lanka_step_saved i page ts stamp s1 :
    md5_hex (item_url item) = Some i →
    i ∉ Lankadeepa.existing_ids c →
    site_article (item_url item) = Some page →
    page_headline page ≠ [] → page_content page ≠ [] →
    dumpable (Lankadeepa.asdict (lanka_record (item_url item) i page ts)) = true →
    fs s1 = <[lanka_article_path category stamp i
              := Json (Lankadeepa.asdict (lanka_record (item_url item) i page ts))]> (fs s) →
    opens s1 = S (opens s) →
    lanka_step category item c s (Ok (lanka_counted i c)) s1
      [Fetched (item_url item);
       Opened (lanka_article_path category stamp i);
       Wrote (lanka_article_path category stamp i)
         (Lankadeepa.asdict (lanka_record (item_url item) i page ts));
       Marked i]
| lanka_step_save_failed i page ts e s1 s2 t :
    md5_hex (item_url item) = Some i →
    i ∉ Lankadeepa.existing_ids c →
    site_article (item_url item) = Some page →
    page_headline page ≠ [] → page_content page ≠ [] →
    fs s1 = fs s → opens s1 = opens s →
    Lankadeepa.save_article (lanka_record (item_url item) i page ts) category s1
    = (Raise e, s2, t) →
    lanka_step category item c s (Raise e) s2 (Fetched (item_url item) :: t).

(** Step 3: the turns one after the other, up to the first exception. *)
Inductive lanka_steps (category : pystr)
  : list listed → Lankadeepa.counters → state
    → outcome Lankadeepa.counters → state → list event → Prop :=
| lanka_steps_nil c s : lanka_steps category [] c s (Ok c) s []
| lanka_steps_cons item rest c s c1 s1 t1 r s2 t2 :
    lanka_step category item c s (Ok c1) s1 t1 →
    lanka_steps category rest c1 s1 r s2 t2 →
    lanka_steps category (item :: rest) c s r s2 (t1 ++ t2)
| lanka_steps_raise item rest c s e s1 t1 :
    lanka_step category item c s (Raise e) s1 t1 →
    lanka_steps category (item :: rest) c s (Raise e) s1 t1.

End LankadeepaStepDefinitions.

(** A lowercase hexadecimal digit. *)
Definition is_hex (c : Z) : Prop := 0x30 ≤ c ≤ 0x39 ∨ 0x61 ≤ c ≤ 0x66.

(** What the Seen-Set loader of Lankadeepa makes of the Seen-Set file:
    it has no handler. *)
Definition lanka_loaded_from (f : option file) : outcome (gset pystr) :=
  match f with
  | None => Ok ∅
  | Some Garbled => Raise UnicodeDecodeError
  | Some Empty | Some Malformed => Raise JSONDecodeError
  | Some Unsettable => Raise TypeError
  | Some Unreadable => Raise OSError
  | Some (Json doc) => Ok (py_set doc)
  end.


(** The requests of step 1 of Lankadeepa. *)
Definition lanka_listed (num_pages : nat) : list event :=
  map (fun page => Requested (page + 1)) (seq 0 num_pages).

Section LankadeepaRunDefinitions.
Context `{World} `{LankaSite}.

(** The candidates of a run: the links of the listing pages, each URL
    once. *)
Definition lanka_candidates (category : pystr) (num_pages : nat) (s : state) : list listed :=
  match result (Lankadeepa.listing_loop category (seq 0 num_pages) [] s) with
  | Ok all_articles_data => Lankadeepa.unique_loop all_articles_data ∅
  | Raise _ => []
  end.

(** The state and the trace once [step-01-output.json] is written. *)
Definition lanka_listing_written (candidates : list listed) (s0 : state) : state :=
  State (<[Lankadeepa.step_01_output := Json (JList (map item_url candidates))]> (fs s0))
    (reads s0) (S (opens s0)).

Definition lanka_listing_events (candidates : list listed) : list event :=
  [Opened Lankadeepa.step_01_output;
   Wrote Lankadeepa.step_01_output (JList (map item_url candidates))].

(** The run after step 1, from the state [s0] step 1 leaves: the
    listing is written, the Seen-Set is loaded, the candidates are gone
    through and the Seen-Set is saved; each of the four can raise. *)
Inductive lanka_run (category : pystr) (candidates : list listed) (s0 : state)
  : outcome (nat * nat) → state → list event → Prop :=
| lanka_run_listing_unwritten e s1 t :
    written Lankadeepa.step_01_output (JList (map item_url candidates)) s0 (Raise e) s1 t →
    lanka_run category candidates s0 (Raise e) s1 t
| lanka_run_seen_set_unloaded e :
    written Lankadeepa.step_01_output (JList (map item_url candidates)) s0 (Ok tt)
      (lanka_listing_written candidates s0) (lanka_listing_events candidates) →
    lanka_loaded_from
      (fs (lanka_listing_written candidates s0) !! Lankadeepa.ids_file category) = Raise e →
    lanka_run category candidates s0 (Raise e) (lanka_listing_written candidates s0)
      (lanka_listing_events candidates)
| lanka_run_aborted loaded e s2 t :
    written Lankadeepa.step_01_output (JList (map item_url candidates)) s0 (Ok tt)
      (lanka_listing_written candidates s0) (lanka_listing_events candidates) →
    lanka_loaded_from
      (fs (lanka_listing_written candidates s0) !! Lankadeepa.ids_file category) = Ok loaded →
    lanka_steps category candidates (Lankadeepa.Counters loaded 0 0)
      (lanka_listing_written candidates s0) (Raise e) s2 t →
    lanka_run category candidates s0 (Raise e) s2 (lanka_listing_events candidates ++ t)
| lanka_run_no_directory loaded c s2 t :
    written Lankadeepa.step_01_output (JList (map item_url candidates)) s0 (Ok tt)
      (lanka_listing_written candidates s0) (lanka_listing_events candidates) →
    lanka_loaded_from
      (fs (lanka_listing_written candidates s0) !! Lankadeepa.ids_file category) = Ok loaded →
    lanka_steps category candidates (Lankadeepa.Counters loaded 0 0)
      (lanka_listing_written candidates s0) (Ok c) s2 t →
    mkdir_ok (opens s2) = false →
    lanka_run category candidates s0 (Raise OSError) s2
      (lanka_listing_events candidates ++ t)
| lanka_run_saved loaded c s2 t r s3 t3 :
    written Lankadeepa.step_01_output (JList (map item_url candidates)) s0 (Ok tt)
      (lanka_listing_written candidates s0) (lanka_listing_events candidates) →
    lanka_loaded_from
      (fs (lanka_listing_written candidates s0) !! Lankadeepa.ids_file category) = Ok loaded →
    lanka_steps category candidates (Lankadeepa.Counters loaded 0 0)
      (lanka_listing_written candidates s0) (Ok c) s2 t →
    mkdir_ok (opens s2) = true →
    written (Lankadeepa.ids_file category)
      (JList (set_order (opens s2) (Lankadeepa.existing_ids c))) s2 r s3 t3 →
    lanka_run category candidates s0
      (match r with
       | Ok _ => Ok (Lankadeepa.new_articles c, Lankadeepa.skipped_articles c)
       | Raise e => Raise e
       end)
      s3 (lanka_listing_events candidates ++ t ++ t3).

End LankadeepaRunDefinitions.

(** What a run that raises makes of the Seen-Set file: it leaves it as
    it was, or the dump of step 4 was stopped and the file is empty or
    cut short. *)
Definition lanka_kept_or_broken (category : pystr) (before after : gmap pystr file)
    (t : list event) : Prop :=
  after !! Lankadeepa.ids_file category = before !! Lankadeepa.ids_file category
  ∨ ∃ pre remains,
      t = pre ++ [Opened (Lankadeepa.ids_file category);
                  DumpFailed (Lankadeepa.ids_file category) remains]
      ∧ (remains = Empty ∨ remains = Malformed)
      ∧ after !! Lankadeepa.ids_file category = Some remains.

Section LankadeepaSecondRunDefinitions.
Context `{LankaSite}.

(** The URL of a candidate and whether the listing gave it a time
    stamp. *)
Definition lanka_shape (item : listed) : pystr * bool :=
  (item_url item, lanka_stamped item).

(** A link whose ID is not in [ids]. *)
Definition lanka_unseen (ids : gset pystr) (key : pystr) : bool :=
  match md5_hex key with
  | Some i => bool_decide (i ∉ ids)
  | None => true
  end.

(** A link whose ID a trace did not mark. *)
Definition lanka_unmarked (t : list event) (key : pystr) : bool :=
  lanka_unseen (list_to_set (marks t)) key.

(** A link a run with the Seen-Set [ids] has nothing to save for: it is
    known, or the gate turns it away. *)
Definition lanka_settled (ids : gset pystr) (shape : pystr * bool) : Prop :=
  ∃ i, md5_hex shape.1 = Some i ∧ (i ∈ ids ∨ lanka_turned_away shape.1 shape.2).

End LankadeepaSecondRunDefinitions.

(** What the Seen-Set loader of News First makes of the Seen-Set file:
    a file that is not JSON counts as an empty Seen-Set. *)
Definition news_first_loaded_from (f : option file) : outcome (gset pystr) :=
  match f with
  | None | Some Empty | Some Malformed => Ok ∅
  | Some Garbled => Raise UnicodeDecodeError
  | Some Unsettable => Raise TypeError
  | Some Unreadable => Raise OSError
  | Some (Json doc) => Ok (py_set doc)
  end.

Section NewsFirstDefinitions.
Context `{NewsFirstSite}.

(** An ID the Seen-Set file of the category holds. *)
Definition news_first_known (category_id : Z) (files : gmap pystr file) (i : pystr) : Prop :=
  ∃ ids,
    news_first_loaded_from
      (files !! NewsFirst.existing_ids_file (NewsFirst.get_category_name category_id))
    = Ok ids
    ∧ i ∈ ids.

End NewsFirstDefinitions.

Section NewsFirstPageDefinitions.
Context `{World} `{NewsFirstSite}.

(** The articles of a page of the API: the conversion reads neither
    the clock nor a file. *)
Definition news_first_page_articles (category_id : Z) (page : nat)
  : outcome (list NewsArticle) :=
  result (NewsFirst.convert_to_news_articles (api_posts category_id page 10) (State ∅ 0 0)).

End NewsFirstPageDefinitions.

(** * Properties *)

Arguments u : simpl never.
Arguments md5_hex : simpl never.
Arguments write_json : simpl never.
Arguments path_join : simpl never.

(** Unfolds the monad and splits the cases of a short computation. *)
Ltac run_monad :=
  unfold result, final, trace, bind, ret, raise, emit, from_option, try_except, now in *;
  simpl in *.

(** Runs the monad's own operations and nothing else. *)
Ltac run_only :=
  cbv beta iota zeta delta
    [bind emit ret raise now from_option try_except result final trace fst snd].

Ltac crush_monad :=
  intros; repeat (run_monad; simplify_eq /=; try case_match); try done.

(** ** The identity function *)

Example md5_empty : MD5.hexdigest [] = u "d41d8cd98f00b204e9800998ecf8427e".
Proof. vm_compute. reflexivity. Qed.

Example md5_abc : md5_hex (u "abc") = Some (u "900150983cd24fb0d6963f7d28e17f72").
Proof. vm_compute. reflexivity. Qed.

Example md5_two_blocks :
  md5_hex (repeat 0x78 119) = Some (u "ab347a5f68c8a443cfcddc633f12c24f").
Proof. vm_compute. reflexivity. Qed.

Example md5_sinhala : md5_hex (u "ජුනි") = Some (u "f27aebcf1a653284b2a9f5d41abc9a8a").
Proof. vm_compute. reflexivity. Qed.

Example md5_surrogate : md5_hex [0xD800] = None.
Proof. reflexivity. Qed.

Section Identity.
Context `{World} `{HiruSite} `{LankaSite} `{NewsFirstSite}.

Lemma pre_extracted_cases pre :
  (∃ ts, Lankadeepa.pre_extracted pre = Some ts) ∨ Lankadeepa.pre_extracted pre = None.
Proof. destruct (Lankadeepa.pre_extracted pre); eauto. Qed.

Lemma hiru_parse_article_id article_data category s a :
  result (Hirunews.parse_article article_data category s) = Ok a →
  md5_hex (dict_get article_data (u "seourltitle")) = Some (id a).
Proof.
  unfold Hirunews.parse_article, Hirunews.get_md5_hash. crush_monad.
Qed.

Lemma lanka_parse_sinhala_date_run date_text s :
  ∃ ts s', Lankadeepa.parse_sinhala_date date_text s = (Ok ts, s', []).
Proof.
  unfold Lankadeepa.parse_sinhala_date.
  destruct (split (strip date_text)) as [|? [|? [|? [|? ?]]]]; by eexists _, _.
Qed.

Lemma lanka_parse_sinhala_date_ok date_text s :
  ∃ ts, result (Lankadeepa.parse_sinhala_date date_text s) = Ok ts.
Proof.
  destruct (lanka_parse_sinhala_date_run date_text s) as (ts & s' & ->). by exists ts.
Qed.

Lemma lanka_scrape_article_id key pre s a :
  result (Lankadeepa.scrape_article key pre s) = Ok (Some a) →
  md5_hex key = Some (id a) ∧ url a = key.
Proof.
  unfold Lankadeepa.scrape_article, Lankadeepa.encode_url.
  destruct (site_article key) as [page|]; [|done].
  destruct (md5_hex key) as [i|] eqn:Hhash.
  - destruct (pre_extracted_cases pre) as [[ts ->] | ->].
    + run_only. by intros [= <-].
    + destruct (page_date page) as [|date_part|].
      * run_only. by intros [= <-].
      * run_only.
        destruct (lanka_parse_sinhala_date_run date_part
                    (State (fs s) (S (reads s)) (opens s))) as (ts & s' & ->).
        by intros [= <-].
      * by run_only.
  - destruct (pre_extracted_cases pre) as [[ts ->] | ->].
    + by run_only.
    + destruct (page_date page) as [|date_part|].
      * by run_only.
      * run_only.
        by destruct (lanka_parse_sinhala_date_run date_part
                       (State (fs s) (S (reads s)) (opens s))) as (ts & s' & ->).
      * by run_only.
Qed.

Lemma news_first_convert_post_id p s a :
  result (NewsFirst.convert_post p s) = Ok a →
  md5_hex (u "https://sinhala.newsfirst.lk/" ++ post_url p) = Some (id a).
Proof.
  unfold NewsFirst.convert_post, NewsFirst.get_md5_hash.
  destruct (md5_hex _) as [i|]; run_only; [by intros [= <-] | done].
Qed.

(** UTF-8 encodes a text piece by piece. *)
Lemma encode_app a b :
  encode (a ++ b)
  = match encode a, encode b with
    | Some x, Some y => Some (x ++ y)
    | _, _ => None
    end.
Proof.
  induction a as [|c a IH]; simpl.
  - by destruct (encode b).
  - rewrite IH. destruct (encode_point c), (encode a), (encode b); try done.
    by rewrite app_assoc.
Qed.

(** C5, as amended. At every call site the article ID is the MD5 hex
    digest of the UTF-8 bytes of the natural key exactly as it was
    received (the [seourltitle] for Hiru News, the article URL for
    Lankadeepa, the base URL followed by [post_url] for News First): no
    trailing slash is stripped and no letter is lowercased before
    hashing. A key and the same key followed by a slash therefore reach
    MD5 as two different byte strings, the second being the first
    followed by the byte [0x2F]. *)
Theorem id_is_md5_of_key_as_given :
  (∀ article_data category s a,
     result (Hirunews.parse_article article_data category s) = Ok a →
     option_map MD5.hexdigest (encode (dict_get article_data (u "seourltitle")))
     = Some (id a))
  ∧ (∀ key s i,
       result (Lankadeepa.encode_url key s) = Ok i →
       option_map MD5.hexdigest (encode key) = Some i)
  ∧ (∀ key pre s a,
       result (Lankadeepa.scrape_article key pre s) = Ok (Some a) →
       option_map MD5.hexdigest (encode key) = Some (id a))
  ∧ (∀ p s a,
       result (NewsFirst.convert_post p s) = Ok a →
       option_map MD5.hexdigest (encode (u "https://sinhala.newsfirst.lk/" ++ post_url p))
       = Some (id a))
  ∧ (∀ key bytes,
       encode key = Some bytes →
       encode (key ++ u "/") = Some (bytes ++ [0x2F]) ∧ bytes ++ [0x2F] ≠ bytes).
Proof.
  split_and!.
  - apply hiru_parse_article_id.
  - unfold Lankadeepa.encode_url. crush_monad.
  - intros key pre s a Hrun. by apply lanka_scrape_article_id in Hrun as [? _].
  - apply news_first_convert_post_id.
  - intros key bytes Hkey. split.
    + rewrite encode_app, Hkey. reflexivity.
    + intros Hsame. apply (f_equal length) in Hsame.
      rewrite length_app in Hsame. simpl in Hsame. lia.
Qed.

End Identity.

Section IdentityExamples.
#[local] Existing Instances RefDatetime.world Fixture.hiru Fixture.lanka Fixture.news_first.

(** The theorem at work: the Lankadeepa ID of a URL. *)
Lemma id_is_md5_of_key_as_given_witness :
  result (Lankadeepa.encode_url Fixture.url_1 Fixture.fresh)
    = Ok (u "ebd2234a77c2ae9eda950b246e37c4c1")
  ∧ option_map MD5.hexdigest (encode Fixture.url_1)
    = Some (u "ebd2234a77c2ae9eda950b246e37c4c1").
Proof.
  assert (Hrun : result (Lankadeepa.encode_url Fixture.url_1 Fixture.fresh)
                 = Ok (u "ebd2234a77c2ae9eda950b246e37c4c1")) by (vm_compute; reflexivity).
  split; [exact Hrun|].
  exact (proj1 (proj2 id_is_md5_of_key_as_given) _ _ _ Hrun).
Defined.

(** C5, as stated, fails: these two URLs differ only by a trailing
    slash and get different IDs. *)
Lemma trailing_slash_changes_id :
  ¬ (∀ key : pystr,
       result (Lankadeepa.encode_url key Fixture.fresh)
       = result (Lankadeepa.encode_url (key ++ u "/") Fixture.fresh)).
Proof.
  intros Hsame.
  specialize (Hsame (u "https://www.lankadeepa.lk/news/x/101-1")).
  vm_compute in Hsame. discriminate Hsame.
Qed.

End IdentityExamples.


(** ** Dates *)

Section Dates.
Context `{World}.

Lemma parse_sinhala_date_four_parts date_text year month_sinhala mas day rest s :
  split (strip date_text) = year :: month_sinhala :: mas :: day :: rest →
  Lankadeepa.parse_sinhala_date date_text s
  = (Ok (year ++ u "-" ++ default (u "01") (Lankadeepa.sinhala_months !! month_sinhala)
              ++ u "-" ++ zfill 2 day ++ u "T00:00:00"), s, []).
Proof. intros Hparts. unfold Lankadeepa.parse_sinhala_date. by rewrite Hparts. Qed.


End Dates.

(** *** The reference [datetime] reads back what it writes *)

Lemma isdigit_digit n : isdigit (digit n) = true.
Proof.
  unfold isdigit, digit. pose proof (Z.mod_pos_bound n 10 eq_refl).
  apply andb_true_intro; split; [apply Z.leb_le | apply Z.leb_le]; lia.
Qed.

Lemma digit_value n : digit n - 0x30 = n mod 10.
Proof. unfold digit. lia. Qed.

Lemma take_digits_digits w : ∀ k acc n tail,
  RefDatetime.take_digits (w + k) acc (digits w n ++ tail)
  = RefDatetime.take_digits k (acc * 10 ^ Z.of_nat w + n mod 10 ^ Z.of_nat w) tail.
Proof.
  induction w as [|w IH]; intros k acc n tail.
  - simpl. f_equal. rewrite Z.mod_1_r. lia.
  - cbn [digits]. rewrite <- app_assoc. cbn [app].
    replace (S w + k)%nat with (w + S k)%nat by lia.
    rewrite IH. cbn [RefDatetime.take_digits].
    rewrite isdigit_digit, digit_value. f_equal.
    rewrite Nat2Z.inj_succ, Z.pow_succ_r by lia.
    rewrite (Z.rem_mul_r n 10 (10 ^ Z.of_nat w)) by lia.
    lia.
Qed.

Lemma length_digits w n : length (digits w n) = w.
Proof.
  revert n. induction w as [|w IH]; intros n; [done|].
  cbn [digits]. rewrite length_app, IH. simpl. lia.
Qed.

Lemma zfill_two_digits d : zfill 2 (digits 2 d) = digits 2 d.
Proof.
  unfold zfill. rewrite length_digits. cbn.
  pose proof (Z.mod_pos_bound (d / 10) 10 eq_refl).
  unfold digit.
  replace (48 + (d / 10) mod 10 =? 43) with false by (symmetry; apply Z.eqb_neq; lia).
  replace (48 + (d / 10) mod 10 =? 45) with false by (symmetry; apply Z.eqb_neq; lia).
  reflexivity.
Qed.

Lemma zfill_one_digit d : 0 ≤ d < 10 → zfill 2 (digits 1 d) = digits 2 d.
Proof.
  intros Hd. unfold zfill. cbn. unfold digit.
  rewrite (Z.div_small d 10) by lia. rewrite (Z.mod_small d 10) by lia.
  replace (48 + d =? 43) with false by (symmetry; apply Z.eqb_neq; lia).
  replace (48 + d =? 45) with false by (symmetry; apply Z.eqb_neq; lia).
  reflexivity.
Qed.

Lemma january_reads_back y d :
  1 ≤ y ≤ 9999 → 1 ≤ d ≤ 31 →
  RefDatetime.fromisoformat
    (digits 4 y ++ u "-" ++ u "01" ++ u "-" ++ digits 2 d ++ u "T00:00:00")
  = Some (RefDatetime.mk y 1 d 0 0 0 0).
Proof.
  intros Hy Hd. unfold RefDatetime.fromisoformat.
  assert (Hhead :
    firstn 10 (digits 4 y ++ u "-" ++ u "01" ++ u "-" ++ digits 2 d ++ u "T00:00:00")
    = digits 4 y ++ u "-01-" ++ digits 2 d ++ []) by reflexivity.
  assert (Htail :
    skipn 10 (digits 4 y ++ u "-" ++ u "01" ++ u "-" ++ digits 2 d ++ u "T00:00:00")
    = u "T00:00:00") by reflexivity.
  rewrite Hhead, Htail. clear Hhead Htail.
  assert (Hdate :
    RefDatetime.scan (u "%Y-%m-%d") (digits 4 y ++ u "-01-" ++ digits 2 d ++ [])
      RefDatetime.epoch
    = Some (RefDatetime.mk y 1 d 0 0 0 0)).
  { change (u "%Y-%m-%d") with [0x25; 0x59; 0x2D; 0x25; 0x6D; 0x2D; 0x25; 0x64].
    cbn [RefDatetime.scan].
    change (RefDatetime.field_width 89) with (4 + 0)%nat.
    rewrite take_digits_digits. cbn [RefDatetime.take_digits].
    change (u "-01-" ++ digits 2 d ++ []) with (0x2D :: 0x30 :: 0x31 :: 0x2D :: digits 2 d ++ []).
    cbn -[Z.pow Z.modulo Z.mul Z.add Z.div Z.sub digit].
    rewrite !isdigit_digit, !digit_value.
    f_equal. f_equal; Z.to_euclidean_division_equations; lia. }
  rewrite Hdate.
  change (u "T00:00:00") with [0x54; 0x30; 0x30; 0x3A; 0x30; 0x30; 0x3A; 0x30; 0x30].
  change (u "%H:%M:%S") with [0x25; 0x48; 0x3A; 0x25; 0x4D; 0x3A; 0x25; 0x53].
  cbn -[RefDatetime.valid].
  unfold RefDatetime.valid; cbn.
  replace (1 <=? y) with true by (symmetry; apply Z.leb_le; lia).
  replace (y <=? 9999) with true by (symmetry; apply Z.leb_le; lia).
  replace (1 <=? d) with true by (symmetry; apply Z.leb_le; lia).
  replace (d <=? 31) with true by (symmetry; apply Z.leb_le; lia).
  reflexivity.
Qed.

Section DateClaims.
Context `{World}.

(** C10, as amended. When the date text has at least four parts and its
    second part is not one of the twelve Sinhala month names,
    [parse_sinhala_date] returns the first part, [-01-], the fourth part
    filled to two characters and [T00:00:00]: month January, no failure,
    no reading of the clock. That text is a well-formed ISO timestamp
    when the first part is a four-digit year and the fourth a day of
    January on one or two digits; for other parts it is not. *)
Theorem unknown_month_defaults_to_january date_text year month_sinhala mas day rest s :
  split (strip date_text) = year :: month_sinhala :: mas :: day :: rest →
  Lankadeepa.sinhala_months !! month_sinhala = None →
  Lankadeepa.parse_sinhala_date date_text s
    = (Ok (year ++ u "-" ++ u "01" ++ u "-" ++ zfill 2 day ++ u "T00:00:00"), s, [])
  ∧ (∀ y d, 1 ≤ y ≤ 9999 → 1 ≤ d ≤ 31 →
       year = digits 4 y →
       day = digits 2 d ∨ (d < 10 ∧ day = digits 1 d) →
       is_iso_timestamp
         (year ++ u "-" ++ u "01" ++ u "-" ++ zfill 2 day ++ u "T00:00:00") = true).
Proof.
  intros Hparts Hmonth. split.
  - rewrite (parse_sinhala_date_four_parts _ _ _ _ _ _ _ Hparts). by rewrite Hmonth.
  - intros y d Hy Hd -> Hday. unfold is_iso_timestamp.
    assert (zfill 2 day = digits 2 d) as ->.
    { destruct Hday as [-> | [Hsmall ->]];
        [apply zfill_two_digits | apply zfill_one_digit; lia]. }
    rewrite january_reads_back by done. apply bool_decide_eq_true. eauto.
Qed.


End DateClaims.

Section DateExamples.
#[local] Existing Instances RefDatetime.world.

Example parse_sinhala_date_june :
  result (Lankadeepa.parse_sinhala_date (u "2025 ජුනි මස 22") Fixture.fresh)
  = Ok (u "2025-06-22T00:00:00").
Proof. vm_compute. reflexivity. Qed.

Example parse_sinhala_date_pads_day :
  result (Lankadeepa.parse_sinhala_date (u " 2025 ජනවාරි මස 1 ") Fixture.fresh)
  = Ok (u "2025-01-01T00:00:00").
Proof. vm_compute. reflexivity. Qed.

Lemma unknown_month_defaults_to_january_witness :
  Lankadeepa.parse_sinhala_date (u "2025 June the 7") Fixture.fresh
    = (Ok (u "2025-01-07T00:00:00"), Fixture.fresh, [])
  ∧ is_iso_timestamp (u "2025-01-07T00:00:00") = true.
Proof.
  destruct (unknown_month_defaults_to_january
              (u "2025 June the 7") (u "2025") (u "June") (u "the") (u "7") []
              Fixture.fresh)
    as [Hrun Hiso].
  - vm_compute. reflexivity.
  - vm_compute. reflexivity.
  - split; [exact Hrun|].
    apply (Hiso 2025 7); [lia | lia | vm_compute; reflexivity |].
    right. split; [lia | vm_compute; reflexivity].
Defined.

(** C10, as stated, fails: an English date has four parts and an
    unknown month word, and what comes back is not an ISO timestamp. *)
Lemma english_date_gives_no_iso_timestamp :
  split (strip (u "Sunday, 22 June 2025")) = [u "Sunday,"; u "22"; u "June"; u "2025"]
  ∧ Lankadeepa.sinhala_months !! u "22" = None
  ∧ result (Lankadeepa.parse_sinhala_date (u "Sunday, 22 June 2025") Fixture.fresh)
    = Ok (u "Sunday,-01-2025T00:00:00")
  ∧ is_iso_timestamp (u "Sunday,-01-2025T00:00:00") = false.
Proof. split_and!; vm_compute; reflexivity. Qed.



(** The text of a clock reading shows its microseconds when it has
    some: 26 characters against the 19 of a parsed date. *)
Example isoformat_shows_microseconds :
  isoformat (RefDatetime.mk 2025 7 1 12 0 0 0) = u "2025-07-01T12:00:00"
  ∧ isoformat (RefDatetime.mk 2025 7 1 12 0 0 250000) = u "2025-07-01T12:00:00.250000".
Proof. split; vm_compute; reflexivity. Qed.

End DateExamples.


(** ** The Seen-Set store *)

Section SeenSetStore.
Context `{World} `{HiruSite} `{NewsFirstSite}.

Lemma write_json_ok path doc s :
  disk_ok (opens s) = true →
  disk_write (opens s) = DumpCompletes →
  dumpable doc = true →
  write_json path doc s
  = (Ok tt, State (<[path := Json doc]> (fs s)) (reads s) (S (opens s)),
     [Opened path; Wrote path doc]).
Proof.
  intros Hdisk Hwrite Hdoc. unfold write_json, bind, open_w, json_dump.
  rewrite Hdisk, Hwrite, Hdoc. simpl. by rewrite insert_insert_eq.
Qed.

Lemma write_json_failed path doc s :
  disk_ok (opens s) = false →
  write_json path doc s
  = (Raise OSError, State (fs s) (reads s) (S (opens s)), [OpenFailed path]).
Proof. intros Hdisk. unfold write_json, bind, open_w. by rewrite Hdisk. Qed.

Lemma write_json_broken path doc s e remains :
  disk_ok (opens s) = true →
  dump_fails (opens s) doc e remains →
  write_json path doc s
  = (Raise e, State (<[path := remains]> (fs s)) (reads s) (S (opens s)),
     [Opened path; DumpFailed path remains]).
Proof.
  intros Hdisk Hfails. unfold write_json, bind, open_w, json_dump.
  rewrite Hdisk. unfold dump_fails in Hfails. simpl.
  destruct (disk_write (opens s)).
  - destruct Hfails as (-> & -> & ->). by rewrite insert_insert_eq.
  - destruct Hfails as (-> & ->). by rewrite insert_insert_eq.
  - destruct Hfails as (-> & ->). by rewrite insert_insert_eq.
Qed.

(** The three ways of [write_json]. *)
Lemma write_json_written path doc s :
  ∃ r s' t, write_json path doc s = (r, s', t) ∧ written path doc s r s' t.
Proof.
  destruct (disk_ok (opens s)) eqn:Hdisk.
  2: { eexists _, _, _. split; [by apply write_json_failed | by constructor]. }
  destruct (disk_write (opens s)) eqn:Hwrite.
  - destruct (dumpable doc) eqn:Hdoc.
    + eexists _, _, _. split; [by apply write_json_ok | by constructor].
    + eexists _, _, _. split; [|apply (written_broken _ _ _ UnicodeEncodeError Malformed)].
      * apply write_json_broken; [done|]. unfold dump_fails. by rewrite Hwrite.
      * done.
      * unfold dump_fails. by rewrite Hwrite.
  - eexists _, _, _. split; [|apply (written_broken _ _ _ OSError Empty)].
    + apply write_json_broken; [done|]. unfold dump_fails. by rewrite Hwrite.
    + done.
    + unfold dump_fails. by rewrite Hwrite.
  - eexists _, _, _. split; [|apply (written_broken _ _ _ OSError Malformed)].
    + apply write_json_broken; [done|]. unfold dump_fails. by rewrite Hwrite.
    + done.
    + unfold dump_fails. by rewrite Hwrite.
Qed.

Lemma dump_fails_remains n doc e remains :
  dump_fails n doc e remains → remains = Empty ∨ remains = Malformed.
Proof. unfold dump_fails. destruct (disk_write n); naive_solver. Qed.

Lemma write_json_in_place path doc s :
  disk_ok (opens s) = true →
  disk_write (opens s) = DumpCompletes →
  dumpable doc = true →
  rewritten_in_place path doc (fs s) (write_json path doc s).
Proof.
  intros Hdisk Hwrite Hdoc. unfold rewritten_in_place. rewrite write_json_ok by done.
  unfold result, trace, final. simpl. by rewrite insert_insert_eq.
Qed.

Lemma write_json_left_broken path doc s e remains :
  disk_ok (opens s) = true →
  dump_fails (opens s) doc e remains →
  left_broken path e remains (fs s) (write_json path doc s).
Proof.
  intros Hdisk Hfails. unfold left_broken. rewrite (write_json_broken _ _ _ e remains) by done.
  unfold result, trace, final. simpl. rewrite insert_insert_eq.
  split_and!; try done. by eapply dump_fails_remains.
Qed.

(** What is listed is the set. *)
Lemma py_set_order (n : nat) (ids : gset pystr) :
  py_set (JList (set_order n ids)) = ids.
Proof.
  simpl. apply set_eq. intros i.
  rewrite elem_of_list_to_set, (set_order_perm n ids). apply elem_of_elements.
Qed.

(** Saving: the directory, then the file. *)
Lemma hiru_save_run category ids s :
  Hirunews.save_existing_ids category ids s
  = if mkdir_ok (opens s) then
      write_json (Hirunews.existing_ids_file category) (JList (set_order (opens s) ids)) s
    else (Raise OSError, s, []).
Proof.
  unfold Hirunews.save_existing_ids, bind, makedirs, list_of_set.
  destruct (mkdir_ok (opens s)); [|done]. by destruct (write_json _ _ s) as [[? ?] ?].
Qed.

Lemma lanka_save_run category ids s :
  Lankadeepa.save_existing_ids category ids s
  = if mkdir_ok (opens s) then
      write_json (Lankadeepa.ids_file category) (JList (set_order (opens s) ids)) s
    else (Raise OSError, s, []).
Proof.
  unfold Lankadeepa.save_existing_ids, bind, makedirs, list_of_set.
  destruct (mkdir_ok (opens s)); [|done]. by destruct (write_json _ _ s) as [[? ?] ?].
Qed.

Lemma news_first_save_run category_name ids s :
  NewsFirst.save_existing_ids category_name ids s
  = if mkdir_ok (opens s) then
      write_json (NewsFirst.existing_ids_file category_name)
        (JList (set_order (opens s) ids)) s
    else (Raise OSError, s, []).
Proof.
  unfold NewsFirst.save_existing_ids, bind, makedirs, list_of_set.
  destruct (mkdir_ok (opens s)); [|done]. by destruct (write_json _ _ s) as [[? ?] ?].
Qed.

(** Loading, case by case on what the file holds. *)
Lemma hiru_load_run category s :
  Hirunews.load_existing_ids category s
  = (loaded_from (fs s !! Hirunews.existing_ids_file category), s, []).
Proof.
  unfold Hirunews.load_existing_ids, bind, path_exists, try_except, read_json, ret.
  cbv beta iota zeta.
  destruct (fs s !! Hirunews.existing_ids_file category) as [[| | | | |doc]|] eqn:Hfile;
    cbn [fs]; rewrite ?Hfile;
    first [ rewrite bool_decide_eq_true_2 by eauto
          | rewrite bool_decide_eq_false_2 by (by intros [? ?]) ];
    cbv beta iota zeta; rewrite ?Hfile; reflexivity.
Qed.

Lemma news_first_load_run category_name s :
  NewsFirst.load_existing_ids category_name s
  = if mkdir_ok (opens s) then
      (news_first_loaded_from (fs s !! NewsFirst.existing_ids_file category_name), s, [])
    else (Raise OSError, s, []).
Proof.
  unfold NewsFirst.load_existing_ids. unfold bind at 1. unfold makedirs.
  destruct (mkdir_ok (opens s)); [|done].
  unfold bind, path_exists, try_except, read_json, ret. cbv beta iota zeta.
  destruct (fs s !! NewsFirst.existing_ids_file category_name) as [[| | | | |doc]|] eqn:Hfile;
    cbn [fs]; rewrite ?Hfile;
    first [ rewrite bool_decide_eq_true_2 by eauto
          | rewrite bool_decide_eq_false_2 by (by intros [? ?]) ];
    cbv beta iota zeta; rewrite ?Hfile; reflexivity.
Qed.

(** Lankadeepa's [load_existing_ids] has no handler at all. *)
Lemma lanka_load_run category s :
  Lankadeepa.load_existing_ids category s
  = (lanka_loaded_from (fs s !! Lankadeepa.ids_file category), s, []).
Proof.
  unfold Lankadeepa.load_existing_ids, bind, path_exists, read_json, ret.
  cbv beta iota zeta.
  destruct (fs s !! Lankadeepa.ids_file category) as [[| | | | |doc]|] eqn:Hfile;
    cbn [fs]; rewrite ?Hfile;
    first [ rewrite bool_decide_eq_true_2 by eauto
          | rewrite bool_decide_eq_false_2 by (by intros [? ?]) ];
    cbv beta iota zeta; rewrite ?Hfile; reflexivity.
Qed.

(** C4, as amended. Saving the Seen-Set opens the Seen-Set file itself
    for writing, which truncates it, and then writes the list of the IDs
    into it, in the order [list(ids)] gives: no temporary file and no
    rename. When the dump completes the file holds the IDs of the new
    set; between the truncation and the write a reader finds the file
    empty; and when [json.dump] raises (an ID that UTF-8 cannot encode,
    a full disk) the file is left empty or with a part of the list, and
    what it held before is lost. *)
Theorem seen_set_is_rewritten_in_place :
  (∀ category ids s,
     mkdir_ok (opens s) = true →
     disk_ok (opens s) = true →
     py_set (JList (set_order (opens s) ids)) = ids
     ∧ (disk_write (opens s) = DumpCompletes →
        dumpable (JList (set_order (opens s) ids)) = true →
        rewritten_in_place (Hirunews.existing_ids_file category)
          (JList (set_order (opens s) ids)) (fs s)
          (Hirunews.save_existing_ids category ids s))
     ∧ (∀ e remains,
          dump_fails (opens s) (JList (set_order (opens s) ids)) e remains →
          left_broken (Hirunews.existing_ids_file category) e remains (fs s)
            (Hirunews.save_existing_ids category ids s)))
  ∧ (∀ category ids s,
       mkdir_ok (opens s) = true →
       disk_ok (opens s) = true →
       py_set (JList (set_order (opens s) ids)) = ids
       ∧ (disk_write (opens s) = DumpCompletes →
          dumpable (JList (set_order (opens s) ids)) = true →
          rewritten_in_place (Lankadeepa.ids_file category)
            (JList (set_order (opens s) ids)) (fs s)
            (Lankadeepa.save_existing_ids category ids s))
       ∧ (∀ e remains,
            dump_fails (opens s) (JList (set_order (opens s) ids)) e remains →
            left_broken (Lankadeepa.ids_file category) e remains (fs s)
              (Lankadeepa.save_existing_ids category ids s)))
  ∧ (∀ category_name ids s,
       mkdir_ok (opens s) = true →
       disk_ok (opens s) = true →
       py_set (JList (set_order (opens s) ids)) = ids
       ∧ (disk_write (opens s) = DumpCompletes →
          dumpable (JList (set_order (opens s) ids)) = true →
          rewritten_in_place (NewsFirst.existing_ids_file category_name)
            (JList (set_order (opens s) ids)) (fs s)
            (NewsFirst.save_existing_ids category_name ids s))
       ∧ (∀ e remains,
            dump_fails (opens s) (JList (set_order (opens s) ids)) e remains →
            left_broken (NewsFirst.existing_ids_file category_name) e remains (fs s)
              (NewsFirst.save_existing_ids category_name ids s))).
Proof.
  split_and!; intros category ids s Hmkdir Hdisk.
  - rewrite hiru_save_run, Hmkdir.
    split_and!; [apply py_set_order | intros; by apply write_json_in_place
                 | intros; by apply write_json_left_broken].
  - rewrite lanka_save_run, Hmkdir.
    split_and!; [apply py_set_order | intros; by apply write_json_in_place
                 | intros; by apply write_json_left_broken].
  - rewrite news_first_save_run, Hmkdir.
    split_and!; [apply py_set_order | intros; by apply write_json_in_place
                 | intros; by apply write_json_left_broken].
Qed.

End SeenSetStore.

Section SeenSetStoreExamples.
#[local] Existing Instances RefDatetime.world Fixture.hiru Fixture.lanka Fixture.news_first.

(** C3 fails on Lankadeepa: a Seen-Set file that is not JSON makes
    [load_existing_ids] raise, and the run with it. *)
Theorem lankadeepa_load_raises_on_malformed_seen_set :
  fs Fixture.poisoned !! Lankadeepa.ids_file (u "politics") = Some Malformed
  ∧ result (Lankadeepa.load_existing_ids (u "politics") Fixture.poisoned)
    = Raise JSONDecodeError
  ∧ result (Lankadeepa.scrape_category (u "politics") 1 Fixture.poisoned)
    = Raise JSONDecodeError.
Proof. split_and!; vm_compute; reflexivity. Qed.

Lemma seen_set_is_rewritten_in_place_witness :
  mkdir_ok (opens Fixture.one_id) = true
  ∧ disk_ok (opens Fixture.one_id) = true
  ∧ disk_write (opens Fixture.one_id) = DumpCompletes
  ∧ dumpable (JList (set_order (opens Fixture.one_id) ({[u "a"; u "b"]} : gset pystr)))
    = true
  ∧ rewritten_in_place (Hirunews.existing_ids_file (u "sports"))
      (JList (set_order (opens Fixture.one_id) ({[u "a"; u "b"]} : gset pystr)))
      (fs Fixture.one_id)
      (Hirunews.save_existing_ids (u "sports") {[u "a"; u "b"]} Fixture.one_id).
Proof.
  assert (dumpable (JList (set_order (opens Fixture.one_id)
                             ({[u "a"; u "b"]} : gset pystr))) = true)
    as Hdoc by (vm_compute; reflexivity).
  split_and!; [reflexivity | reflexivity | reflexivity | exact Hdoc |].
  exact (proj1 (proj2 (proj1 seen_set_is_rewritten_in_place (u "sports") {[u "a"; u "b"]}
                         Fixture.one_id eq_refl eq_refl))
           eq_refl Hdoc).
Defined.

(** C4, as stated, fails: while the Seen-Set [{a}] is replaced by
    [{a, b}], a reader can find the file empty. *)
Lemma seen_set_save_is_not_atomic :
  ¬ atomic_replace (u "data/hirunews/sports/existing_ids.json")
      (fs Fixture.one_id)
      (JList (elements ({[u "a"; u "b"]} : gset pystr)))
      (fs_history (fs Fixture.one_id)
         (trace (Hirunews.save_existing_ids (u "sports") {[u "a"; u "b"]} Fixture.one_id))).
Proof.
  intros Hatomic.
  destruct (Hatomic (<[u "data/hirunews/sports/existing_ids.json" := Empty]>
                       (fs Fixture.one_id))) as [Hold | Hnew].
  - vm_compute. left.
  - vm_compute in Hold. discriminate Hold.
  - vm_compute in Hnew. discriminate Hnew.
Qed.

End SeenSetStoreExamples.

Section SeenSetStoreFailureExamples.
#[local] Existing Instances Fixture.hiru.

(** A Seen-Set that holds an ID UTF-8 cannot encode (a lone surrogate,
    which [json.load] reads from the escape [\ud800]): the save raises
    after the truncation, and the Seen-Set [{a}] of the file is lost. *)
Example seen_set_save_can_lose_the_seen_set :
  let run := @Hirunews.save_existing_ids _ RefDatetime.world _ (u "sports")
               {[u "a"; [0xD800]]} Fixture.one_id in
  fs Fixture.one_id !! u "data/hirunews/sports/existing_ids.json"
  = Some (Json (JList [u "a"]))
  ∧ result run = Raise UnicodeEncodeError
  ∧ fs (final run) !! u "data/hirunews/sports/existing_ids.json" = Some Malformed.
Proof. split_and!; vm_compute; reflexivity. Qed.

End SeenSetStoreFailureExamples.

(** ** The shape of an ID *)

Lemma le_bytes_length n x : length (MD5.le_bytes n x) = n.
Proof. unfold MD5.le_bytes. by rewrite length_map, length_seq. Qed.

Lemma le_bytes_range n x : Forall (fun b => 0 ≤ b < 256) (MD5.le_bytes n x).
Proof.
  unfold MD5.le_bytes. apply Forall_map, Forall_forall. intros i _. simpl.
  change 255 with (Z.ones 8). rewrite Z.land_ones by lia.
  apply Z.mod_pos_bound. lia.
Qed.

Lemma digest_length msg : length (MD5.digest msg) = 16%nat.
Proof. unfold MD5.digest. by rewrite !length_app, !le_bytes_length. Qed.

Lemma digest_range msg : Forall (fun b => 0 ≤ b < 256) (MD5.digest msg).
Proof. unfold MD5.digest. rewrite !Forall_app. split_and!; apply le_bytes_range. Qed.

Lemma hex_digit_is_hex n : 0 ≤ n < 16 → is_hex (MD5.hex_digit n).
Proof.
  intros Hn. unfold MD5.hex_digit, is_hex.
  destruct (n <? 10) eqn:Hlt; [apply Z.ltb_lt in Hlt | apply Z.ltb_ge in Hlt]; lia.
Qed.

Lemma hex_of_bytes_shape bytes :
  Forall (fun b => 0 ≤ b < 256) bytes →
  length (flat_map (fun b => [MD5.hex_digit (b / 16); MD5.hex_digit (b `mod` 16)]) bytes)
  = (2 * length bytes)%nat
  ∧ Forall is_hex
      (flat_map (fun b => [MD5.hex_digit (b / 16); MD5.hex_digit (b `mod` 16)]) bytes).
Proof.
  induction 1 as [|b bytes Hb _ [IHl IHf]]; [done|]. simpl. split; [lia|].
  constructor; [|constructor; [|done]]; apply hex_digit_is_hex.
  - split; [apply Z.div_pos; lia | apply Z.div_lt_upper_bound; lia].
  - apply Z.mod_pos_bound. lia.
Qed.

Lemma hexdigest_shape msg :
  length (MD5.hexdigest msg) = 32%nat ∧ Forall is_hex (MD5.hexdigest msg).
Proof.
  unfold MD5.hexdigest.
  destruct (hex_of_bytes_shape (MD5.digest msg) (digest_range msg)) as [Hl Hf].
  split; [|done]. rewrite Hl, digest_length. done.
Qed.

(** Every article ID is made of 32 lowercase hexadecimal digits,
    whatever the key: it names a file without leaving its directory. *)
Theorem id_is_32_hex_digits key i :
  md5_hex key = Some i → length i = 32%nat ∧ Forall is_hex i.
Proof.
  unfold md5_hex. destruct (encode key) as [bytes|]; [|done].
  intros [= <-]. apply hexdigest_shape.
Qed.

Lemma id_is_32_hex_digits_witness :
  length (u "ebd2234a77c2ae9eda950b246e37c4c1") = 32%nat
  ∧ Forall is_hex (u "ebd2234a77c2ae9eda950b246e37c4c1").
Proof.
  assert (md5_hex Fixture.url_1 = Some (u "ebd2234a77c2ae9eda950b246e37c4c1"))
    as Hhash by (vm_compute; reflexivity).
  exact (id_is_32_hex_digits Fixture.url_1 (u "ebd2234a77c2ae9eda950b246e37c4c1") Hhash).
Defined.


(** ** Hiru News: one article *)

Section HirunewsSteps.
Context `{World} `{HiruSite}.

Lemma hiru_parse_article_run article_data category s :
  Hirunews.parse_article article_data category s
  = match md5_hex (hiru_key article_data) with
    | None => (Raise UnicodeEncodeError, s, [])
    | Some i =>
        match strptime (dict_get article_data (u "sinhala_added_date"))
                (u "%Y-%m-%d %H:%M:%S") with
        | Some dt => (Ok (hiru_record article_data i dt), s, [])
        | None => (Ok (hiru_record article_data i (clock (reads s))), tick s, [])
        end
    end.
Proof.
  unfold Hirunews.parse_article, Hirunews.get_md5_hash, hiru_key.
  destruct (md5_hex _); [|done].
  unfold bind, from_option, try_except. simpl.
  by destruct (strptime _ _).
Qed.

Lemma hiru_save_article_run article category s :
  Hirunews.save_article article category s
  = if mkdir_ok (opens s) then
      match fromisoformat (replace_char 0x5A (u "+00:00") (timestamp article)) with
      | Some dt =>
          write_json (hiru_article_path article category dt)
            (Hirunews.article_dict article category) s
      | None =>
          write_json (hiru_article_path article category (clock (reads s)))
            (Hirunews.article_dict article category) (tick s)
      end
    else (Raise OSError, s, []).
Proof.
  unfold Hirunews.save_article, hiru_article_path.
  unfold bind at 1. unfold makedirs. destruct (mkdir_ok (opens s)); [|done].
  unfold bind at 1. unfold try_except, from_option.
  destruct (fromisoformat _); simpl.
  - by destruct (write_json _ _ s) as [[? ?] ?].
  - unfold tick. by destruct (write_json _ _ _) as [[? ?] ?].
Qed.

Lemma hiru_record_id article category :
  record_id (Hirunews.article_dict article category) = Some (id article).
Proof. reflexivity. Qed.

Lemma hiru_parse_article_cases article_data category s :
  (md5_hex (hiru_key article_data) = None
   ∧ Hirunews.parse_article article_data category s = (Raise UnicodeEncodeError, s, []))
  ∨ (∃ article s1,
       Hirunews.parse_article article_data category s = (Ok article, s1, [])
       ∧ md5_hex (hiru_key article_data) = Some (id article)
       ∧ fs s1 = fs s ∧ opens s1 = opens s).
Proof.
  rewrite hiru_parse_article_run.
  destruct (md5_hex _) as [i|]; [right | by left].
  destruct (strptime _ _); eauto 10.
Qed.

(** [save_article]: the directory, then the file, at a path made of the
    date of the record (the clock when it has none) and its ID. *)
Lemma hiru_save_article_cases article category s :
  (mkdir_ok (opens s) = false
   ∧ Hirunews.save_article article category s = (Raise OSError, s, []))
  ∨ ∃ dt s1 r s2 t,
      mkdir_ok (opens s) = true
      ∧ fs s1 = fs s ∧ opens s1 = opens s
      ∧ Hirunews.save_article article category s = (r, s2, t)
      ∧ written (hiru_article_path article category dt)
          (Hirunews.article_dict article category) s1 r s2 t.
Proof.
  rewrite hiru_save_article_run.
  destruct (mkdir_ok (opens s)); [right | by left].
  destruct (fromisoformat _) as [dt|].
  - destruct (write_json_written (hiru_article_path article category dt)
                (Hirunews.article_dict article category) s) as (r & s2 & t & Hrun & Hw).
    exists dt, s, r, s2, t. by rewrite Hrun.
  - destruct (write_json_written (hiru_article_path article category (clock (reads s)))
                (Hirunews.article_dict article category) (tick s))
      as (r & s2 & t & Hrun & Hw).
    exists (clock (reads s)), (tick s), r, s2, t. by rewrite Hrun.
Qed.

Lemma hiru_process_article_step category article_data c s :
  ∃ c' s' t,
    Hirunews.process_article category article_data c s = (Ok c', s', t)
    ∧ hiru_step category article_data c s c' s' t.
Proof.
  unfold Hirunews.process_article, try_except.
  destruct article_data as [d|].
  2: { eexists _, _, _. split; [done | by constructor]. }
  destruct (hiru_parse_article_cases d category s)
    as [[Hhash Hparse] | (article & s1 & Hparse & Hhash & Hfs & Hopens)].
  - unfold bind at 1. rewrite Hparse. simpl.
    eexists _, _, _. split; [done|]. by eapply hiru_step_unhashable.
  - unfold bind at 1. rewrite Hparse.
    case_bool_decide as Hseen.
    + simpl. eexists _, _, _. split; [done|]. by eapply hiru_step_skip.
    + destruct (hiru_save_article_cases article category s1)
        as [[Hmkdir Hsave] | (dt & s1' & r & s2 & t & Hmkdir & Hfs1 & Hopens1 & Hsave & Hw)].
      * unfold bind at 1. rewrite Hsave. simpl.
        eexists _, _, _. split; [done|].
        by apply (hiru_step_failed _ _ _ _ d article s1 OSError s1 []).
      * unfold bind at 1. rewrite Hsave.
        destruct Hw as [Hdisk Hwrite Hdoc | Hdisk | e remains Hdisk Hfails].
        -- simpl. eexists _, _, _. split; [done|].
           eapply hiru_step_saved; eauto. simpl. by rewrite Hfs1.
        -- simpl. eexists _, _, _. split; [done|].
           by apply (hiru_step_failed _ _ _ _ d article s1 OSError _ [OpenFailed _]).
        -- simpl. eexists _, _, _. split; [done|].
           by apply (hiru_step_failed _ _ _ _ d article s1 e _ [Opened _; DumpFailed _ _]).
Qed.

End HirunewsSteps.

(** ** Hiru News: the loops *)

Section HirunewsLoops.
Context `{World} `{HiruSite}.

Lemma hiru_article_loop_steps category articles_data c s :
  ∃ c' s' t,
    Hirunews.article_loop category articles_data c s = (Ok c', s', t)
    ∧ hiru_steps category articles_data c s c' s' t.
Proof.
  revert c s. induction articles_data as [|article_data rest IH]; intros c s.
  - eexists _, _, _. split; [done | constructor].
  - destruct (hiru_process_article_step category article_data c s)
      as (c1 & s1 & t1 & Hrun1 & Hstep).
    destruct (IH c1 s1) as (c2 & s2 & t2 & Hrun2 & Hsteps).
    exists c2, s2, (t1 ++ t2). split; [|by econstructor].
    cbn [Hirunews.article_loop]. unfold bind. by rewrite Hrun1, Hrun2.
Qed.

Lemma hiru_page_loop_crawl category pages c s :
  ∃ r s' t,
    Hirunews.page_loop category pages c s = (r, s', t)
    ∧ hiru_crawl category pages c s r s' t.
Proof.
  revert c s. induction pages as [|page rest IH]; intros c s.
  - eexists _, _, _. split; [done | constructor].
  - cbn [Hirunews.page_loop]. unfold Hirunews.fetch_news_from_api.
    destruct (api_response category page) as [[|article_data more]|] eqn:Hpage.
    + eexists _, _, _. split; [|by apply hiru_crawl_empty].
      unfold bind, emit, ret. simpl. by rewrite ?Hpage.
    + destruct (hiru_article_loop_steps category (article_data :: more)
                  (hiru_page_start c) s) as (c1 & s1 & t1 & Hrun1 & Hsteps).
      destruct (decide (Hirunews.page_new_articles c1 = 0%nat)) as [Hidle | Hnew].
      * exists (Ok c1), s1, (Requested page :: t1 ++ [PageDone page 0]).
        split; [|by eapply hiru_crawl_idle].
        unfold hiru_page_start in Hrun1.
        unfold bind, emit, ret. cbv beta iota zeta. rewrite Hrun1.
        destruct (decide _); [|done]. by rewrite Hidle, app_nil_r.
      * destruct (IH c1 s1) as (r & s2 & t2 & Hrun2 & Hcrawl).
        exists r, s2,
          (Requested page :: t1 ++ PageDone page (Hirunews.page_new_articles c1) :: t2).
        split; [|by eapply hiru_crawl_next].
        unfold hiru_page_start in Hrun1.
        unfold bind, emit, ret. cbv beta iota zeta. rewrite Hrun1.
        destruct (decide _); [done|]. rewrite Hrun2. by destruct r.
    + eexists _, _, _. split; [|by apply hiru_crawl_not_iterable].
      unfold bind, emit, ret, raise. simpl. by rewrite ?Hpage.
Qed.

End HirunewsLoops.

(** ** Traces *)

Lemma marks_app t1 t2 : marks (t1 ++ t2) = marks t1 ++ marks t2.
Proof. apply omap_app. Qed.

Lemma requests_app t1 t2 : requests (t1 ++ t2) = requests t1 ++ requests t2.
Proof. apply omap_app. Qed.

Lemma fetches_app t1 t2 : fetches (t1 ++ t2) = fetches t1 ++ fetches t2.
Proof. apply omap_app. Qed.

Lemma skips_app t1 t2 : skips (t1 ++ t2) = skips t1 ++ skips t2.
Proof. apply omap_app. Qed.

Lemma writes_app t1 t2 : writes (t1 ++ t2) = writes t1 ++ writes t2.
Proof. apply omap_app. Qed.

Lemma records_app t1 t2 : records (t1 ++ t2) = records t1 ++ records t2.
Proof. apply omap_app. Qed.

Lemma pages_done_app t1 t2 : pages_done (t1 ++ t2) = pages_done t1 ++ pages_done t2.
Proof. apply omap_app. Qed.

Lemma errors_app t1 t2 : errors (t1 ++ t2) = errors t1 ++ errors t2.
Proof. apply omap_app. Qed.

Lemma marks_follow_writes_app t1 t2 :
  marks_follow_writes t1 → marks_follow_writes t2 → marks_follow_writes (t1 ++ t2).
Proof. induction 1; intros; simpl; [done | by constructor; auto | by constructor; auto]. Qed.

(** The discipline, position by position. *)
Lemma marks_follow_writes_split t pre i post :
  marks_follow_writes t →
  t = pre ++ Marked i :: post →
  ∃ pre' path doc, pre = pre' ++ [Wrote path doc] ∧ record_id doc = Some i.
Proof.
  intros Hdisc. revert pre. induction Hdisc as [|e t Hother _ IH|path doc j t Hid _ IH];
    intros pre Hsplit.
  - by destruct pre.
  - destruct pre as [|e' pre]; simplify_eq /=; [by destruct (Hother i)|].
    destruct (IH pre eq_refl) as (pre' & path & doc & -> & Hid).
    by exists (e' :: pre'), path, doc.
  - destruct pre as [|e1 [|e2 pre]]; simplify_eq /=.
    + by exists [], path, doc.
    + destruct (IH pre eq_refl) as (pre' & path' & doc' & -> & Hid').
      by exists (Wrote path doc :: Marked j :: pre'), path', doc'.
Qed.

(** No mark, no break of the discipline. *)
Lemma marks_follow_writes_unmarked t : marks t = [] → marks_follow_writes t.
Proof.
  induction t as [|e t IH]; [constructor|].
  destruct e; simpl; intros Hmarks; try discriminate; constructor; auto; congruence.
Qed.

(** An element of the middle of a list is in neither side. *)
Lemma omap_nil_app {A B} (f : A → option B) l1 l2 :
  omap f (l1 ++ l2) = [] ↔ omap f l1 = [] ∧ omap f l2 = [].
Proof.
  rewrite omap_app. split; [apply app_eq_nil | by intros [-> ->]].
Qed.

(** ** Writing a file *)

Section Writing.
Context `{World}.

(** A write marks nothing and asks nothing of the site; it touches its
    own file and no other; when it raises, no document is written. *)
Lemma written_quiet path doc s r s' t :
  written path doc s r s' t →
  marks t = [] ∧ requests t = [] ∧ pages_done t = [] ∧ errors t = []
  ∧ skips t = [] ∧ fetches t = []
  ∧ opens s' = S (opens s)
  ∧ (∀ other, other ≠ path → fs s' !! other = fs s !! other)
  ∧ (∀ e, r = Raise e → records t = [] ∧ writes t = []).
Proof.
  destruct 1; simpl; split_and!; try done; intros other Hother;
    by rewrite lookup_insert_ne.
Qed.

Lemma dumpable_perm (l1 l2 : list pystr) :
  l1 ≡ₚ l2 → dumpable (JList l1) = dumpable (JList l2).
Proof.
  intros Hperm. unfold dumpable. simpl.
  apply eq_true_iff_eq. rewrite !forallb_forall.
  split; intros Hall x Hin; apply Hall;
    [eapply Permutation_in; [symmetry|]; eassumption
    | eapply Permutation_in; eassumption].
Qed.

End Writing.

(** ** Hiru News: book-keeping *)

Section HirunewsAccounts.
Context `{World} `{HiruSite}.

Lemma hiru_parse_article_ok article_data category s article s1 t :
  Hirunews.parse_article article_data category s = (Ok article, s1, t) →
  md5_hex (hiru_key article_data) = Some (id article)
  ∧ fs s1 = fs s ∧ opens s1 = opens s ∧ t = [].
Proof.
  rewrite hiru_parse_article_run. destruct (md5_hex _); [|done].
  destruct (strptime _ _); by intros [= <- <- <-].
Qed.

(** An ID is 32 characters long, so no article file is called
    [existing_ids.json]. *)
Lemma hiru_article_path_not_ids_file article category dt key :
  md5_hex key = Some (id article) →
  hiru_article_path article category dt ≠ Hirunews.existing_ids_file category.
Proof.
  intros Hhash. unfold md5_hex in Hhash.
  destruct (encode key) as [bytes|]; [|done]. injection Hhash as Hid.
  destruct (hexdigest_shape bytes) as [Hlen _]. rewrite Hid in Hlen.
  unfold hiru_article_path, Hirunews.existing_ids_file, path_join,
    Hirunews.article_filename.
  intros Heq. do 2 apply app_inv_head in Heq.
  apply (f_equal length) in Heq. rewrite !length_app, Hlen in Heq.
  change (length (u "existing_ids.json")) with 17%nat in Heq. lia.
Qed.

(** [save_article] asks nothing of the site, marks nothing and leaves
    the Seen-Set file alone. *)
Lemma hiru_save_article_spec article category s r s2 t key :
  md5_hex key = Some (id article) →
  Hirunews.save_article article category s = (r, s2, t) →
  marks t = [] ∧ requests t = [] ∧ pages_done t = [] ∧ errors t = []
  ∧ fs s2 !! Hirunews.existing_ids_file category
    = fs s !! Hirunews.existing_ids_file category
  ∧ (∀ e, r = Raise e → records t = [] ∧ writes t = []).
Proof.
  intros Hhash Hsave.
  destruct (hiru_save_article_cases article category s)
    as [[_ Hrun] | (dt & s1 & r' & s2' & t' & _ & Hfs & _ & Hrun & Hw)];
    rewrite Hrun in Hsave; injection Hsave as <- <- <-; [done|].
  apply written_quiet in Hw as (? & ? & ? & ? & _ & _ & _ & Hother & ?).
  split_and!; try done. rewrite <- Hfs. apply Hother.
  intros Heq. by eapply hiru_article_path_not_ids_file.
Qed.

Lemma hiru_accounted_refl category c s : hiru_accounted category c s c s [].
Proof.
  unfold hiru_accounted. simpl. split_and!; try done; [constructor | set_solver..].
Qed.

Lemma hiru_accounted_trans category c s c1 s1 t1 c2 s2 t2 :
  hiru_accounted category c s c1 s1 t1 → hiru_accounted category c1 s1 c2 s2 t2 →
  hiru_accounted category c s c2 s2 (t1 ++ t2).
Proof.
  intros (Hd1 & He1 & Hn1 & Ht1 & Hr1 & Hf1) (Hd2 & He2 & Hn2 & Ht2 & Hr2 & Hf2).
  unfold hiru_accounted. rewrite marks_app, records_app, !length_app.
  split_and!.
  - by apply marks_follow_writes_app.
  - rewrite He2, He1, list_to_set_app_L. set_solver.
  - rewrite Hn2, Hn1, list_to_set_app_L. set_solver.
  - lia.
  - lia.
  - by rewrite Hf2, Hf1.
Qed.

(** A stretch that marks nothing and writes no record. *)
Lemma hiru_accounted_quiet category c s s' t :
  marks t = [] → records t = [] →
  fs s' !! Hirunews.existing_ids_file category
  = fs s !! Hirunews.existing_ids_file category →
  hiru_accounted category c s c s' t.
Proof.
  intros Hmarks Hrecords Hfile. unfold hiru_accounted. rewrite Hmarks, Hrecords. simpl.
  split_and!; try done; [by apply marks_follow_writes_unmarked | set_solver..].
Qed.

Lemma hiru_step_accounted category article_data c s c' s' t :
  hiru_step category article_data c s c' s' t → hiru_accounted category c s c' s' t.
Proof.
  destruct 1 as [Hitem | d Hitem Hhash | d article s1 Hitem Hparse Hseen
                 | d article s1 s2 path Hitem Hparse Hnew Hsave Hfs
                 | d article s1 e s2 t Hitem Hparse Hnew Hsave].
  - by apply hiru_accounted_quiet.
  - by apply hiru_accounted_quiet.
  - apply hiru_parse_article_ok in Hparse as (_ & Hfs & _).
    apply hiru_accounted_quiet; [done.. | by rewrite Hfs].
  - apply hiru_parse_article_ok in Hparse as (Hhash & Hfs1 & _).
    eapply hiru_save_article_spec in Hsave as (_ & _ & _ & _ & Hfile & _); [|done].
    unfold hiru_accounted. simpl. split_and!; try done; [|set_solver.. | by rewrite Hfile, Hfs1].
    constructor; [done|]. constructor; [apply hiru_record_id | constructor].
  - apply hiru_parse_article_ok in Hparse as (Hhash & Hfs1 & _).
    eapply hiru_save_article_spec in Hsave as (Hm & _ & _ & _ & Hfile & Hraise); [|done].
    destruct (Hraise e eq_refl) as [Hrec _].
    apply hiru_accounted_quiet.
    + by rewrite marks_app, Hm.
    + by rewrite records_app, Hrec.
    + by rewrite Hfile, Hfs1.
Qed.

Lemma hiru_steps_accounted category articles_data c s c' s' t :
  hiru_steps category articles_data c s c' s' t → hiru_accounted category c s c' s' t.
Proof.
  induction 1; [apply hiru_accounted_refl|].
  eapply hiru_accounted_trans; [by eapply hiru_step_accounted | done].
Qed.

(** Within a page: no request, and the page counter counts the marks. *)
Lemma hiru_steps_page category articles_data c s c' s' t :
  hiru_steps category articles_data c s c' s' t →
  requests t = [] ∧ pages_done t = []
  ∧ Hirunews.page_new_articles c'
    = (length (marks t) + Hirunews.page_new_articles c)%nat.
Proof.
  induction 1 as [|article_data rest c s c1 s1 t1 c2 s2 t2 Hstep _ (Hr & Hp & Hn)];
    [done|].
  rewrite requests_app, pages_done_app, marks_app, length_app, Hr, Hp, Hn.
  destruct Hstep as [Hitem | d Hitem Hhash | d article s1' Hitem Hparse Hseen
                     | d article s1' s2' path Hitem Hparse Hnew Hsave Hfs
                     | d article s1' e s2' t Hitem Hparse Hnew Hsave];
    simpl; try (split_and!; try done; lia).
  apply hiru_parse_article_ok in Hparse as (Hhash & _).
  eapply hiru_save_article_spec in Hsave as (Hm & Hq & Hpd & _); [|done].
  rewrite requests_app, pages_done_app, marks_app, Hm, Hq, Hpd. simpl.
  split_and!; try done; lia.
Qed.

End HirunewsAccounts.

(** ** Positions in a trace *)

(** Where an element with property [P] can sit in [l ++ x :: r] when [l]
    has none: at [x], or behind it. *)
Lemma split_at_first {A} (P : A → Prop) (l : list A) x r pre y post :
  Forall (fun a => ¬ P a) l → P y →
  l ++ x :: r = pre ++ y :: post →
  (pre = l ∧ y = x ∧ post = r)
  ∨ (∃ pre2, pre = l ++ x :: pre2 ∧ r = pre2 ++ y :: post).
Proof.
  intros Hl Hy. revert pre. induction Hl as [|a l Ha _ IH]; intros pre Heq.
  - destruct pre as [|b pre]; simplify_eq /=; [by left | right; eauto].
  - destruct pre as [|b pre]; simplify_eq /=; [done|].
    destruct (IH pre) as [(-> & -> & ->) | (pre2 & -> & ->)]; [done | by left |].
    right. by exists pre2.
Qed.

(** An element with property [P] of [l ++ r] is in [l] when [r] has
    none. *)
Lemma split_in_left {A} (P : A → Prop) (l r : list A) pre y post :
  Forall (fun a => ¬ P a) r → P y →
  l ++ r = pre ++ y :: post →
  ∃ post', l = pre ++ y :: post' ∧ post = post' ++ r.
Proof.
  intros Hr Hy. revert pre. induction l as [|a l IH]; intros pre Heq.
  - simpl in Heq. subst r. apply Forall_app in Hr as [_ Hr].
    by apply Forall_cons in Hr as [? _].
  - destruct pre as [|b pre]; simplify_eq /=; [by exists l|].
    destruct (IH pre) as (post' & -> & ->); [done|]. by exists post'.
Qed.

Lemma pages_done_nil_forall t :
  pages_done t = [] → Forall (fun e => ¬ is_page_done e) t.
Proof.
  induction t as [|e t IH]; [constructor|].
  destruct e; simpl; intros Hnone; try discriminate;
    (constructor; [by intros (? & ? & [=]) | by apply IH]).
Qed.


(** ** Hiru News: the crawl of a category *)

Section HirunewsCrawl.
Context `{World} `{HiruSite}.

Lemma hiru_page_start_accounted category c s :
  hiru_accounted category c s (hiru_page_start c) s [].
Proof.
  unfold hiru_accounted. simpl. split_and!; try done; [constructor | set_solver..].
Qed.

(** The book-keeping of the page loop, up to the counters it has when
    it ends or raises. *)
Lemma hiru_crawl_accounted category pages c s r s' t :
  hiru_crawl category pages c s r s' t →
  ∃ c', hiru_accounted category c s c' s' t ∧ ∀ c'', r = Ok c'' → c'' = c'.
Proof.
  induction 1 as [c s | page rest c s Hempty | page rest c s Hbroken
                  | page rest c s items c1 s1 t1 Hpage Hsome Hsteps Hidle
                  | page rest c s items c1 s1 t1 r s2 t2 Hpage Hsome Hsteps Hnew _
                      (c2 & IH & Hr)].
  - exists c. split; [apply hiru_accounted_refl | by intros ? [= <-]].
  - exists c. split; [by apply hiru_accounted_quiet | by intros ? [= <-]].
  - exists c. split; [by apply hiru_accounted_quiet | done].
  - exists c1. split; [|by intros ? [= <-]].
    apply hiru_steps_accounted in Hsteps.
    pose proof (hiru_accounted_trans _ _ _ _ _ _ _ _ _
                  (hiru_page_start_accounted category c s) Hsteps) as Hacc.
    change (Requested page :: t1 ++ [PageDone page 0])
      with ([Requested page] ++ (t1 ++ [PageDone page 0])).
    eapply (hiru_accounted_trans category c s c s);
      [by apply hiru_accounted_quiet|].
    eapply hiru_accounted_trans; [exact Hacc | by apply hiru_accounted_quiet].
  - exists c2. split; [|done].
    apply hiru_steps_accounted in Hsteps.
    pose proof (hiru_accounted_trans _ _ _ _ _ _ _ _ _
                  (hiru_page_start_accounted category c s) Hsteps) as Hacc.
    change (Requested page :: t1 ++ PageDone page (Hirunews.page_new_articles c1) :: t2)
      with ([Requested page]
              ++ (t1 ++ ([PageDone page (Hirunews.page_new_articles c1)] ++ t2))).
    eapply (hiru_accounted_trans category c s c s);
      [by apply hiru_accounted_quiet|].
    eapply hiru_accounted_trans; [exact Hacc|].
    eapply (hiru_accounted_trans category c1 s1 c1 s1); [|exact IH].
    by apply hiru_accounted_quiet.
Qed.

(** The pages asked for are the first pages of the budget. *)
Lemma hiru_crawl_requests category pages c s r s' t :
  hiru_crawl category pages c s r s' t → ∃ k, requests t = take k pages.
Proof.
  induction 1 as [c s | page rest c s Hempty | page rest c s Hbroken
                  | page rest c s items c1 s1 t1 Hpage Hsome Hsteps Hidle
                  | page rest c s items c1 s1 t1 r s2 t2 Hpage Hsome Hsteps Hnew _ [k IH]].
  - by exists 0%nat.
  - by exists 1%nat.
  - by exists 1%nat.
  - exists 1%nat. apply hiru_steps_page in Hsteps as (Hr & _).
    simpl. rewrite requests_app, Hr. simpl. by destruct rest.
  - exists (S k). apply hiru_steps_page in Hsteps as (Hr & _).
    simpl. rewrite requests_app, Hr. simpl. by rewrite IH.
Qed.

(** A page without a new article is the last thing the page loop
    does. *)
Lemma hiru_crawl_stops_when_idle category pages c s r s' t pre page post :
  hiru_crawl category pages c s r s' t →
  t = pre ++ PageDone page 0 :: post → post = [].
Proof.
  intros Hcrawl. revert pre.
  induction Hcrawl as [c s | page' rest c s Hempty | page' rest c s Hbroken
                       | page' rest c s items c1 s1 t1 Hpage Hsome Hsteps Hidle
                       | page' rest c s items c1 s1 t1 r s2 t2 Hpage Hsome Hsteps Hnew _ IH];
    intros pre Hsplit.
  - by destruct pre.
  - by destruct pre as [|? [|? ?]].
  - by destruct pre as [|? [|? ?]].
  - apply hiru_steps_page in Hsteps as (_ & Hp & _).
    change (Requested page' :: t1 ++ [PageDone page' 0])
      with ((Requested page' :: t1) ++ PageDone page' 0 :: []) in Hsplit.
    apply (split_at_first is_page_done) in Hsplit
      as [(_ & _ & ->) | (pre2 & _ & Hrest)]; [done | by destruct pre2 | | by eexists _, _].
    constructor; [by intros (? & ? & [=]) | by apply pages_done_nil_forall].
  - apply hiru_steps_page in Hsteps as (_ & Hp & _).
    change (Requested page' :: t1 ++ PageDone page' (Hirunews.page_new_articles c1) :: t2)
      with ((Requested page' :: t1)
              ++ PageDone page' (Hirunews.page_new_articles c1) :: t2) in Hsplit.
    apply (split_at_first is_page_done) in Hsplit
      as [(_ & [= _ Hzero] & _) | (pre2 & _ & Hrest)]; [done | by eapply IH | | by eexists _, _].
    constructor; [by intros (? & ? & [=]) | by apply pages_done_nil_forall].
Qed.


End HirunewsCrawl.

(** ** Hiru News: a run *)

Section HirunewsRun.
Context `{World} `{HiruSite}.

(** The five ways of a run. *)
Lemma hiru_scrape_category_run category max_pages s :
  ∃ r s' t,
    Hirunews.scrape_category category max_pages s = (r, s', t)
    ∧ hiru_run category max_pages s r s' t.
Proof.
  unfold Hirunews.scrape_category. unfold bind at 1. rewrite hiru_load_run.
  destruct (loaded_from _) as [loaded|e] eqn:Hload.
  2: { eexists _, _, _. split; [done | by constructor]. }
  destruct (hiru_page_loop_crawl category (seq 1 max_pages)
              (Hirunews.Counters loaded ∅ 0 0) s) as ([c|e] & s1 & t & Hloop & Hcrawl).
  2: { eexists _, _, _. split; [|by eapply hiru_run_crawl_raised].
       unfold bind at 1. by rewrite Hloop. }
  unfold bind at 1. rewrite Hloop.
  case_bool_decide as Hnew.
  { eexists _, _, _. split; [|by eapply hiru_run_nothing_new].
    run_only. by rewrite !app_nil_r. }
  unfold bind at 1. rewrite hiru_save_run.
  destruct (mkdir_ok (opens s1)) eqn:Hmkdir.
  2: { eexists _, _, _. split; [|by eapply hiru_run_no_directory].
       by rewrite !app_nil_r. }
  destruct (write_json_written (Hirunews.existing_ids_file category)
              (JList (set_order (opens s1) (Hirunews.existing_ids c))) s1)
    as (r & s2 & t2 & Hsave & Hw).
  rewrite Hsave.
  eexists _, _, _. split; [|by eapply hiru_run_saved].
  destruct r as [[]|e]; run_only; by rewrite ?app_nil_r.
Qed.

(** The book-keeping of a run. *)
Lemma hiru_run_accounted category max_pages s r s' t :
  hiru_run category max_pages s r s' t →
  marks_follow_writes t
  ∧ (∃ k, requests t = take k (seq 1 max_pages))
  ∧ (∀ pre page post, t = pre ++ PageDone page 0 :: post → requests post = [])
  ∧ (∀ n, r = Ok n → n = length (marks t) ∧ n = length (records t))
  ∧ (marks t = [] →
     fs s' !! Hirunews.existing_ids_file category
     = fs s !! Hirunews.existing_ids_file category).
Proof.
  assert (∀ loaded r1 s1 t1 t2,
            hiru_crawl category (seq 1 max_pages) (Hirunews.Counters loaded ∅ 0 0) s
              r1 s1 t1 →
            marks t2 = [] → requests t2 = [] → pages_done t2 = [] →
            marks_follow_writes (t1 ++ t2)
            ∧ (∃ k, requests (t1 ++ t2) = take k (seq 1 max_pages))
            ∧ (∀ pre page post, t1 ++ t2 = pre ++ PageDone page 0 :: post
                                → requests post = [])) as Htrace.
  { intros loaded r1 s1 t1 t2 Hcrawl Hm Hq Hp. split_and!.
    - apply hiru_crawl_accounted in Hcrawl as (c' & (Hdisc & _) & _).
      apply marks_follow_writes_app; [done | by apply marks_follow_writes_unmarked].
    - apply hiru_crawl_requests in Hcrawl as [k Hreq]. exists k.
      by rewrite requests_app, Hq, app_nil_r.
    - intros pre page post Hsplit.
      apply (split_in_left is_page_done) in Hsplit as (post' & Hsplit & ->);
        [|by apply pages_done_nil_forall | by eexists _, _].
      eapply hiru_crawl_stops_when_idle in Hsplit as ->; done. }
  destruct 1 as [e Hload | loaded e s1 t Hload Hcrawl | loaded c s1 t Hload Hcrawl Hnew
                 | loaded c s1 t Hload Hcrawl Hnew Hmkdir
                 | loaded c s1 t r s2 t2 Hload Hcrawl Hnew Hmkdir Hw].
  - split_and!; [constructor | by exists 0%nat | by intros [|??] | done | done].
  - destruct (Htrace _ _ _ _ [] Hcrawl) as (Hd & Hr & Hi); [done..|].
    rewrite app_nil_r in Hd, Hr, Hi. split_and!; [done.. |].
    apply hiru_crawl_accounted in Hcrawl as (c' & (_ & _ & _ & _ & _ & Hfile) & _).
    done.
  - destruct (Htrace _ _ _ _ [] Hcrawl) as (Hd & Hr & Hi); [done..|].
    rewrite app_nil_r in Hd, Hr, Hi.
    apply hiru_crawl_accounted in Hcrawl as (c' & (_ & _ & _ & Htotal & Hrec & Hfile) & Hc).
    rewrite <- (Hc c eq_refl) in Htotal. simpl in Htotal.
    split_and!; [done.. | | done]. intros n [= <-]. lia.
  - destruct (Htrace _ _ _ _ [] Hcrawl) as (Hd & Hr & Hi); [done..|].
    rewrite app_nil_r in Hd, Hr, Hi.
    apply hiru_crawl_accounted in Hcrawl as (c' & (_ & _ & _ & _ & _ & Hfile) & _).
    split_and!; done.
  - pose proof (written_quiet _ _ _ _ _ _ Hw) as (Hm & Hq & Hp & _ & _ & _ & _ & _ & Hraise).
    destruct (Htrace _ _ _ _ t2 Hcrawl) as (Hd & Hr & Hi); [done..|].
    apply hiru_crawl_accounted in Hcrawl as (c' & (_ & _ & Hids & Htotal & Hrec & Hfile) & Hc).
    rewrite <- (Hc c eq_refl) in Htotal, Hids. simpl in Htotal, Hids.
    split_and!; [done.. | |].
    + destruct Hw; try done. intros n [= <-].
      rewrite marks_app, records_app, !length_app. simpl. lia.
    + rewrite marks_app. intros [Hnone _]%app_eq_nil. exfalso. apply Hnew.
      rewrite Hids, Hnone. simpl. by rewrite (left_id_L ∅ (∪)).
Qed.

(** Every insertion into the Seen-Set comes right after the write of
    the record with that ID. *)
Theorem hiru_marks_follow_writes category max_pages s pre i post :
  trace (Hirunews.scrape_category category max_pages s) = pre ++ Marked i :: post →
  ∃ pre' path doc, pre = pre' ++ [Wrote path doc] ∧ record_id doc = Some i.
Proof.
  apply marks_follow_writes_split.
  destruct (hiru_scrape_category_run category max_pages s) as (r & s' & t & -> & Hrun).
  by apply hiru_run_accounted in Hrun as (Hdisc & _).
Qed.

(** A page without a new article ends the pagination: no page is
    requested after it. *)
Theorem hiru_no_request_after_idle_page category max_pages s pre page post :
  trace (Hirunews.scrape_category category max_pages s) = pre ++ PageDone page 0 :: post →
  requests post = [].
Proof.
  destruct (hiru_scrape_category_run category max_pages s) as (r & s' & t & -> & Hrun).
  apply hiru_run_accounted in Hrun as (_ & _ & Hidle & _). apply Hidle.
Qed.

(** The pages requested are 1, 2, ... up to some page within the
    budget. *)
Theorem hiru_requests_consecutive_pages category max_pages s :
  ∃ k, (k ≤ max_pages)%nat
       ∧ requests (trace (Hirunews.scrape_category category max_pages s)) = seq 1 k.
Proof.
  destruct (hiru_scrape_category_run category max_pages s) as (r & s' & t & -> & Hrun).
  apply hiru_run_accounted in Hrun as (_ & [k Hreq] & _).
  exists (k `min` max_pages)%nat. split; [lia|].
  unfold trace. simpl. rewrite Hreq. by rewrite take_seq.
Qed.

(** The number returned is the number of IDs marked, and of article
    records written. *)
Theorem hiru_count_is_marks category max_pages s n :
  result (Hirunews.scrape_category category max_pages s) = Ok n →
  n = length (marks (trace (Hirunews.scrape_category category max_pages s)))
  ∧ n = length (records (trace (Hirunews.scrape_category category max_pages s))).
Proof.
  destruct (hiru_scrape_category_run category max_pages s) as (r & s' & t & -> & Hrun).
  apply hiru_run_accounted in Hrun as (_ & _ & _ & Hcount & _). apply Hcount.
Qed.


(** A run that marks nothing leaves the Seen-Set file as it was: the
    file is opened for writing only when there is a new ID. *)
Theorem hiru_nothing_new_keeps_seen_set_file category max_pages s :
  marks (trace (Hirunews.scrape_category category max_pages s)) = [] →
  fs (final (Hirunews.scrape_category category max_pages s))
    !! Hirunews.existing_ids_file category
  = fs s !! Hirunews.existing_ids_file category.
Proof.
  destruct (hiru_scrape_category_run category max_pages s) as (r & s' & t & -> & Hrun).
  apply hiru_run_accounted in Hrun as (_ & _ & _ & _ & Hfile). apply Hfile.
Qed.

End HirunewsRun.

(** ** Hiru News: a second run *)

Section HirunewsSecondRun.
Context `{World} `{HiruSite}.

Lemma list_to_set_nil_inv (l : list pystr) : list_to_set (C := gset pystr) l = ∅ → l = [].
Proof. destruct l as [|x l]; [done|]. simpl. set_solver. Qed.

(** When no error was caught, every candidate is in the Seen-Set after
    its turn. *)
Lemma hiru_steps_cover category articles_data c s c' s' t :
  hiru_steps category articles_data c s c' s' t →
  errors t = [] →
  ∀ d i,
    ItemDict d ∈ articles_data → md5_hex (hiru_key d) = Some i →
    i ∈ Hirunews.existing_ids c'.
Proof.
  induction 1 as [|article_data rest c s c1 s1 t1 c2 s2 t2 Hstep Hsteps IH];
    intros Herr d i Hin Hhash; [by apply elem_of_nil in Hin|].
  rewrite errors_app in Herr. apply app_eq_nil in Herr as [Herr1 Herr2].
  apply elem_of_cons in Hin as [<- | Hin]; [|by eapply IH].
  apply hiru_steps_accounted in Hsteps as (_ & -> & _).
  apply elem_of_union_r.
  destruct Hstep as [Hnone | d' Hd Hnone | d' article sa Hd Hparse Hseen
                     | d' article sa sb path Hd Hparse Hnew Hsave Hfs
                     | d' article sa e sb t Hd Hparse Hnew Hsave].
  - done.
  - done.
  - injection Hd as <-. apply hiru_parse_article_ok in Hparse as (Hid & _). by simplify_eq.
  - injection Hd as <-. apply hiru_parse_article_ok in Hparse as (Hid & _).
    simplify_eq. simpl. set_solver.
  - rewrite errors_app in Herr1. by apply app_eq_nil in Herr1 as [_ ?].
Qed.

Lemma hiru_crawl_covers_first_page category page rest c s c' s' t :
  hiru_crawl category (page :: rest) c s (Ok c') s' t →
  errors t = [] →
  ∃ items,
    api_response category page = ApiItems items
    ∧ ∀ d i, ItemDict d ∈ items → md5_hex (hiru_key d) = Some i →
             i ∈ Hirunews.existing_ids c'.
Proof.
  intros Hcrawl Herr.
  inversion Hcrawl as [| ? ? ? ? Hempty | ? ? ? ? Hbroken
                       | ? ? ? ? items c1 s1 t1 Hpage Hsome Hsteps Hidle
                       | ? ? ? ? items c1 s1 t1 r s2 t2 Hpage Hsome Hsteps Hnew Hrest];
    subst.
  - exists []. split; [done|]. intros d i Hin. by apply elem_of_nil in Hin.
  - exists items. split; [done|]. intros d i. eapply hiru_steps_cover; [done|].
    simpl in Herr. rewrite errors_app in Herr. by apply app_eq_nil in Herr as [? _].
  - exists items. split; [done|]. intros d i Hin Hhash.
    simpl in Herr. rewrite errors_app in Herr. apply app_eq_nil in Herr as [Herr _].
    apply hiru_crawl_accounted in Hrest as (c2 & (_ & Hids & _) & Hc).
    rewrite <- (Hc c' eq_refl) in Hids. rewrite Hids.
    apply elem_of_union_r. by eapply hiru_steps_cover.
Qed.

(** When every candidate that can be hashed is known already, the
    article loop only reports. *)
Lemma hiru_steps_all_seen category articles_data c s c' s' t :
  (∀ d i, ItemDict d ∈ articles_data → md5_hex (hiru_key d) = Some i →
          i ∈ Hirunews.existing_ids c) →
  hiru_steps category articles_data c s c' s' t →
  c' = c ∧ fs s' = fs s ∧ opens s' = opens s ∧ t = map hiru_report articles_data.
Proof.
  intros Hseen Hsteps.
  induction Hsteps as [|article_data rest c s c1 s1 t1 c2 s2 t2 Hstep Hsteps IH];
    [done|].
  assert (c1 = c ∧ fs s1 = fs s ∧ opens s1 = opens s ∧ t1 = [hiru_report article_data])
    as (-> & Hfs & Hopens & ->).
  { unfold hiru_report.
    destruct Hstep as [-> | d' -> Hnone | d' article sa -> Hparse _
                       | d' article sa sb path -> Hparse Hnew _ _
                       | d' article sa e sb t -> Hparse Hnew _].
    - done.
    - by rewrite Hnone.
    - apply hiru_parse_article_ok in Hparse as (-> & ? & ? & _). done.
    - apply hiru_parse_article_ok in Hparse as (Hid & _).
      destruct Hnew. eapply Hseen; [|done]. by left.
    - apply hiru_parse_article_ok in Hparse as (Hid & _).
      destruct Hnew. eapply Hseen; [|done]. by left. }
  destruct IH as (-> & -> & -> & ->).
  { intros d i Hin. apply Hseen. by right. }
  done.
Qed.

Lemma hiru_crawl_first_page_seen category max_pages loaded s r s' t :
  (∀ d i items,
     (0 < max_pages)%nat → api_response category 1 = ApiItems items →
     ItemDict d ∈ items → md5_hex (hiru_key d) = Some i → i ∈ loaded) →
  ((0 < max_pages)%nat → api_response category 1 ≠ ApiNotIterable) →
  hiru_crawl category (seq 1 max_pages) (Hirunews.Counters loaded ∅ 0 0) s r s' t →
  r = Ok (Hirunews.Counters loaded ∅ 0 0)
  ∧ fs s' = fs s ∧ t = hiru_idle_trace category max_pages.
Proof.
  intros Hseen Hanswer Hcrawl. unfold hiru_idle_trace.
  destruct max_pages as [|m]; simpl in Hcrawl.
  - by inversion Hcrawl.
  - inversion Hcrawl as [| ? ? ? ? Hempty | ? ? ? ? Hbroken
                         | ? ? ? ? items c1 s1 t1 Hpage Hsome Hsteps Hidle
                         | ? ? ? ? items c1 s1 t1 r' s2 t2 Hpage Hsome Hsteps Hnew Hrest];
      subst.
    + by rewrite Hempty.
    + destruct Hanswer; [lia | done].
    + apply hiru_steps_all_seen in Hsteps as (-> & ? & _ & ->);
        [|intros d i; eapply Hseen; [lia | done]].
      rewrite Hpage. split_and!; [done..|]. by destruct items.
    + apply hiru_steps_all_seen in Hsteps as (-> & ? & _ & ->);
        [done | intros d i; eapply Hseen; [lia | done]].
Qed.

(** After a run that returned and caught no error, a second run over a
    site that answers as before finds nothing new: it returns 0, leaves
    every file as it is, and asks for the first page only, whose
    candidates it reports as known. *)
Theorem hiru_second_run_finds_nothing category max_pages s n :
  result (Hirunews.scrape_category category max_pages s) = Ok n →
  errors (trace (Hirunews.scrape_category category max_pages s)) = [] →
  let s1 := final (Hirunews.scrape_category category max_pages s) in
  result (Hirunews.scrape_category category max_pages s1) = Ok 0%nat
  ∧ fs (final (Hirunews.scrape_category category max_pages s1)) = fs s1
  ∧ trace (Hirunews.scrape_category category max_pages s1)
    = hiru_idle_trace category max_pages.
Proof.
  intros Hfirst Herr s1.
  (* the first run: what the Seen-Set file holds after it *)
  assert (∃ known,
            loaded_from (fs s1 !! Hirunews.existing_ids_file category) = Ok known
            ∧ ((0 < max_pages)%nat → api_response category 1 ≠ ApiNotIterable)
            ∧ ∀ d i items,
                (0 < max_pages)%nat → api_response category 1 = ApiItems items →
                ItemDict d ∈ items → md5_hex (hiru_key d) = Some i → i ∈ known)
    as (known & Hknown & Hanswer & Hcover).
  { subst s1.
    destruct (hiru_scrape_category_run category max_pages s) as (r & s' & t & Hrun1 & Hrun).
    rewrite Hrun1 in Hfirst, Herr |- *. unfold result, trace, final in *.
    simpl in Hfirst, Herr |- *. subst r.
    assert (∀ loaded c sc tc,
              hiru_crawl category (seq 1 max_pages) (Hirunews.Counters loaded ∅ 0 0) s
                (Ok c) sc tc →
              errors tc = [] →
              ((0 < max_pages)%nat → api_response category 1 ≠ ApiNotIterable)
              ∧ ∀ d i items,
                  (0 < max_pages)%nat → api_response category 1 = ApiItems items →
                  ItemDict d ∈ items → md5_hex (hiru_key d) = Some i →
                  i ∈ Hirunews.existing_ids c) as Hcovers.
    { intros loaded c sc tc Hcrawl Hnone. destruct max_pages as [|m]; [split; lia|].
      apply hiru_crawl_covers_first_page in Hcrawl as (items & Hpage & Hin); [|done].
      split; [by rewrite Hpage|].
      intros d i items' _ Hpage'. rewrite Hpage in Hpage'. injection Hpage' as <-.
      apply Hin. }
    inversion Hrun as [e' Hload | loaded e' sc tc Hload Hcrawl
                       | loaded c sc tc Hload Hcrawl Hnew
                       | loaded c sc tc Hload Hcrawl Hnew Hmkdir
                       | loaded c sc tc r s2 t2 Hload Hcrawl Hnew Hmkdir Hw Hr]; subst.
    - exists (Hirunews.existing_ids c).
      destruct (Hcovers _ _ _ _ Hcrawl Herr) as [Hanswer Hcover].
      split; [|done].
      apply hiru_crawl_accounted in Hcrawl as (c' & (_ & Hids & Hnews & _ & _ & Hfile) & Hc).
      rewrite <- (Hc c eq_refl) in Hids, Hnews. simpl in Hids, Hnews.
      rewrite Hnew in Hnews.
      assert (marks t = []) as Hmarks by (apply list_to_set_nil_inv; set_solver).
      rewrite Hfile, Hload, Hids, Hmarks. simpl. f_equal. set_solver.
    - exists (Hirunews.existing_ids c).
      rewrite errors_app in Herr. apply app_eq_nil in Herr as [Herr _].
      destruct (Hcovers _ _ _ _ Hcrawl Herr) as [Hanswer Hcover].
      split; [|done].
      destruct Hw; try done. cbn [fs]. rewrite lookup_insert_eq. cbn [loaded_from].
      by rewrite py_set_order. }
  (* the second run *)
  destruct (hiru_scrape_category_run category max_pages s1) as (r & s' & t & -> & Hrun).
  unfold result, trace, final. simpl.
  inversion Hrun as [e' Hload | loaded e' sc tc Hload Hcrawl
                     | loaded c sc tc Hload Hcrawl Hnew
                     | loaded c sc tc Hload Hcrawl Hnew Hmkdir
                     | loaded c sc tc r' s2 t2 Hload Hcrawl Hnew Hmkdir Hw Hr]; subst;
    rewrite Hknown in Hload; try done; injection Hload as <-;
    apply hiru_crawl_first_page_seen in Hcrawl as (Hc & Hfs & ->); try done;
    simplify_eq; done.
Qed.

End HirunewsSecondRun.

Section HirunewsExamples.
#[local] Existing Instances RefDatetime.world Fixture.hiru.

(** The fixture: a first run saves the two articles, a second run stops
    after the first page. *)
Example hiru_first_run :
  result (Hirunews.scrape_category (u "sports") 3 Fixture.fresh) = Ok 2%nat
  ∧ requests (trace (Hirunews.scrape_category (u "sports") 3 Fixture.fresh)) = [1; 2; 3]%nat
  ∧ marks (trace (Hirunews.scrape_category (u "sports") 3 Fixture.fresh))
    = [u "fae47432916217baa443fbb0741fc0ae"; u "c9818d44a1e8b1ad098bde3b6140b6a4"].
Proof. vm_compute. done. Qed.

Lemma hiru_marks_follow_writes_witness :
  trace (Hirunews.scrape_category (u "sports") 3 Fixture.fresh)
  = take 3 (trace (Hirunews.scrape_category (u "sports") 3 Fixture.fresh))
    ++ Marked (u "fae47432916217baa443fbb0741fc0ae")
    :: drop 4 (trace (Hirunews.scrape_category (u "sports") 3 Fixture.fresh))
  ∧ ∃ pre' path doc,
      take 3 (trace (Hirunews.scrape_category (u "sports") 3 Fixture.fresh))
      = pre' ++ [Wrote path doc]
      ∧ record_id doc = Some (u "fae47432916217baa443fbb0741fc0ae").
Proof.
  assert (trace (Hirunews.scrape_category (u "sports") 3 Fixture.fresh)
          = take 3 (trace (Hirunews.scrape_category (u "sports") 3 Fixture.fresh))
            ++ Marked (u "fae47432916217baa443fbb0741fc0ae")
            :: drop 4 (trace (Hirunews.scrape_category (u "sports") 3 Fixture.fresh)))
    as Hsplit by (vm_compute; reflexivity).
  split; [exact Hsplit|].
  exact (hiru_marks_follow_writes (u "sports") 3 Fixture.fresh
           (take 3 (trace (Hirunews.scrape_category (u "sports") 3 Fixture.fresh)))
           (u "fae47432916217baa443fbb0741fc0ae")
           (drop 4 (trace (Hirunews.scrape_category (u "sports") 3 Fixture.fresh)))
           Hsplit).
Defined.

Lemma hiru_no_request_after_idle_page_witness :
  trace (Hirunews.scrape_category (u "sports") 3 Fixture.hiru_done)
  = take 2 (trace (Hirunews.scrape_category (u "sports") 3 Fixture.hiru_done))
    ++ PageDone 1 0
    :: drop 3 (trace (Hirunews.scrape_category (u "sports") 3 Fixture.hiru_done))
  ∧ requests (drop 3 (trace (Hirunews.scrape_category (u "sports") 3 Fixture.hiru_done)))
    = [].
Proof.
  assert (trace (Hirunews.scrape_category (u "sports") 3 Fixture.hiru_done)
          = take 2 (trace (Hirunews.scrape_category (u "sports") 3 Fixture.hiru_done))
            ++ PageDone 1 0
            :: drop 3 (trace (Hirunews.scrape_category (u "sports") 3 Fixture.hiru_done)))
    as Hsplit by (vm_compute; reflexivity).
  split; [exact Hsplit|].
  exact (hiru_no_request_after_idle_page (u "sports") 3 Fixture.hiru_done
           (take 2 (trace (Hirunews.scrape_category (u "sports") 3 Fixture.hiru_done)))
           1%nat
           (drop 3 (trace (Hirunews.scrape_category (u "sports") 3 Fixture.hiru_done)))
           Hsplit).
Defined.

Lemma hiru_count_is_marks_witness :
  2%nat = length (marks (trace (Hirunews.scrape_category (u "sports") 3 Fixture.fresh)))
  ∧ 2%nat = length (records (trace (Hirunews.scrape_category (u "sports") 3 Fixture.fresh))).
Proof.
  assert (result (Hirunews.scrape_category (u "sports") 3 Fixture.fresh) = Ok 2%nat)
    as Hrun by (vm_compute; reflexivity).
  exact (hiru_count_is_marks (u "sports") 3 Fixture.fresh 2 Hrun).
Defined.


Lemma hiru_nothing_new_keeps_seen_set_file_witness :
  marks (trace (Hirunews.scrape_category (u "sports") 3 Fixture.hiru_done)) = []
  ∧ fs (final (Hirunews.scrape_category (u "sports") 3 Fixture.hiru_done))
      !! Hirunews.existing_ids_file (u "sports")
    = fs Fixture.hiru_done !! Hirunews.existing_ids_file (u "sports").
Proof.
  assert (marks (trace (Hirunews.scrape_category (u "sports") 3 Fixture.hiru_done)) = [])
    as Hnone by (vm_compute; reflexivity).
  split; [exact Hnone|].
  exact (hiru_nothing_new_keeps_seen_set_file (u "sports") 3 Fixture.hiru_done Hnone).
Defined.

Lemma hiru_second_run_finds_nothing_witness :
  result (Hirunews.scrape_category (u "sports") 3 Fixture.fresh) = Ok 2%nat
  ∧ errors (trace (Hirunews.scrape_category (u "sports") 3 Fixture.fresh)) = []
  ∧ (let s1 := final (Hirunews.scrape_category (u "sports") 3 Fixture.fresh) in
     result (Hirunews.scrape_category (u "sports") 3 s1) = Ok 0%nat
     ∧ fs (final (Hirunews.scrape_category (u "sports") 3 s1)) = fs s1
     ∧ trace (Hirunews.scrape_category (u "sports") 3 s1)
       = hiru_idle_trace (u "sports") 3).
Proof.
  assert (result (Hirunews.scrape_category (u "sports") 3 Fixture.fresh) = Ok 2%nat)
    as Hrun by (vm_compute; reflexivity).
  assert (errors (trace (Hirunews.scrape_category (u "sports") 3 Fixture.fresh)) = [])
    as Hclean by (vm_compute; reflexivity).
  split; [exact Hrun|]. split; [exact Hclean|].
  exact (hiru_second_run_finds_nothing (u "sports") 3 Fixture.fresh 2 Hrun Hclean).
Defined.

End HirunewsExamples.

(** ** Saving an article again *)

Section RoundTrips.
Context `{World} `{HiruSite}.

(** An article whose timestamp [fromisoformat] reads is written to a
    path that depends on the record and the category only, not on the
    clock. When the directory is there, the file opens and the dump
    completes, the file holds the record; saving the record again
    later, in the same conditions, leaves the files as they are; and a
    later save whose dump is stopped leaves the file of the record
    empty or cut short. *)
Theorem hiru_save_article_overwrites article category dt s :
  fromisoformat (replace_char 0x5A (u "+00:00") (timestamp article)) = Some dt →
  mkdir_ok (opens s) = true →
  disk_ok (opens s) = true →
  disk_write (opens s) = DumpCompletes →
  dumpable (Hirunews.article_dict article category) = true →
  result (Hirunews.save_article article category s) = Ok tt
  ∧ fs (final (Hirunews.save_article article category s))
    = <[hiru_article_path article category dt
        := Json (Hirunews.article_dict article category)]> (fs s)
  ∧ (∀ s2,
       fs s2 = fs (final (Hirunews.save_article article category s)) →
       mkdir_ok (opens s2) = true →
       disk_ok (opens s2) = true →
       disk_write (opens s2) = DumpCompletes →
       fs (final (Hirunews.save_article article category s2)) = fs s2)
  ∧ (∀ s2 e remains,
       fs s2 = fs (final (Hirunews.save_article article category s)) →
       mkdir_ok (opens s2) = true →
       disk_ok (opens s2) = true →
       dump_fails (opens s2) (Hirunews.article_dict article category) e remains →
       result (Hirunews.save_article article category s2) = Raise e
       ∧ fs (final (Hirunews.save_article article category s2))
           !! hiru_article_path article category dt
         = Some remains).
Proof.
  intros Hdate Hmkdir Hdisk Hdump Hdoc.
  assert (∀ s', mkdir_ok (opens s') = true → disk_ok (opens s') = true →
                disk_write (opens s') = DumpCompletes →
                result (Hirunews.save_article article category s') = Ok tt
                ∧ fs (final (Hirunews.save_article article category s'))
                  = <[hiru_article_path article category dt
                      := Json (Hirunews.article_dict article category)]> (fs s')) as Hsave.
  { intros s' Hmkdir' Hdisk' Hdump'. rewrite hiru_save_article_run, Hmkdir', Hdate.
    by rewrite write_json_ok by done. }
  destruct (Hsave s Hmkdir Hdisk Hdump) as [Hres Hfs].
  split_and!; [done.. | |].
  - intros s2 Hsame Hmkdir2 Hdisk2 Hdump2.
    destruct (Hsave s2 Hmkdir2 Hdisk2 Hdump2) as [_ ->].
    rewrite Hsame, Hfs. by rewrite insert_insert_eq.
  - intros s2 e remains Hsame Hmkdir2 Hdisk2 Hfails.
    rewrite hiru_save_article_run, Hmkdir2, Hdate.
    rewrite (write_json_broken _ _ _ e remains) by done.
    split; [done|]. unfold final. cbn [fst snd fs]. by rewrite lookup_insert_eq.
Qed.

End RoundTrips.

Section RoundTripExamples.
#[local] Existing Instances RefDatetime.world Fixture.hiru.

Lemma hiru_save_article_overwrites_witness :
  fromisoformat (replace_char 0x5A (u "+00:00") (u "2025-06-26T08:45:42"))
  = Some (RefDatetime.mk 2025 6 26 8 45 42 0)
  ∧ dumpable (Hirunews.article_dict Fixture.record_a (u "sports")) = true
  ∧ result (Hirunews.save_article Fixture.record_a (u "sports") Fixture.fresh) = Ok tt
  ∧ fs (final (Hirunews.save_article Fixture.record_a (u "sports") Fixture.fresh))
    = <[hiru_article_path Fixture.record_a (u "sports") (RefDatetime.mk 2025 6 26 8 45 42 0)
        := Json (Hirunews.article_dict Fixture.record_a (u "sports"))]> (fs Fixture.fresh).
Proof.
  assert (fromisoformat (replace_char 0x5A (u "+00:00") (timestamp Fixture.record_a))
          = Some (RefDatetime.mk 2025 6 26 8 45 42 0)) as Hdate by (vm_compute; reflexivity).
  assert (dumpable (Hirunews.article_dict Fixture.record_a (u "sports")) = true)
    as Hdoc by (vm_compute; reflexivity).
  split; [exact Hdate|]. split; [exact Hdoc|].
  pose proof (hiru_save_article_overwrites Fixture.record_a (u "sports")
                (RefDatetime.mk 2025 6 26 8 45 42 0) Fixture.fresh Hdate
                eq_refl eq_refl eq_refl Hdoc) as (Hres & Hfs & _).
  exact (conj Hres Hfs).
Defined.

End RoundTripExamples.

(** ** Lankadeepa: one candidate *)

Section LankadeepaSteps.
Context `{World} `{LankaSite}.

Lemma lanka_parse_sinhala_date_state date_text s :
  ∃ ts s',
    Lankadeepa.parse_sinhala_date date_text s = (Ok ts, s', [])
    ∧ fs s' = fs s ∧ opens s' = opens s.
Proof.
  unfold Lankadeepa.parse_sinhala_date.
  destruct (split (strip date_text)) as [|? [|? [|? [|? ?]]]]; by eexists _, _.
Qed.

Lemma lanka_scrape_article_failed key pre s :
  site_article key = None →
  Lankadeepa.scrape_article key pre s = (Ok None, s, [Fetched key]).
Proof. intros Hpage. unfold Lankadeepa.scrape_article. by rewrite Hpage. Qed.

(** A page that is fetched gives a record, unless the search for its
    date breaks. *)
Lemma lanka_scrape_article_page key pre s page i :
  site_article key = Some page → md5_hex key = Some i →
  ∃ s1,
    fs s1 = fs s ∧ opens s1 = opens s
    ∧ ((∃ ts, Lankadeepa.scrape_article key pre s
              = (Ok (Some (lanka_record key i page ts)), s1, [Fetched key]))
       ∨ (Lankadeepa.pre_extracted pre = None
          ∧ page_date page = BrokenDateLink
          ∧ Lankadeepa.scrape_article key pre s = (Raise IndexError, s1, [Fetched key]))).
Proof.
  intros Hpage Hhash. unfold Lankadeepa.scrape_article, Lankadeepa.encode_url.
  rewrite Hpage, Hhash.
  destruct (Lankadeepa.pre_extracted pre) as [ts|] eqn:Hpre.
  - exists s. split_and!; [done..|]. left. by exists ts.
  - destruct (page_date page) as [|date_part|] eqn:Hdate.
    + eexists. split_and!; [| |left; by eexists]; done.
    + destruct (lanka_parse_sinhala_date_state date_part
                  (State (fs s) (S (reads s)) (opens s)))
        as (ts & s1 & Hparse & Hfs & Hopens).
      exists s1. split_and!; [done..|]. left. exists ts. run_only. by rewrite Hparse.
    + exists (State (fs s) (S (reads s)) (opens s)). split_and!; [done..|]. by right.
Qed.

(** [save_article]: the directory cannot be made, or the record is
    written as [written] has it. *)
Lemma lanka_save_article_cases article category s :
  (mkdir_ok (opens s) = false
   ∧ Lankadeepa.save_article article category s = (Raise OSError, s, []))
  ∨ ∃ stamp s1 r s2 t,
      mkdir_ok (opens s) = true
      ∧ fs s1 = fs s ∧ opens s1 = opens s
      ∧ Lankadeepa.save_article article category s = (r, s2, t)
      ∧ written (lanka_article_path category stamp (id article))
          (Lankadeepa.asdict article) s1 r s2 t.
Proof.
  unfold Lankadeepa.save_article, lanka_article_path.
  destruct (mkdir_ok (opens s)) eqn:Hmkdir; [right|].
  2: { left. split; [done|]. unfold bind at 1. unfold makedirs. by rewrite Hmkdir. }
  destruct (fromisoformat _) as [pub_date|].
  - destruct (write_json_written
                (Lankadeepa.category_dir category ++ u "/"
                 ++ strftime pub_date (u "%Y-%m-%d_%H_%M_%S") ++ u "_" ++ id article
                 ++ u ".json")
                (Lankadeepa.asdict article) s) as (r & s2 & t & Hrun & Hw).
    exists (strftime pub_date (u "%Y-%m-%d_%H_%M_%S")), s, r, s2, t.
    split_and!; [done.. | | done].
    unfold bind, ret, makedirs. cbv beta iota zeta. rewrite Hmkdir, Hrun.
    by destruct r as [[]|?].
  - destruct (write_json_written
                (Lankadeepa.category_dir category ++ u "/"
                 ++ strftime (clock (reads s)) (u "%Y-%m-%d_%H_%M_%S") ++ u "_"
                 ++ id article ++ u ".json")
                (Lankadeepa.asdict article) (State (fs s) (S (reads s)) (opens s)))
      as (r & s2 & t & Hrun & Hw).
    exists (strftime (clock (reads s)) (u "%Y-%m-%d_%H_%M_%S")),
      (State (fs s) (S (reads s)) (opens s)), r, s2, t.
    split_and!; [done.. | | done].
    unfold bind, ret, now, makedirs. cbv beta iota zeta. rewrite Hmkdir, Hrun.
    by destruct r as [[]|?].
Qed.

Lemma truthy_nonempty (s : pystr) : truthy s = true ↔ s ≠ [].
Proof. by destruct s. Qed.

Lemma lanka_process_article_step category item c s :
  ∃ r s' t,
    Lankadeepa.process_article category item c s = (r, s', t)
    ∧ lanka_step category item c s r s' t.
Proof.
  unfold Lankadeepa.process_article, Lankadeepa.encode_url.
  destruct (md5_hex (item_url item)) as [i|] eqn:Hhash.
  2: { eexists _, _, _. split; [done | by constructor]. }
  unfold bind at 1. unfold from_option, ret.
  case_bool_decide as Hseen.
  { eexists _, _, _. split; [done | by constructor]. }
  destruct (site_article (item_url item)) as [page|] eqn:Hpage.
  2: { unfold bind at 1.
       rewrite (lanka_scrape_article_failed _ _ _ Hpage).
       eexists _, _, _. split; [done|]. eapply lanka_step_rejected; eauto. by left. }
  destruct (lanka_scrape_article_page (item_url item) (item_timestamp item) s page i
              Hpage Hhash) as (s1 & Hfs & Hopens & [[ts Hscrape] | (Hpre & Hdate & Hscrape)]).
  2: { unfold bind at 1. rewrite Hscrape.
       eexists _, _, _. split; [done|].
       eapply lanka_step_broken_date; eauto. unfold lanka_stamped. by rewrite Hpre. }
  unfold bind at 1. rewrite Hscrape.
  destruct (truthy (headline (lanka_record (item_url item) i page ts))
            && truthy (content (lanka_record (item_url item) i page ts))) eqn:Hgate.
  - apply andb_true_iff in Hgate as [Hh%truthy_nonempty Hc%truthy_nonempty].
    destruct (lanka_save_article_cases (lanka_record (item_url item) i page ts) category s1)
      as [[Hmkdir Hsave] | (stamp & sa & r & s2 & t & Hmkdir & Hfsa & Hopensa & Hsave & Hw)].
    + unfold bind at 1. rewrite Hsave.
      eexists _, _, _. split; [done|]. simpl.
      eapply lanka_step_save_failed; eauto.
    + unfold bind at 1. rewrite Hsave.
      destruct Hw as [Hdisk Hdump Hdoc | Hdisk | e remains Hdisk Hfails].
      * eexists _, _, _. split; [done|]. simpl.
        eapply lanka_step_saved; eauto; simpl; congruence.
      * eexists _, _, _. split; [done|]. simpl.
        eapply lanka_step_save_failed; eauto.
      * eexists _, _, _. split; [done|]. simpl.
        eapply lanka_step_save_failed; eauto.
  - eexists _, _, _. split; [done|]. simpl.
    eapply lanka_step_rejected; eauto.
    right. exists page. split; [done|]. split.
    + apply andb_false_iff in Hgate as [Hh | Hc]; simpl in *.
      * left. by destruct (page_headline page).
      * right. by destruct (page_content page).
    + unfold lanka_stamped, Lankadeepa.scrape_article, Lankadeepa.encode_url in *.
      rewrite Hpage, Hhash in Hscrape.
      destruct (Lankadeepa.pre_extracted (item_timestamp item)); [by left | right].
      intros Hbroken. by rewrite Hbroken in Hscrape.
Qed.

Lemma lanka_article_loop_steps category items c s :
  ∃ r s' t,
    Lankadeepa.article_loop category items c s = (r, s', t)
    ∧ lanka_steps category items c s r s' t.
Proof.
  revert c s. induction items as [|item rest IH]; intros c s.
  - eexists _, _, _. split; [done | constructor].
  - destruct (lanka_process_article_step category item c s)
      as ([c1|e] & s1 & t1 & Hrun1 & Hstep).
    + destruct (IH c1 s1) as (r & s2 & t2 & Hrun2 & Hsteps).
      exists r, s2, (t1 ++ t2). split; [|by econstructor].
      cbn [Lankadeepa.article_loop]. unfold bind. by rewrite Hrun1, Hrun2.
    + exists (Raise e), s1, t1. split; [|by econstructor].
      cbn [Lankadeepa.article_loop]. unfold bind. by rewrite Hrun1.
Qed.

End LankadeepaSteps.

(** ** Lankadeepa: the listing *)

Section LankadeepaListing.
Context `{World} `{LankaSite}.

Lemma rejects_app t1 t2 : rejects (t1 ++ t2) = rejects t1 ++ rejects t2.
Proof. apply omap_app. Qed.

Lemma lanka_extract_loop_spec containers : ∀ acc s,
  ∃ items s',
    Lankadeepa.extract_loop containers acc s = (Ok (acc ++ items), s', [])
    ∧ fs s' = fs s ∧ opens s' = opens s
    ∧ (NoDup (map item_url acc) → NoDup (map item_url (acc ++ items)))
    ∧ Forall (fun it => Lankadeepa.article_link (item_url it) = true
                        ∧ ∃ c, c ∈ containers ∧ link_href c = Some (item_url it)) items
    ∧ (∀ c href, c ∈ containers → link_href c = Some href →
                 Lankadeepa.article_link href = true →
                 href ∈ map item_url (acc ++ items)).
Proof.
  induction containers as [|c rest IH]; intros acc s.
  - exists [], s. rewrite app_nil_r. split_and!; try done.
    intros c href Hin. by apply elem_of_nil in Hin.
  - cbn [Lankadeepa.extract_loop].
    assert (∀ items : list listed,
              Forall (fun it => Lankadeepa.article_link (item_url it) = true
                                ∧ ∃ c', c' ∈ rest ∧ link_href c' = Some (item_url it)) items →
              Forall (fun it => Lankadeepa.article_link (item_url it) = true
                                ∧ ∃ c', c' ∈ c :: rest ∧ link_href c' = Some (item_url it))
                items) as Hweaken.
    { intros items Hitems. eapply Forall_impl; [exact Hitems|]. intros it [? (c' & ? & ?)].
      split; [done|]. exists c'. split; [by right | done]. }
    destruct (link_href c) as [href|] eqn:Hhref.
    2: { destruct (IH acc s) as (items & s' & Hrun & Hfs & Hopens & Hnodup & Hall & Hcomplete).
         exists items, s'. split_and!; try done; [by eapply Hweaken|].
         intros c' href' [-> | Hin]%elem_of_cons Hlink Hvalid; [congruence | eauto]. }
    destruct (Lankadeepa.article_link href) eqn:Hvalid.
    2: { destruct (IH acc s) as (items & s' & Hrun & Hfs & Hopens & Hnodup & Hall & Hcomplete).
         exists items, s'. split_and!; try done; [by eapply Hweaken|].
         intros c' href' [-> | Hin]%elem_of_cons Hlink Hvalid'; [congruence | eauto]. }
    assert (∃ timestamp s1,
              (match timec_text c with
               | Some timestamp_text =>
                   t ← Lankadeepa.parse_sinhala_date timestamp_text; ret (Some t)
               | None => ret None
               end) s = (Ok timestamp, s1, [])
              ∧ fs s1 = fs s ∧ opens s1 = opens s) as (timestamp & s1 & Hts & Hfs1 & Hopens1).
    { destruct (timec_text c) as [text|]; [|by exists None, s].
      destruct (lanka_parse_sinhala_date_state text s) as (ts & s1 & Hrun & ? & ?).
      exists (Some ts), s1. split; [|done]. unfold bind, ret. by rewrite Hrun. }
    unfold bind at 1. rewrite Hts.
    case_bool_decide as Hseen.
    + destruct (IH acc s1) as (items & s' & Hrun & Hfs & Hopens & Hnodup & Hall & Hcomplete).
      exists items, s'. rewrite Hrun. split_and!; try done; try congruence;
        [by eapply Hweaken|].
      intros c' href' [-> | Hin]%elem_of_cons Hlink Hvalid'; [|eauto].
      simplify_eq. rewrite map_app, elem_of_app. by left.
    + destruct (IH (acc ++ [Build_listed href timestamp]) s1)
        as (items & s' & Hrun & Hfs & Hopens & Hnodup & Hall & Hcomplete).
      exists (Build_listed href timestamp :: items), s'.
      rewrite Hrun. rewrite <- !app_assoc. simpl.
      split_and!; try done; try congruence.
      * intros Hacc. rewrite <- app_assoc in Hnodup. apply Hnodup.
        rewrite map_app. simpl. apply NoDup_app. split_and!; [done | | apply NoDup_singleton].
        intros x Hx ->%list_elem_of_singleton. by apply Hseen.
      * constructor; [|by eapply Hweaken].
        split; [done|]. exists c. split; [by left | done].
      * intros c' href' [-> | Hin]%elem_of_cons Hlink Hvalid'.
        -- simplify_eq. rewrite map_app. simpl. set_solver.
        -- rewrite <- app_assoc in Hcomplete. eauto.
Qed.


(** Removing duplicates keeps the first occurrence of every URL, in
    order. *)
Lemma lanka_unique_loop_spec all_articles_data : ∀ seen_urls,
  NoDup (map item_url (Lankadeepa.unique_loop all_articles_data seen_urls))
  ∧ (∀ x, x ∈ map item_url (Lankadeepa.unique_loop all_articles_data seen_urls)
          ↔ x ∈ map item_url all_articles_data ∧ x ∉ seen_urls)
  ∧ Lankadeepa.unique_loop all_articles_data seen_urls `sublist_of` all_articles_data.
Proof.
  induction all_articles_data as [|item rest IH]; intros seen_urls.
  - simpl. split_and!; [constructor | set_solver | constructor].
  - cbn [Lankadeepa.unique_loop]. case_bool_decide as Hseen.
    + destruct (IH seen_urls) as (Hnodup & Hmem & Hsub).
      split_and!; [done | | by constructor].
      intros x. rewrite Hmem. simpl. rewrite elem_of_cons.
      split; [tauto|]. intros [[-> | Hin] Hnot]; tauto.
    + destruct (IH ({[item_url item]} ∪ seen_urls)) as (Hnodup & Hmem & Hsub).
      split_and!; [| | by constructor].
      * simpl. constructor; [|done]. rewrite Hmem.
        intros [_ Hnot]. apply Hnot, elem_of_union_l. by apply elem_of_singleton.
      * intros x. simpl. rewrite elem_of_cons, Hmem, elem_of_cons.
        rewrite not_elem_of_union, not_elem_of_singleton.
        destruct (decide (x = item_url item)) as [->|Hne]; tauto.
Qed.

(** Every entry kept is the first entry with its URL. *)
Lemma lanka_unique_loop_first all_articles_data : ∀ seen_urls item,
  item ∈ Lankadeepa.unique_loop all_articles_data seen_urls →
  (item_url item ∉ seen_urls)
  ∧ (∃ pre post,
       all_articles_data = pre ++ item :: post ∧ item_url item ∉ map item_url pre).
Proof.
  induction all_articles_data as [|first rest IH]; intros seen_urls item Hin.
  - by apply elem_of_nil in Hin.
  - cbn [Lankadeepa.unique_loop] in Hin. case_bool_decide as Hseen.
    + destruct (IH _ _ Hin) as (Hnew & pre & post & -> & Hpre).
      split; [done|]. exists (first :: pre), post. split; [done|].
      simpl. rewrite not_elem_of_cons. split; [|done].
      intros Heq. by rewrite Heq in Hnew.
    + apply elem_of_cons in Hin as [-> | Hin].
      * split; [done|]. exists [], rest. split; [done|]. apply not_elem_of_nil.
      * destruct (IH _ _ Hin) as (Hnew & pre & post & -> & Hpre).
        apply not_elem_of_union in Hnew as [Hne%not_elem_of_singleton Hnew].
        split; [done|]. exists (first :: pre), post. split; [done|].
        simpl. rewrite not_elem_of_cons. by split.
Qed.

(** Removing duplicates: every URL of the listing is kept once, in the
    order of the listing, and the entry kept for a URL is the first
    entry of the listing with that URL. *)
Theorem lanka_unique_articles all_articles_data :
  NoDup (map item_url (Lankadeepa.unique_loop all_articles_data ∅))
  ∧ (∀ x, x ∈ map item_url (Lankadeepa.unique_loop all_articles_data ∅)
          ↔ x ∈ map item_url all_articles_data)
  ∧ Lankadeepa.unique_loop all_articles_data ∅ `sublist_of` all_articles_data
  ∧ ∀ item,
      item ∈ Lankadeepa.unique_loop all_articles_data ∅ →
      ∃ pre post,
        all_articles_data = pre ++ item :: post ∧ item_url item ∉ map item_url pre.
Proof.
  destruct (lanka_unique_loop_spec all_articles_data ∅) as (Hnodup & Hmem & Hsub).
  split_and!; [done | | done |].
  - intros x. rewrite Hmem. set_solver.
  - intros item Hin. by apply lanka_unique_loop_first in Hin as [_ ?].
Qed.

(** Step 1 asks for every page of the budget, whatever the pages hold. *)
Lemma lanka_listing_loop_run category pages : ∀ all_articles_data s,
  ∃ all s',
    Lankadeepa.listing_loop category pages all_articles_data s
    = (Ok all, s', map (fun page => Requested (page + 1)) pages)
    ∧ fs s' = fs s ∧ opens s' = opens s.
Proof.
  induction pages as [|page rest IH]; intros acc s.
  - by exists acc, s.
  - cbn [Lankadeepa.listing_loop]. unfold Lankadeepa.get_category_page.
    destruct (site_page _) as [html|].
    + destruct (lanka_extract_loop_spec html [] s)
        as (items & s1 & Hrun & Hfs1 & Hopens1 & _).
      change (Lankadeepa.extract_loop html [] s)
        with (Lankadeepa.extract_article_urls_with_timestamps html s) in Hrun.
      simpl in Hrun.
      destruct (IH (acc ++ items) s1) as (all & s' & Hloop & Hfs & Hopens).
      exists all, s'. split; [|split; congruence].
      run_only. rewrite Hrun. cbv beta iota zeta. by rewrite Hloop.
    + destruct (IH acc s) as (all & s' & Hloop & Hfs & Hopens).
      exists all, s'. split; [|done]. run_only. by rewrite Hloop.
Qed.

End LankadeepaListing.


(** ** Lankadeepa: the run *)

Section LankadeepaRun.
Context `{World} `{LankaSite}.

(** The run is step 1, whose requests do not depend on what the pages
    hold, followed by one of the five ways the rest can go. *)
Lemma lanka_scrape_category_run category num_pages s :
  ∃ all s0 r s' t,
    Lankadeepa.listing_loop category (seq 0 num_pages) [] s
    = (Ok all, s0, lanka_listed num_pages)
    ∧ fs s0 = fs s ∧ opens s0 = opens s
    ∧ Lankadeepa.scrape_category category num_pages s
      = (r, s', lanka_listed num_pages ++ t)
    ∧ lanka_run category (Lankadeepa.unique_loop all ∅) s0 r s' t.
Proof.
  destruct (lanka_listing_loop_run category (seq 0 num_pages) [] s)
    as (all & s0 & Hlist & Hfs & Hopens).
  exists all, s0.
  unfold Lankadeepa.scrape_category. unfold bind at 1. rewrite Hlist. cbv zeta.
  set (candidates := Lankadeepa.unique_loop all ∅).
  destruct (write_json_written Lankadeepa.step_01_output (JList (map item_url candidates))
              s0) as (r1 & s1 & t1 & Hwrite & Hw).
  unfold bind at 1. rewrite Hwrite.
  destruct r1 as [[]|e].
  2: { eexists _, _, _. split_and!; [done.. | | by constructor]. done. }
  assert (s1 = lanka_listing_written candidates s0 ∧ t1 = lanka_listing_events candidates)
    as [-> ->] by (by inversion Hw).
  unfold bind at 1. rewrite lanka_load_run.
  destruct (lanka_loaded_from _) as [loaded|e] eqn:Hload.
  2: { eexists _, _, _. split_and!; [done.. | | by apply lanka_run_seen_set_unloaded].
       by rewrite app_nil_r. }
  destruct (lanka_article_loop_steps category candidates (Lankadeepa.Counters loaded 0 0)
              (lanka_listing_written candidates s0)) as ([c|e] & s2 & t & Hloop & Hsteps).
  2: { eexists _, _, _. split_and!; [done.. | | by eapply lanka_run_aborted].
       unfold bind at 1. rewrite Hloop. by rewrite app_nil_l. }
  unfold bind at 1. rewrite Hloop.
  unfold bind at 1. rewrite lanka_save_run.
  destruct (mkdir_ok (opens s2)) eqn:Hmkdir.
  2: { eexists _, _, _. split_and!; [done.. | | by eapply lanka_run_no_directory].
       by rewrite app_nil_l, app_nil_r. }
  destruct (write_json_written (Lankadeepa.ids_file category)
              (JList (set_order (opens s2) (Lankadeepa.existing_ids c))) s2)
    as (r & s3 & t3 & Hsave & Hw3).
  rewrite Hsave.
  eexists _, _, _. split_and!; [done.. | | by eapply lanka_run_saved].
  destruct r as [[]|e]; unfold ret; by rewrite ?app_nil_l, ?app_nil_r.
Qed.


Lemma lanka_record_id article :
  record_id (Lankadeepa.asdict article) = Some (id article).
Proof. reflexivity. Qed.

(** The files of a run have different names: an ID is 32 characters
    long, so no article file is called [existing_ids.json]. *)
Lemma lanka_article_path_not_ids_file category stamp key i :
  md5_hex key = Some i →
  lanka_article_path category stamp i ≠ Lankadeepa.ids_file category.
Proof.
  intros Hhash. unfold md5_hex in Hhash.
  destruct (encode key) as [bytes|]; [|done]. injection Hhash as <-.
  destruct (hexdigest_shape bytes) as [Hlen _].
  unfold lanka_article_path, Lankadeepa.ids_file.
  change (u "/existing_ids.json") with (u "/" ++ u "existing_ids.json").
  intros Heq. do 2 apply app_inv_head in Heq.
  apply (f_equal length) in Heq. rewrite !length_app, Hlen in Heq.
  change (length (u "existing_ids.json")) with 17%nat in Heq. lia.
Qed.

Lemma lanka_step_01_output_not_ids_file category :
  Lankadeepa.step_01_output ≠ Lankadeepa.ids_file category.
Proof.
  unfold Lankadeepa.ids_file, Lankadeepa.category_dir. intros Heq.
  apply (f_equal head) in Heq. rewrite <- app_assoc in Heq. discriminate Heq.
Qed.

Lemma lanka_article_path_not_step_01_output category stamp i :
  lanka_article_path category stamp i ≠ Lankadeepa.step_01_output.
Proof.
  unfold lanka_article_path, Lankadeepa.category_dir. intros Heq.
  apply (f_equal head) in Heq. rewrite <- !app_assoc in Heq. discriminate Heq.
Qed.

(** Saving a record touches no event of the book-keeping and not the
    Seen-Set file. *)
Lemma lanka_save_article_spec article category s r s2 t key :
  md5_hex key = Some (id article) →
  Lankadeepa.save_article article category s = (r, s2, t) →
  marks t = [] ∧ requests t = [] ∧ skips t = [] ∧ rejects t = [] ∧ fetches t = []
  ∧ fs s2 !! Lankadeepa.ids_file category = fs s !! Lankadeepa.ids_file category
  ∧ fs s2 !! Lankadeepa.step_01_output = fs s !! Lankadeepa.step_01_output
  ∧ (∀ e, r = Raise e → records t = [] ∧ writes t = []).
Proof.
  intros Hhash Hsave.
  destruct (lanka_save_article_cases article category s)
    as [[_ Hrun] | (stamp & s1 & r' & s2' & t' & _ & Hfs & _ & Hrun & Hw)];
    rewrite Hrun in Hsave; simplify_eq; [done|].
  pose proof (written_quiet _ _ _ _ _ _ Hw) as (? & ? & _ & _ & ? & ? & _ & Hother & ?).
  split_and!; try done.
  - by destruct Hw.
  - rewrite <- Hfs. apply Hother. apply not_eq_sym.
    by eapply lanka_article_path_not_ids_file.
  - rewrite <- Hfs. apply Hother. apply not_eq_sym.
    apply lanka_article_path_not_step_01_output.
Qed.

(** One turn of step 3. *)
Lemma lanka_step_accounted category item c s r s' t :
  lanka_step category item c s r s' t →
  marks_follow_writes t
  ∧ requests t = []
  ∧ Forall viable_record (records t)
  ∧ fs s' !! Lankadeepa.ids_file category = fs s !! Lankadeepa.ids_file category
  ∧ ∀ c', r = Ok c' →
      Lankadeepa.existing_ids c' = list_to_set (marks t) ∪ Lankadeepa.existing_ids c
      ∧ Lankadeepa.new_articles c' = (Lankadeepa.new_articles c + length (marks t))%nat
      ∧ Lankadeepa.skipped_articles c'
        = (Lankadeepa.skipped_articles c + length (skips t))%nat
      ∧ (length (marks t) + length (skips t) + length (rejects t) = 1)%nat.
Proof.
  destruct 1 as [Hhash | i Hhash Hseen | i s1 Hhash Hnew Haway Hfs Hopens
                 | i page s1 Hhash Hnew Hpage Hstamp Hdate Hfs Hopens
                 | i page ts stamp s1 Hhash Hnew Hpage Hh Hc Hdoc Hfs Hopens
                 | i page ts e s1 s2 t Hhash Hnew Hpage Hh Hc Hfs Hopens Hsave]; simpl.
  - split_and!; [constructor | done | constructor | done | done].
  - split_and!; [by repeat constructor | done | constructor | done |].
    intros c' [= <-]. simpl. split_and!; [by rewrite (left_id_L ∅ (∪)) | lia..].
  - split_and!; [by repeat constructor | done | constructor | by rewrite Hfs |].
    intros c' [= <-]. simpl. split_and!; [by rewrite (left_id_L ∅ (∪)) | lia..].
  - split_and!; [by repeat constructor | done | constructor | by rewrite Hfs | done].
  - split_and!.
    + do 2 (apply mfw_other; [done|]). apply mfw_saved; [done | constructor].
    + done.
    + constructor; [|constructor].
      by exists (lanka_record (item_url item) i page ts).
    + rewrite Hfs. apply lookup_insert_ne.
      by eapply lanka_article_path_not_ids_file.
    + intros c' [= <-]. simpl.
      split_and!; [by rewrite (right_id_L ∅ (∪)) | lia..].
  - eapply lanka_save_article_spec in Hsave as (Hm & Hq & _ & _ & _ & Hfile & _ & Hraise);
      [|exact Hhash].
    destruct (Hraise e eq_refl) as [Hrec _].
    split_and!; [| | | congruence | done].
    + apply mfw_other; [done|]. by apply marks_follow_writes_unmarked.
    + done.
    + fold (records t). rewrite Hrec. constructor.
Qed.

(** Step 3 as a whole. *)
Lemma lanka_steps_accounted category items c s r s' t :
  lanka_steps category items c s r s' t →
  marks_follow_writes t
  ∧ requests t = []
  ∧ Forall viable_record (records t)
  ∧ fs s' !! Lankadeepa.ids_file category = fs s !! Lankadeepa.ids_file category
  ∧ ∀ c', r = Ok c' →
      Lankadeepa.existing_ids c' = list_to_set (marks t) ∪ Lankadeepa.existing_ids c
      ∧ Lankadeepa.new_articles c' = (Lankadeepa.new_articles c + length (marks t))%nat
      ∧ Lankadeepa.skipped_articles c'
        = (Lankadeepa.skipped_articles c + length (skips t))%nat
      ∧ (length (marks t) + length (skips t) + length (rejects t) = length items)%nat.
Proof.
  induction 1 as [c s | item rest c s c1 s1 t1 r s2 t2 Hstep Hsteps IH
                  | item rest c s e s1 t1 Hstep].
  - split_and!; [constructor | done | constructor | done |].
    intros c' [= <-]. simpl. split_and!; [by rewrite (left_id_L ∅ (∪)) | lia..].
  - apply lanka_step_accounted in Hstep as (Hd1 & Hr1 & Hv1 & Hf1 & Hc1).
    destruct IH as (Hd2 & Hr2 & Hv2 & Hf2 & Hc2).
    destruct (Hc1 c1 eq_refl) as (Hids1 & Hnew1 & Hskip1 & Hlen1).
    split_and!.
    + by apply marks_follow_writes_app.
    + by rewrite requests_app, Hr1, Hr2.
    + rewrite records_app. by apply Forall_app.
    + congruence.
    + intros c' ->. destruct (Hc2 c' eq_refl) as (Hids2 & Hnew2 & Hskip2 & Hlen2).
      rewrite marks_app, skips_app, rejects_app, !length_app, list_to_set_app_L.
      simpl. split_and!; [|lia..].
      rewrite Hids2, Hids1. rewrite (assoc_L (∪)). f_equal. apply (comm_L (∪)).
  - apply lanka_step_accounted in Hstep as (Hd1 & Hr1 & Hv1 & Hf1 & _).
    split_and!; done.
Qed.

(** A write of a list of strings is no event of the book-keeping. *)
Lemma written_list_quiet path items s r s' t :
  written path (JList items) s r s' t →
  marks_follow_writes t ∧ requests t = [] ∧ records t = [] ∧ marks t = []
  ∧ skips t = [] ∧ rejects t = [].
Proof. destruct 1; split_and!; by repeat constructor. Qed.

(** The run after step 1. *)
Lemma lanka_run_accounted category candidates s0 r s' t :
  lanka_run category candidates s0 r s' t →
  marks_follow_writes t
  ∧ requests t = []
  ∧ Forall viable_record (records t)
  ∧ (∀ e, r = Raise e → lanka_kept_or_broken category (fs s0) (fs s') t)
  ∧ ∀ n k, r = Ok (n, k) →
      n = length (marks t) ∧ k = length (skips t)
      ∧ (n + k + length (rejects t) = length candidates)%nat.
Proof.
  assert (∀ s, fs (lanka_listing_written candidates s) !! Lankadeepa.ids_file category
               = fs s !! Lankadeepa.ids_file category) as Hlisting.
  { intros s. apply lookup_insert_ne, lanka_step_01_output_not_ids_file. }
  assert (marks_follow_writes (lanka_listing_events candidates)) as Hevents
    by (by repeat constructor).
  destruct 1 as [e s1 t Hw | e Hw Hload | loaded e s2 t Hw Hload Hsteps
                 | loaded c s2 t Hw Hload Hsteps Hmkdir
                 | loaded c s2 t r s3 t3 Hw Hload Hsteps Hmkdir Hw3].
  - pose proof (written_list_quiet _ _ _ _ _ _ Hw) as (? & ? & Hrec & _).
    pose proof (written_quiet _ _ _ _ _ _ Hw) as (_ & _ & _ & _ & _ & _ & _ & Hother & _).
    split_and!; [done | done | by rewrite Hrec | | done].
    intros _ _. left. apply Hother. apply not_eq_sym, lanka_step_01_output_not_ids_file.
  - split_and!; [done | done | constructor | | done]. intros _ _. by left.
  - apply lanka_steps_accounted in Hsteps as (Hd & Hr & Hv & Hf & _).
    split_and!; [|done|done| |done].
    + by apply (marks_follow_writes_app (lanka_listing_events candidates)).
    + intros _ _. left. by rewrite Hf.
  - apply lanka_steps_accounted in Hsteps as (Hd & Hr & Hv & Hf & _).
    split_and!; [|done|done| |done].
    + by apply (marks_follow_writes_app (lanka_listing_events candidates)).
    + intros _ _. left. by rewrite Hf.
  - apply lanka_steps_accounted in Hsteps as (Hd & Hr & Hv & Hf & Hc).
    destruct (Hc c eq_refl) as (_ & Hnew & Hskip & Hlen). simpl in Hnew, Hskip.
    pose proof (written_list_quiet _ _ _ _ _ _ Hw3) as (Hd3 & Hr3 & Hrec3 & Hm3 & Hs3 & Hj3).
    split_and!.
    + apply (marks_follow_writes_app (lanka_listing_events candidates)); [done|].
      by apply marks_follow_writes_app.
    + simpl. by rewrite requests_app, Hr, Hr3.
    + simpl. rewrite records_app, Hrec3, app_nil_r. done.
    + intros e' Hraise.
      destruct Hw3 as [| Hdisk | e3 remains Hdisk Hfails]; [done | |].
      * left. simpl. by rewrite Hf.
      * right. exists (lanka_listing_events candidates ++ t), remains.
        split_and!; [by rewrite <- app_assoc | by eapply dump_fails_remains |].
        simpl. apply lookup_insert_eq.
    + destruct Hw3; try done. intros n k [= <- <-]. simpl.
      rewrite marks_app, skips_app, rejects_app, !length_app. simpl. lia.
Qed.


(** Every insertion into the Seen-Set comes right after the write of
    the record with that ID. *)
Theorem lanka_marks_follow_writes category num_pages s pre i post :
  trace (Lankadeepa.scrape_category category num_pages s) = pre ++ Marked i :: post →
  ∃ pre' path doc, pre = pre' ++ [Wrote path doc] ∧ record_id doc = Some i.
Proof.
  apply marks_follow_writes_split.
  destruct (lanka_scrape_category_run category num_pages s)
    as (all & s0 & r & s' & t & _ & _ & _ & -> & Hrun).
  apply lanka_run_accounted in Hrun as (Hdisc & _).
  unfold trace. simpl. apply marks_follow_writes_app; [|done].
  apply marks_follow_writes_unmarked. unfold lanka_listed.
  by induction (seq 0 num_pages).
Qed.

(** The gate of Lankadeepa: every article record a run writes has a
    headline and a content. *)
Theorem lanka_records_pass_the_gate category num_pages s doc :
  doc ∈ records (trace (Lankadeepa.scrape_category category num_pages s)) →
  viable_record doc.
Proof.
  destruct (lanka_scrape_category_run category num_pages s)
    as (all & s0 & r & s' & t & _ & _ & _ & -> & Hrun).
  apply lanka_run_accounted in Hrun as (_ & _ & Hviable & _).
  unfold trace. simpl. rewrite records_app. intros [Hin | Hin]%elem_of_app.
  - exfalso. revert Hin. unfold lanka_listed.
    induction (seq 0 num_pages); simpl; [by intros ?%elem_of_nil | done].
  - by apply (proj1 (Forall_forall _ _) Hviable).
Qed.

(** The summary of a run: the new articles are the IDs marked, the
    skipped ones the candidates found in the Seen-Set, and what is left
    of the candidates was turned away at the gate. *)
Theorem lanka_summary_counts category num_pages s n k :
  result (Lankadeepa.scrape_category category num_pages s) = Ok (n, k) →
  n = length (marks (trace (Lankadeepa.scrape_category category num_pages s)))
  ∧ k = length (skips (trace (Lankadeepa.scrape_category category num_pages s)))
  ∧ (n + k + length (rejects (trace (Lankadeepa.scrape_category category num_pages s)))
     = length (lanka_candidates category num_pages s))%nat.
Proof.
  destruct (lanka_scrape_category_run category num_pages s)
    as (all & s0 & r & s' & t & Hlist & _ & _ & -> & Hrun).
  apply lanka_run_accounted in Hrun as (_ & _ & _ & _ & Hcount).
  unfold result, trace, lanka_candidates. rewrite Hlist. simpl. intros ->.
  destruct (Hcount n k eq_refl) as (-> & -> & Hlen).
  assert (∀ f : event → option pystr,
            (∀ page, f (Requested page) = None) →
            omap f (lanka_listed num_pages ++ t) = omap f t) as Hlisted.
  { intros f Hf. rewrite omap_app.
    assert (omap f (lanka_listed num_pages) = []) as ->; [|done].
    clear Hlist. unfold lanka_listed.
    induction (seq 0 num_pages) as [|page pages IH]; [done|].
    cbn [map omap list_omap]. by rewrite Hf. }
  unfold marks, skips, rejects in *. by rewrite !Hlisted.
Qed.

(** A run that raises before step 4 leaves the Seen-Set file as it
    was: the IDs marked so far are lost, though their article files are
    written. A run that raises in the dump of step 4 leaves the
    Seen-Set file empty or cut short. *)
Theorem lanka_failed_run_keeps_or_breaks_seen_set_file category num_pages s e :
  result (Lankadeepa.scrape_category category num_pages s) = Raise e →
  fs (final (Lankadeepa.scrape_category category num_pages s))
    !! Lankadeepa.ids_file category
  = fs s !! Lankadeepa.ids_file category
  ∨ ∃ pre remains,
      trace (Lankadeepa.scrape_category category num_pages s)
      = pre ++ [Opened (Lankadeepa.ids_file category);
                DumpFailed (Lankadeepa.ids_file category) remains]
      ∧ (remains = Empty ∨ remains = Malformed)
      ∧ fs (final (Lankadeepa.scrape_category category num_pages s))
          !! Lankadeepa.ids_file category
        = Some remains.
Proof.
  destruct (lanka_scrape_category_run category num_pages s)
    as (all & s0 & r & s' & t & _ & Hfs & _ & -> & Hrun).
  apply lanka_run_accounted in Hrun as (_ & _ & _ & Hkept & _).
  unfold result, final, trace. simpl. intros ->.
  destruct (Hkept e eq_refl) as [Hsame | (pre & remains & -> & Hremains & Hfile)].
  - left. by rewrite <- Hfs.
  - right. exists (lanka_listed num_pages ++ pre), remains.
    split_and!; [by rewrite <- app_assoc | done | done].
Qed.

End LankadeepaRun.

Section LankadeepaExamples.
#[local] Existing Instances RefDatetime.world Fixture.lanka.

(** The fixture: three pages, three candidates; the second one has no
    content and is turned away. *)
Example lanka_first_run :
  result (Lankadeepa.scrape_category (u "politics") 3 Fixture.fresh) = Ok (2, 0)%nat
  ∧ requests (trace (Lankadeepa.scrape_category (u "politics") 3 Fixture.fresh))
    = [1; 2; 3]%nat
  ∧ marks (trace (Lankadeepa.scrape_category (u "politics") 3 Fixture.fresh))
    = [u "ebd2234a77c2ae9eda950b246e37c4c1"; u "c95ddf05bbbb4383f92fcba554eece19"]
  ∧ rejects (trace (Lankadeepa.scrape_category (u "politics") 3 Fixture.fresh))
    = [Fixture.url_2].
Proof. vm_compute. done. Qed.

Lemma lanka_marks_follow_writes_witness :
  trace (Lankadeepa.scrape_category (u "politics") 3 Fixture.fresh)
  = take 8 (trace (Lankadeepa.scrape_category (u "politics") 3 Fixture.fresh))
    ++ Marked (u "ebd2234a77c2ae9eda950b246e37c4c1")
    :: drop 9 (trace (Lankadeepa.scrape_category (u "politics") 3 Fixture.fresh))
  ∧ ∃ pre' path doc,
      take 8 (trace (Lankadeepa.scrape_category (u "politics") 3 Fixture.fresh))
      = pre' ++ [Wrote path doc]
      ∧ record_id doc = Some (u "ebd2234a77c2ae9eda950b246e37c4c1").
Proof.
  assert (trace (Lankadeepa.scrape_category (u "politics") 3 Fixture.fresh)
          = take 8 (trace (Lankadeepa.scrape_category (u "politics") 3 Fixture.fresh))
            ++ Marked (u "ebd2234a77c2ae9eda950b246e37c4c1")
            :: drop 9 (trace (Lankadeepa.scrape_category (u "politics") 3 Fixture.fresh)))
    as Hsplit by (vm_compute; reflexivity).
  split; [exact Hsplit|].
  exact (lanka_marks_follow_writes (u "politics") 3 Fixture.fresh
           (take 8 (trace (Lankadeepa.scrape_category (u "politics") 3 Fixture.fresh)))
           (u "ebd2234a77c2ae9eda950b246e37c4c1")
           (drop 9 (trace (Lankadeepa.scrape_category (u "politics") 3 Fixture.fresh)))
           Hsplit).
Defined.

Lemma lanka_records_pass_the_gate_witness :
  Lankadeepa.asdict Fixture.lanka_record_1
    ∈ records (trace (Lankadeepa.scrape_category (u "politics") 3 Fixture.fresh))
  ∧ viable_record (Lankadeepa.asdict Fixture.lanka_record_1).
Proof.
  assert (Lankadeepa.asdict Fixture.lanka_record_1
            ∈ records (trace (Lankadeepa.scrape_category (u "politics") 3 Fixture.fresh)))
    as Hin by (apply (bool_decide_unpack _); vm_compute; exact I).
  split; [exact Hin|].
  exact (lanka_records_pass_the_gate (u "politics") 3 Fixture.fresh
           (Lankadeepa.asdict Fixture.lanka_record_1) Hin).
Defined.

Lemma lanka_summary_counts_witness :
  result (Lankadeepa.scrape_category (u "politics") 3 Fixture.fresh) = Ok (2, 0)%nat
  ∧ 2%nat = length (marks (trace (Lankadeepa.scrape_category (u "politics") 3 Fixture.fresh)))
  ∧ 0%nat = length (skips (trace (Lankadeepa.scrape_category (u "politics") 3 Fixture.fresh)))
  ∧ (2 + 0
     + length (rejects (trace (Lankadeepa.scrape_category (u "politics") 3 Fixture.fresh)))
     = length (lanka_candidates (u "politics") 3 Fixture.fresh))%nat.
Proof.
  assert (result (Lankadeepa.scrape_category (u "politics") 3 Fixture.fresh)
          = Ok (2, 0)%nat) as Hrun by (vm_compute; reflexivity).
  split; [exact Hrun|].
  exact (lanka_summary_counts (u "politics") 3 Fixture.fresh 2 0 Hrun).
Defined.

End LankadeepaExamples.

Section LankadeepaFailureExamples.
#[local] Existing Instances RefDatetime.flaky_disk Fixture.lanka.

(** On a disk whose third [open] fails the run raises at the third
    candidate: the first article is written and marked, and the
    Seen-Set file is not there. *)
Lemma lanka_failed_run_keeps_or_breaks_seen_set_file_witness :
  result (Lankadeepa.scrape_category (u "politics") 3 Fixture.fresh) = Raise OSError
  ∧ (fs (final (Lankadeepa.scrape_category (u "politics") 3 Fixture.fresh))
       !! Lankadeepa.ids_file (u "politics")
     = fs Fixture.fresh !! Lankadeepa.ids_file (u "politics")
     ∨ ∃ pre remains,
         trace (Lankadeepa.scrape_category (u "politics") 3 Fixture.fresh)
         = pre ++ [Opened (Lankadeepa.ids_file (u "politics"));
                   DumpFailed (Lankadeepa.ids_file (u "politics")) remains]
         ∧ (remains = Empty ∨ remains = Malformed)
         ∧ fs (final (Lankadeepa.scrape_category (u "politics") 3 Fixture.fresh))
             !! Lankadeepa.ids_file (u "politics")
           = Some remains).
Proof.
  assert (result (Lankadeepa.scrape_category (u "politics") 3 Fixture.fresh)
          = Raise OSError) as Hrun by (vm_compute; reflexivity).
  split; [exact Hrun|].
  exact (lanka_failed_run_keeps_or_breaks_seen_set_file (u "politics") 3 Fixture.fresh
           OSError Hrun).
Defined.

Example lanka_failed_run_loses_a_mark :
  marks (trace (Lankadeepa.scrape_category (u "politics") 3 Fixture.fresh))
  = [u "ebd2234a77c2ae9eda950b246e37c4c1"].
Proof. vm_compute. done. Qed.

End LankadeepaFailureExamples.

Section LankadeepaFullDiskExamples.
#[local] Existing Instances RefDatetime.full_disk Fixture.lanka.

(** On a disk that is full when the Seen-Set is dumped, the run raises
    in step 4 and leaves an empty Seen-Set file: the two articles are
    written, and the next run takes both for new. *)
Example lanka_failed_run_can_empty_seen_set_file :
  result (Lankadeepa.scrape_category (u "politics") 3 Fixture.fresh) = Raise OSError
  ∧ marks (trace (Lankadeepa.scrape_category (u "politics") 3 Fixture.fresh))
    = [u "ebd2234a77c2ae9eda950b246e37c4c1"; u "c95ddf05bbbb4383f92fcba554eece19"]
  ∧ fs (final (Lankadeepa.scrape_category (u "politics") 3 Fixture.fresh))
      !! Lankadeepa.ids_file (u "politics")
    = Some Empty.
Proof. vm_compute. done. Qed.

End LankadeepaFullDiskExamples.

(** ** Lankadeepa: a second run *)

Section LankadeepaSecondRun.
Context `{World} `{LankaSite}.

(** A time stamp read off the listing is never empty, as long as
    [isoformat] shows something. *)
Lemma lanka_parse_sinhala_date_shown date_text s ts s' t :
  (∀ dt, isoformat dt ≠ []) →
  Lankadeepa.parse_sinhala_date date_text s = (Ok ts, s', t) → truthy ts = true.
Proof.
  intros Hshown. unfold Lankadeepa.parse_sinhala_date.
  destruct (split (strip date_text)) as [|year [|month [|sep [|day rest]]]];
    unfold bind, now, ret; intros [= <- _ _]; apply truthy_nonempty;
    try apply Hshown.
  intros [_ Hdash]%app_eq_nil. discriminate Hdash.
Qed.

(** Whether a container gives its link a time stamp. *)
Lemma lanka_listed_timestamp_run (c : container) href s :
  (∀ dt, isoformat dt ≠ []) →
  ∃ timestamp s1,
    (match timec_text c with
     | Some timestamp_text =>
         t ← Lankadeepa.parse_sinhala_date timestamp_text; ret (Some t)
     | None => ret None
     end) s = (Ok timestamp, s1, [])
    ∧ lanka_stamped (Build_listed href timestamp)
      = match timec_text c with Some _ => true | None => false end.
Proof.
  intros Hshown. destruct (timec_text c) as [text|]; [|by exists None, s].
  destruct (lanka_parse_sinhala_date_state text s) as (ts & s1 & Hrun & _).
  exists (Some ts), s1. split; [unfold bind, ret; by rewrite Hrun|].
  apply lanka_parse_sinhala_date_shown in Hrun; [|done].
  unfold lanka_stamped. simpl. by rewrite Hrun.
Qed.

Lemma lanka_shapes_urls (items1 items2 : list listed) :
  map lanka_shape items1 = map lanka_shape items2 →
  map item_url items1 = map item_url items2.
Proof.
  intros Heq. apply (f_equal (map fst)) in Heq. rewrite !map_map in Heq. exact Heq.
Qed.

(** The links of a page, in order, and whether they come with a time
    stamp, do not depend on the clock. *)
Lemma lanka_extract_loop_shapes containers : ∀ acc1 acc2 s1 s2,
  (∀ dt, isoformat dt ≠ []) →
  map lanka_shape acc1 = map lanka_shape acc2 →
  ∃ r1 r2 s1' s2',
    Lankadeepa.extract_loop containers acc1 s1 = (Ok r1, s1', [])
    ∧ Lankadeepa.extract_loop containers acc2 s2 = (Ok r2, s2', [])
    ∧ map lanka_shape r1 = map lanka_shape r2.
Proof.
  induction containers as [|c rest IH]; intros acc1 acc2 s1 s2 Hshown Hacc.
  - by exists acc1, acc2, s1, s2.
  - cbn [Lankadeepa.extract_loop].
    destruct (link_href c) as [href|]; [|by apply IH].
    destruct (Lankadeepa.article_link href); [|by apply IH].
    destruct (lanka_listed_timestamp_run c href s1 Hshown) as (ts1 & s1a & Hts1 & Hst1).
    destruct (lanka_listed_timestamp_run c href s2 Hshown) as (ts2 & s2a & Hts2 & Hst2).
    pose proof (lanka_shapes_urls _ _ Hacc) as Hurls.
    destruct (decide (href ∈ map item_url acc1)) as [Hseen | Hseen].
    + destruct (IH acc1 acc2 s1a s2a Hshown Hacc)
        as (r1 & r2 & s1' & s2' & Hr1 & Hr2 & Hshapes).
      exists r1, r2, s1', s2'. split_and!; [| |done].
      * unfold bind at 1. rewrite Hts1. cbv beta iota zeta.
        rewrite bool_decide_eq_true_2 by done. by rewrite Hr1.
      * unfold bind at 1. rewrite Hts2. cbv beta iota zeta.
        rewrite bool_decide_eq_true_2 by (by rewrite <- Hurls). by rewrite Hr2.
    + destruct (IH (acc1 ++ [Build_listed href ts1]) (acc2 ++ [Build_listed href ts2])
                  s1a s2a Hshown) as (r1 & r2 & s1' & s2' & Hr1 & Hr2 & Hshapes).
      { rewrite !map_app, Hacc. simpl. unfold lanka_shape at 2 4. simpl.
        by rewrite Hst1, Hst2. }
      exists r1, r2, s1', s2'. split_and!; [| |done].
      * unfold bind at 1. rewrite Hts1. cbv beta iota zeta.
        rewrite bool_decide_eq_false_2 by done. by rewrite Hr1.
      * unfold bind at 1. rewrite Hts2. cbv beta iota zeta.
        rewrite bool_decide_eq_false_2 by (by rewrite <- Hurls). by rewrite Hr2.
Qed.

Lemma lanka_listing_loop_shapes category pages : ∀ acc1 acc2 s1 s2,
  (∀ dt, isoformat dt ≠ []) →
  map lanka_shape acc1 = map lanka_shape acc2 →
  ∃ r1 r2 s1' s2' t1 t2,
    Lankadeepa.listing_loop category pages acc1 s1 = (Ok r1, s1', t1)
    ∧ Lankadeepa.listing_loop category pages acc2 s2 = (Ok r2, s2', t2)
    ∧ map lanka_shape r1 = map lanka_shape r2.
Proof.
  induction pages as [|page rest IH]; intros acc1 acc2 s1 s2 Hshown Hacc.
  - by exists acc1, acc2, s1, s2, [], [].
  - cbn [Lankadeepa.listing_loop]. unfold Lankadeepa.get_category_page.
    destruct (site_page _) as [html|].
    + unfold Lankadeepa.extract_article_urls_with_timestamps.
      destruct (lanka_extract_loop_shapes html [] [] s1 s2 Hshown eq_refl)
        as (items1 & items2 & s1a & s2a & Hitems1 & Hitems2 & Hshapes).
      destruct (IH (acc1 ++ items1) (acc2 ++ items2) s1a s2a Hshown)
        as (r1 & r2 & s1' & s2' & t1 & t2 & Hr1 & Hr2 & Hall).
      { rewrite !map_app. by rewrite Hacc, Hshapes. }
      exists r1, r2, s1', s2'. eexists _, _. split_and!; [| |done].
      * run_only. rewrite Hitems1. cbv beta iota zeta. by rewrite Hr1.
      * run_only. rewrite Hitems2. cbv beta iota zeta. by rewrite Hr2.
    + destruct (IH acc1 acc2 s1 s2 Hshown Hacc)
        as (r1 & r2 & s1' & s2' & t1 & t2 & Hr1 & Hr2 & Hall).
      exists r1, r2, s1', s2'. eexists _, _. split_and!; [| |done].
      * run_only. by rewrite Hr1.
      * run_only. by rewrite Hr2.
Qed.

Lemma lanka_unique_loop_shapes all1 : ∀ all2 seen_urls,
  map lanka_shape all1 = map lanka_shape all2 →
  map lanka_shape (Lankadeepa.unique_loop all1 seen_urls)
  = map lanka_shape (Lankadeepa.unique_loop all2 seen_urls).
Proof.
  induction all1 as [|item1 rest1 IH]; intros [|item2 rest2] seen_urls Hall; try done.
  simpl in Hall. injection Hall as Hurl Hstamped Hrest.
  cbn [Lankadeepa.unique_loop]. rewrite <- Hurl.
  case_bool_decide; simpl; [by apply IH|].
  f_equal; [unfold lanka_shape; by rewrite Hurl, Hstamped | by apply IH].
Qed.

(** Two runs over the same site have the same candidates, apart from
    the time stamps read off the listing. *)
Lemma lanka_candidates_shapes category num_pages s1 s2 :
  (∀ dt, isoformat dt ≠ []) →
  map lanka_shape (lanka_candidates category num_pages s1)
  = map lanka_shape (lanka_candidates category num_pages s2).
Proof.
  intros Hshown. unfold lanka_candidates.
  destruct (lanka_listing_loop_shapes category (seq 0 num_pages) [] [] s1 s2 Hshown eq_refl)
    as (r1 & r2 & s1' & s2' & t1 & t2 & -> & -> & Hall).
  unfold result. simpl. by apply lanka_unique_loop_shapes.
Qed.

Lemma lanka_unseen_known ids key i :
  md5_hex key = Some i → i ∈ ids → lanka_unseen ids key = false.
Proof.
  intros Hhash Hin. unfold lanka_unseen. rewrite Hhash.
  apply bool_decide_eq_false_2. by intros Hnot.
Qed.

Lemma lanka_unseen_new ids key i :
  md5_hex key = Some i → i ∉ ids → lanka_unseen ids key = true.
Proof.
  intros Hhash Hin. unfold lanka_unseen. rewrite Hhash.
  by apply bool_decide_eq_true_2.
Qed.

(** What a completed step 3 leaves: every candidate is known or turned
    away, and those still unknown are among the links turned away. *)
Lemma lanka_steps_settle category items c s r s' t :
  lanka_steps category items c s r s' t →
  ∀ c', r = Ok c' →
    Forall (lanka_settled (Lankadeepa.existing_ids c')) (map lanka_shape items)
    ∧ List.filter (lanka_unseen (Lankadeepa.existing_ids c')) (map item_url items)
      = List.filter (lanka_unseen (Lankadeepa.existing_ids c')) (rejects t)
    ∧ Forall (fun key => ∃ i, md5_hex key = Some i ∧ i ∉ Lankadeepa.existing_ids c)
        (rejects t)
    ∧ (∀ path, path ≠ Lankadeepa.ids_file category →
               (∀ stamp i, path ≠ lanka_article_path category stamp i) →
               fs s' !! path = fs s !! path).
Proof.
  induction 1 as [c s | item rest c s c1 s1 t1 r s2 t2 Hstep Hsteps IH
                  | item rest c s e s1 t1 Hstep]; intros c' Hr; [| |done].
  { injection Hr as <-. split_and!; [constructor | done | constructor | done]. }
  subst r. destruct (IH c' eq_refl) as (Hsettled & Hfilter & Hrejects & Hfile).
  apply lanka_steps_accounted in Hsteps as (_ & _ & _ & _ & Hc2).
  destruct (Hc2 c' eq_refl) as (Hids2 & _).
  pose proof (lanka_step_accounted _ _ _ _ _ _ _ Hstep) as (_ & _ & _ & _ & Hc1).
  destruct (Hc1 c1 eq_refl) as (Hids1 & _).
  assert (∀ i, i ∈ Lankadeepa.existing_ids c1 → i ∈ Lankadeepa.existing_ids c') as Hsub2.
  { intros i Hin. rewrite Hids2. by apply elem_of_union_r. }
  assert (∀ i, i ∈ Lankadeepa.existing_ids c → i ∈ Lankadeepa.existing_ids c1) as Hsub1.
  { intros i Hin. rewrite Hids1. by apply elem_of_union_r. }
  assert (Forall (fun key => ∃ i, md5_hex key = Some i ∧ i ∉ Lankadeepa.existing_ids c)
            (rejects t2)) as Hrejects'.
  { eapply Forall_impl; [exact Hrejects|]. intros key (i & Hhash & Hnot).
    exists i. split; [done|]. intros Hin. by apply Hnot, Hsub1. }
  rewrite rejects_app. cbn [map].
  inversion Hstep as [| i Hhash Hseen | i s1' Hhash Hnew Haway Hfs Hopens
                      | | i page ts stamp s1' Hhash Hnew Hpage Hh Hc Hdoc Hfs Hopens
                      |]; subst; simpl.
  - rewrite (lanka_unseen_known _ _ i) by auto.
    split_and!; [constructor; [|done] | done | done | done].
    exists i. split; [done|]. left. auto.
  - split_and!; [constructor; [|done] | | constructor; [|done] | ].
    + exists i. split; [done|]. by right.
    + destruct (lanka_unseen _ _); [by f_equal | done].
    + by exists i.
    + intros path Hids Hart. rewrite Hfile by done. by rewrite Hfs.
  - rewrite (lanka_unseen_known _ _ i).
    2: done.
    2: { apply Hsub2. rewrite Hids1. simpl. apply elem_of_union_l, elem_of_union_l.
         by apply elem_of_singleton. }
    split_and!; [constructor; [|done] | done | done |].
    + exists i. split; [done|]. left. apply Hsub2. rewrite Hids1. simpl.
      apply elem_of_union_l, elem_of_union_l. by apply elem_of_singleton.
    + intros path Hids Hart. rewrite Hfile by done. rewrite Hfs.
      apply lookup_insert_ne. apply not_eq_sym, Hart.
Qed.

(** Step 3 over candidates that are all settled: nothing is saved, the
    unknown ones are fetched and turned away. *)
Lemma lanka_steps_settled category items c s r s' t :
  lanka_steps category items c s r s' t →
  Forall (lanka_settled (Lankadeepa.existing_ids c)) (map lanka_shape items) →
  ∃ c', r = Ok c'
        ∧ Lankadeepa.existing_ids c' = Lankadeepa.existing_ids c
        ∧ Lankadeepa.new_articles c' = Lankadeepa.new_articles c
        ∧ marks t = [] ∧ records t = []
        ∧ fs s' = fs s ∧ opens s' = opens s
        ∧ fetches t
          = List.filter (lanka_unseen (Lankadeepa.existing_ids c)) (map item_url items).
Proof.
  assert (∀ key stamped page, lanka_turned_away key stamped →
                              site_article key = Some page →
                              page_headline page ≠ [] → page_content page ≠ [] → False)
    as Hgate.
  { intros key stamped page [Hnone | (page' & Hpage' & [Hh | Hc] & _)] Hpage; congruence. }
  assert (∀ key page, lanka_turned_away key false →
                      site_article key = Some page →
                      page_date page = BrokenDateLink → False) as Hdate.
  { intros key page [Hnone | (page' & Hpage' & _ & [? | Hok])] Hpage Hbroken;
      [congruence | done |]. apply Hok. congruence. }
  induction 1 as [c s | item rest c s c1 s1 t1 r s2 t2 Hstep Hsteps IH
                  | item rest c s e s1 t1 Hstep]; intros Hsettled.
  - exists c. split_and!; done.
  - cbn [map] in Hsettled. apply Forall_cons in Hsettled as [(i & Hhash & Hcase) Hrest].
    simpl in Hhash, Hcase.
    inversion Hstep as [| j Hhash' Hseen | j s1' Hhash' Hnew Haway Hfs Hopens
                        | | j page ts stamp s1' Hhash' Hnew Hpage Hh Hc Hdoc Hfs Hopens
                        |]; subst; simplify_eq.
    + destruct (IH Hrest) as (c' & -> & Hids & Hnew & Hmarks & Hrecords & Hfs & Hopens & Hf).
      exists c'. simpl in *. rewrite (lanka_unseen_known _ _ i) by done.
      split_and!; done.
    + destruct (IH Hrest) as (c' & -> & Hids & Hnew' & Hmarks & Hrecords & Hfs' & Hopens'
                              & Hf).
      exists c'. simpl in *. rewrite (lanka_unseen_new _ _ i) by done.
      split_and!; try done; congruence.
    + exfalso. destruct Hcase as [Hin | Haway]; [done | by eapply Hgate].
  - exfalso. cbn [map] in Hsettled.
    apply Forall_cons in Hsettled as [(i & Hhash & Hcase) Hrest].
    simpl in Hhash, Hcase.
    inversion Hstep as [Hnone | |
                        | j page s1' Hhash' Hnew Hpage Hstamp Hbroken Hfs Hopens |
                        | j page ts e' s1' s2' t' Hhash' Hnew Hpage Hh Hc Hfs Hopens Hsave];
      subst; simplify_eq.
    + destruct Hcase as [Hin | Haway]; [done|]. rewrite Hstamp in Haway.
      by eapply Hdate.
    + destruct Hcase as [Hin | Haway]; [done | by eapply Hgate].
Qed.

Lemma lanka_listed_quiet {B} (f : event → option B) num_pages :
  (∀ page, f (Requested page) = None) → omap f (lanka_listed num_pages) = [].
Proof.
  intros Hf. unfold lanka_listed.
  induction (seq 0 num_pages) as [|page pages IH]; [done|].
  cbn [map omap list_omap]. by rewrite Hf.
Qed.

(** The events of a completed run, kind by kind. *)
Lemma lanka_done_trace {B} (f : event → option B) num_pages candidates t path doc :
  (∀ page, f (Requested page) = None) →
  (∀ path, f (Opened path) = None) →
  (∀ path items, f (Wrote path (JList items)) = None) →
  omap f (lanka_listed num_pages
          ++ lanka_listing_events candidates
          ++ t ++ [Opened path; Wrote path (JList doc)])
  = omap f t.
Proof.
  intros Hrequested Hopened Hwrote.
  rewrite !omap_app, lanka_listed_quiet by done.
  unfold lanka_listing_events. cbn [omap list_omap app].
  rewrite !Hopened, !Hwrote. simpl. apply app_nil_r.
Qed.

(** On a disk on which nothing fails, a document the encoder takes is
    written whole. *)
Lemma written_sound path doc s r s' t :
  sound_disk → dumpable doc = true →
  written path doc s r s' t →
  r = Ok tt
  ∧ s' = State (<[path := Json doc]> (fs s)) (reads s) (S (opens s))
  ∧ t = [Opened path; Wrote path doc].
Proof.
  intros Hsound Hdoc. destruct (Hsound (opens s)) as (Hdisk & _ & Hwrite).
  destruct 1 as [| Hfail | e remains _ Hfails]; [done | congruence |].
  unfold dump_fails in Hfails. rewrite Hwrite in Hfails.
  destruct Hfails as [? _]. congruence.
Qed.

(** A second run right after a completed one, on a disk on which
    nothing fails and a site that answers as before, saves nothing: it
    returns no new article, marks no ID and writes no record; it
    leaves every file but the Seen-Set file as it is, and the Seen-Set
    file with the same IDs, in the order the second run lists them; it
    fetches again the links the first run turned away, and only
    those. *)
Theorem lanka_second_run_refetches_rejected category num_pages s n k :
  sound_disk →
  (∀ dt, isoformat dt ≠ []) →
  result (Lankadeepa.scrape_category category num_pages s) = Ok (n, k) →
  ∃ k',
    result (Lankadeepa.scrape_category category num_pages
              (final (Lankadeepa.scrape_category category num_pages s)))
    = Ok (0%nat, k')
    ∧ marks (trace (Lankadeepa.scrape_category category num_pages
                      (final (Lankadeepa.scrape_category category num_pages s)))) = []
    ∧ records (trace (Lankadeepa.scrape_category category num_pages
                        (final (Lankadeepa.scrape_category category num_pages s)))) = []
    ∧ (∀ path,
         path ≠ Lankadeepa.ids_file category →
         fs (final (Lankadeepa.scrape_category category num_pages
                      (final (Lankadeepa.scrape_category category num_pages s)))) !! path
         = fs (final (Lankadeepa.scrape_category category num_pages s)) !! path)
    ∧ (∃ ids1 ids2,
         fs (final (Lankadeepa.scrape_category category num_pages s))
           !! Lankadeepa.ids_file category
         = Some (Json (JList ids1))
         ∧ fs (final (Lankadeepa.scrape_category category num_pages
                        (final (Lankadeepa.scrape_category category num_pages s))))
             !! Lankadeepa.ids_file category
           = Some (Json (JList ids2))
         ∧ ids1 ≡ₚ ids2)
    ∧ fetches (trace (Lankadeepa.scrape_category category num_pages
                        (final (Lankadeepa.scrape_category category num_pages s))))
      = List.filter (lanka_unmarked (trace (Lankadeepa.scrape_category category num_pages s)))
          (rejects (trace (Lankadeepa.scrape_category category num_pages s))).
Proof.
  intros Hsound Hshown.
  destruct (lanka_scrape_category_run category num_pages s)
    as (all1 & s0 & r1 & s1 & t1 & Hlist1 & Hfs0 & Hopens0 & -> & Hrun1).
  unfold result at 1. unfold final, trace. cbn [fst snd]. intros ->.
  destruct (lanka_scrape_category_run category num_pages s1)
    as (all2 & s0' & r2 & s2' & t2 & Hlist2 & Hfs0' & Hopens0' & -> & Hrun2).
  unfold result. cbn [fst snd].
  pose proof (lanka_candidates_shapes category num_pages s s1 Hshown) as Hshapes.
  unfold lanka_candidates, result in Hshapes. rewrite Hlist1, Hlist2 in Hshapes.
  simpl in Hshapes.
  set (candidates1 := Lankadeepa.unique_loop all1 ∅) in *.
  set (candidates2 := Lankadeepa.unique_loop all2 ∅) in *.
  pose proof (lanka_shapes_urls _ _ Hshapes) as Hurls.
  (* the first run *)
  inversion Hrun1 as [| | | | loaded1 c1 s2 t r3 s3 t3 Hw1 Hload1 Hsteps1 Hmkdir1 Hw3
                              Hres Hs1 Ht1].
  subst s3 t1. clear Hrun1.
  assert (dumpable (JList (map item_url candidates1)) = true) as Hdoc1
    by (by inversion Hw1).
  destruct Hw3 as [Hdisk3 Hwrite3 Hdoc3 | |]; [|done..]. clear Hres.
  destruct (lanka_steps_settle _ _ _ _ _ _ _ Hsteps1 c1 eq_refl)
    as (Hsettled & Hfilter & Hrejects & Hfile).
  pose proof (lanka_steps_accounted _ _ _ _ _ _ _ Hsteps1) as (_ & _ & _ & _ & Hc1).
  destruct (Hc1 c1 eq_refl) as (Hids & _). simpl in Hids, Hrejects, Hfs0'.
  assert (fs s2 !! Lankadeepa.step_01_output
          = Some (Json (JList (map item_url candidates2)))) as Hstep01.
  { rewrite Hfile.
    - unfold lanka_listing_written. simpl. rewrite lookup_insert_eq. by rewrite Hurls.
    - apply lanka_step_01_output_not_ids_file.
    - intros stamp i. apply not_eq_sym, lanka_article_path_not_step_01_output. }
  assert (fs (lanka_listing_written candidates2 s0') = fs s0') as Hlisting2.
  { unfold lanka_listing_written. simpl. apply insert_id. rewrite Hfs0'.
    rewrite lookup_insert_ne; [done|].
    intros Heq. by apply (lanka_step_01_output_not_ids_file category). }
  assert (lanka_loaded_from
            (fs (lanka_listing_written candidates2 s0') !! Lankadeepa.ids_file category)
          = Ok (Lankadeepa.existing_ids c1)) as Hload2.
  { rewrite Hlisting2, Hfs0', lookup_insert_eq. cbn [lanka_loaded_from].
    by rewrite py_set_order. }
  assert (∀ r s3 t3,
            lanka_steps category candidates2
              (Lankadeepa.Counters (Lankadeepa.existing_ids c1) 0 0)
              (lanka_listing_written candidates2 s0') r s3 t3 →
            ∃ c', r = Ok c'
                  ∧ Lankadeepa.existing_ids c' = Lankadeepa.existing_ids c1
                  ∧ Lankadeepa.new_articles c' = 0%nat
                  ∧ marks t3 = [] ∧ records t3 = []
                  ∧ fs s3 = fs s0'
                  ∧ fetches t3
                    = List.filter (lanka_unseen (Lankadeepa.existing_ids c1))
                        (map item_url candidates1)) as Hsecond.
  { intros r s3 t3 Hsteps2.
    apply lanka_steps_settled in Hsteps2
        as (c' & -> & Hids' & Hnew' & Hmarks & Hrecords & Hfs3 & _ & Hfetches);
      [|simpl; by rewrite <- Hshapes].
    exists c'. simpl in *. rewrite Hurls. split_and!; try done. congruence. }
  (* the second run *)
  assert (dumpable (JList (map item_url candidates2)) = true) as Hdoc2
    by (by rewrite <- Hurls).
  inversion Hrun2 as [e s3 t3 Hw | e Hw Hload | loaded e s3 t3 Hw Hload Hsteps2
                      | loaded c2 s3 t3 Hw Hload Hsteps2 Hmkdir
                      | loaded c2 s3 t3 r4 s4 t4 Hw Hload Hsteps2 Hmkdir Hw4].
  - by apply written_sound in Hw as (? & _).
  - rewrite Hload2 in Hload. discriminate Hload.
  - rewrite Hload2 in Hload. injection Hload as <-.
    by destruct (Hsecond _ _ _ Hsteps2) as (c' & Hc' & _).
  - destruct (Hsound (opens s3)) as (_ & ? & _). congruence.
  - rewrite Hload2 in Hload. injection Hload as <-.
    destruct (Hsecond _ _ _ Hsteps2)
      as (c' & [= <-] & Hids2 & Hnew2 & Hmarks2 & Hrecords2 & Hfs3 & Hfetches2).
    apply written_sound in Hw4 as (-> & -> & ->); [|done|].
    2: { rewrite Hids2.
         rewrite (dumpable_perm _ (set_order (opens s2) (Lankadeepa.existing_ids c1)));
           [done|].
         by rewrite !set_order_perm. }
    exists (Lankadeepa.skipped_articles c2). cbn [fs].
    split_and!.
    + by rewrite Hnew2.
    + unfold marks. rewrite lanka_done_trace by done. exact Hmarks2.
    + unfold records. rewrite lanka_done_trace by done. exact Hrecords2.
    + intros path Hpath. rewrite lookup_insert_ne by done.
      rewrite Hfs3, Hfs0'. by rewrite lookup_insert_ne.
    + eexists _, _. rewrite !lookup_insert_eq. split_and!; [done..|].
      rewrite Hids2. by rewrite !set_order_perm.
    + unfold fetches at 1. rewrite lanka_done_trace by done. fold (fetches t3).
      rewrite Hfetches2, Hfilter.
      unfold rejects at 2. rewrite lanka_done_trace by done. fold (rejects t).
      apply filter_ext_in. intros key Hin.
      apply list_elem_of_In in Hin.
      apply (proj1 (Forall_forall _ _) Hrejects) in Hin as (i & Hhash & Hnot).
      unfold lanka_unmarked, lanka_unseen, marks. rewrite lanka_done_trace by done.
      fold (marks t). rewrite Hhash. apply bool_decide_ext.
      rewrite Hids, elem_of_union. tauto.
Qed.

End LankadeepaSecondRun.

Section LankadeepaSecondRunExamples.
#[local] Existing Instances RefDatetime.world Fixture.lanka.

Lemma ref_isoformat_shown (dt : RefDatetime.t) : RefDatetime.isoformat dt ≠ [].
Proof.
  unfold RefDatetime.isoformat, RefDatetime.strftime.
  intros [Hdate _]%app_eq_nil. apply (f_equal length) in Hdate. revert Hdate.
  let format := eval vm_compute in (u "%Y-%m-%dT%H:%M:%S") in
  change (u "%Y-%m-%dT%H:%M:%S") with format.
  cbn [RefDatetime.strftime_go]. rewrite length_app. simpl. lia.
Qed.

Lemma lanka_second_run_refetches_rejected_witness :
  sound_disk
  ∧ (∀ dt, isoformat dt ≠ [])
  ∧ result (Lankadeepa.scrape_category (u "politics") 3 Fixture.fresh) = Ok (2, 0)%nat
  ∧ ∃ k',
      result (Lankadeepa.scrape_category (u "politics") 3
                (final (Lankadeepa.scrape_category (u "politics") 3 Fixture.fresh)))
      = Ok (0%nat, k')
      ∧ marks (trace (Lankadeepa.scrape_category (u "politics") 3
                        (final (Lankadeepa.scrape_category (u "politics") 3 Fixture.fresh))))
        = []
      ∧ records (trace (Lankadeepa.scrape_category (u "politics") 3
                          (final (Lankadeepa.scrape_category (u "politics") 3
                                    Fixture.fresh))))
        = []
      ∧ (∀ path,
           path ≠ Lankadeepa.ids_file (u "politics") →
           fs (final (Lankadeepa.scrape_category (u "politics") 3
                        (final (Lankadeepa.scrape_category (u "politics") 3
                                  Fixture.fresh)))) !! path
           = fs (final (Lankadeepa.scrape_category (u "politics") 3 Fixture.fresh)) !! path)
      ∧ (∃ ids1 ids2,
           fs (final (Lankadeepa.scrape_category (u "politics") 3 Fixture.fresh))
             !! Lankadeepa.ids_file (u "politics")
           = Some (Json (JList ids1))
           ∧ fs (final (Lankadeepa.scrape_category (u "politics") 3
                          (final (Lankadeepa.scrape_category (u "politics") 3
                                    Fixture.fresh))))
               !! Lankadeepa.ids_file (u "politics")
             = Some (Json (JList ids2))
           ∧ ids1 ≡ₚ ids2)
      ∧ fetches (trace (Lankadeepa.scrape_category (u "politics") 3
                          (final (Lankadeepa.scrape_category (u "politics") 3
                                    Fixture.fresh))))
        = List.filter
            (lanka_unmarked (trace (Lankadeepa.scrape_category (u "politics") 3
                                      Fixture.fresh)))
            (rejects (trace (Lankadeepa.scrape_category (u "politics") 3 Fixture.fresh))).
Proof.
  assert (sound_disk) as Hsound by (intros m; split_and!; reflexivity).
  assert (result (Lankadeepa.scrape_category (u "politics") 3 Fixture.fresh)
          = Ok (2, 0)%nat) as Hrun by (vm_compute; reflexivity).
  split; [exact Hsound|]. split; [exact ref_isoformat_shown|]. split; [exact Hrun|].
  exact (lanka_second_run_refetches_rejected (u "politics") 3 Fixture.fresh 2 0
           Hsound ref_isoformat_shown Hrun).
Defined.

(** On the fixture the second run skips the two articles saved and
    fetches the rejected one again. *)
Example lanka_second_run :
  result (Lankadeepa.scrape_category (u "politics") 3
            (final (Lankadeepa.scrape_category (u "politics") 3 Fixture.fresh)))
  = Ok (0, 2)%nat
  ∧ fetches (trace (Lankadeepa.scrape_category (u "politics") 3
                      (final (Lankadeepa.scrape_category (u "politics") 3 Fixture.fresh))))
    = [Fixture.url_2].
Proof. vm_compute. done. Qed.

End LankadeepaSecondRunExamples.
